(** * kayaku.backend: the style-preserving JSON5 value model and its encoder

    A shallow embedding of [kayaku/backend/types.py] and
    [kayaku/backend/encode.py], with [_insert_domain] of [kayaku/domain.py].

    - Python text is a list of code points, so that the escape table of the
      encoder (which has entries above U+00FF) is the table of the source.
    - A Python object is a node carrying its identity, its class and its
      instance attributes; [is] compares identities, [isinstance] and method
      lookup walk the method resolution order of the class statements.
    - The sink [fp] of the encoder is the text written so far; an exception
      leaves in the sink whatever was written before it was raised. *)

From Stdlib Require Import ZArith NArith List String Ascii Bool Lia.
From Stdlib Require Import SpecFloat DecimalString HexadecimalString.
From Stdlib Require Import DecimalPos HexadecimalPos.
Import ListNotations.

Set Implicit Arguments.
Set Warnings "-register-all".
Open Scope Z_scope.

(* ================================================================= *)
(** * The model *)

(** ** Text *)

(** A code point; [str] is Python's [str]. *)
Definition char : Type := N.
Definition str : Type := list char.

(** An ASCII literal as Python text. *)
Definition lit (s : string) : str :=
  List.map N_of_ascii (list_ascii_of_string s).

Definition char_eqb (a b : char) : bool := N.eqb a b.

Fixpoint str_eqb (a b : str) : bool :=
  match a, b with
  | [], [] => true
  | x :: a', y :: b' => char_eqb x y && str_eqb a' b'
  | _, _ => false
  end.

(** [len(s)] as a Python integer. *)
Definition len {A : Type} (l : list A) : Z := Z.of_nat (List.length l).

(** [s[:k]] and [s[k:]] with Python's index rules: a negative index counts
    from the end, and the result is clamped to the bounds of [s]. *)
Definition slice_index {A : Type} (l : list A) (k : Z) : nat :=
  let k' := if k <? 0 then k + len l else k in
  Z.to_nat (Z.min (Z.max k' 0) (len l)).

Definition slice_to {A : Type} (l : list A) (k : Z) : list A :=
  firstn (slice_index l k) l.

Definition slice_from {A : Type} (l : list A) (k : Z) : list A :=
  skipn (slice_index l k) l.

(** [str.join] over the empty separator. *)
Definition join (parts : list str) : str := List.concat parts.

(** The text of [int.__repr__] when it returns one: decimal digits, [-] for
    a negative number. *)
Definition int_repr (z : Z) : str :=
  lit (DecimalString.NilZero.string_of_int (Z.to_int z)).

(** [hex]: lowercase digits after [0x], the sign in front. *)
Definition hex (z : Z) : str :=
  (if z <? 0 then lit "-" else []) ++ lit "0x"
  ++ lit (HexadecimalString.NilZero.string_of_uint (N.to_hex_uint (Z.abs_N z))).

(** [str.lower] on the ASCII letters. *)
Definition lower_char (c : char) : char :=
  if (65 <=? c)%N && (c <=? 90)%N then (c + 32)%N else c.

Definition lower (s : str) : str := List.map lower_char s.

(* ================================================================= *)
(** ** Classes *)

(** The classes the two modules mention.  [user_enum] is an enumeration
    declared by a caller (a subclass of [enum.Enum] alone, not a [Flag]) and
    carries its [__name__]; [user_class] is any other class, deriving from
    [object] alone, and carries its qualified name.  [type(obj)] prints
    either. *)
Inductive pyclass : Type :=
| py_object | py_NoneType | py_bool | py_int | py_float | py_str
| py_list | py_tuple | py_dict
| py_date | py_time | py_datetime | py_Pattern | py_Enum
| user_enum (qualname : str)
| user_class (qualname : str)
| JType | JContainer | JObject | Array | Identifier | JString
| JNumber | Float | Integer | HexInteger | JWrapper | BoolWrapper.

(** Modelled from the spec: [JLiteral], which [encode.py] imports from
    [types.py] and [types.py] does not define.  The spec's Literal wrapper is
    the one type for [true] / [false] / [null] and wrapped opaque values, with
    the wrapped value in [value]: that is [JWrapper]. *)
Definition JLiteral : pyclass := JWrapper.

Definition pyclass_eqb (c d : pyclass) : bool :=
  match c, d with
  | py_object, py_object | py_NoneType, py_NoneType | py_bool, py_bool
  | py_int, py_int | py_float, py_float | py_str, py_str
  | py_list, py_list | py_tuple, py_tuple | py_dict, py_dict
  | py_date, py_date | py_time, py_time | py_datetime, py_datetime
  | py_Pattern, py_Pattern | py_Enum, py_Enum
  | JType, JType | JContainer, JContainer | JObject, JObject
  | Array, Array | Identifier, Identifier | JString, JString
  | JNumber, JNumber | Float, Float | Integer, Integer
  | HexInteger, HexInteger | JWrapper, JWrapper
  | BoolWrapper, BoolWrapper => true
  | user_enum n, user_enum m | user_class n, user_class m => str_eqb n m
  | _, _ => false
  end.

(** The bases of each class statement, in the order written.  [Integer] is
    the runtime branch of the [TYPE_CHECKING] test; [Generic] and the
    subscript of [list[T]] add no behaviour and are left out. *)
Definition bases (c : pyclass) : list pyclass :=
  match c with
  | py_object => []
  | py_bool => [py_int]
  | py_datetime => [py_date]
  | user_enum _ => [py_Enum]
  | JType => [py_object]
  | JContainer => [JType]
  | JObject => [JContainer; py_dict]
  | Array => [JContainer; py_list]
  | Identifier => [JType; py_str]
  | JString => [JType; py_str]
  | JNumber => [JType]
  | Float => [py_float; JNumber]
  | Integer => [py_int; JNumber]
  | HexInteger => [Integer]
  | JWrapper => [JType]
  | BoolWrapper => [Integer; JWrapper]
  | _ => [py_object]
  end.

(** Python's C3 linearization of [bases]. *)
Definition in_tail (c : pyclass) (s : list pyclass) : bool :=
  existsb (pyclass_eqb c) (tl s).

Definition good_head (seqs : list (list pyclass)) (c : pyclass) : bool :=
  negb (existsb (in_tail c) seqs).

Definition drop_head (c : pyclass) (s : list pyclass) : list pyclass :=
  match s with
  | h :: t => if pyclass_eqb h c then t else s
  | [] => []
  end.

Definition nonempty {A : Type} (l : list A) : bool :=
  match l with [] => false | _ => true end.

Fixpoint c3_merge (fuel : nat) (seqs : list (list pyclass)) : option (list pyclass) :=
  match fuel with
  | O => None
  | S fuel' =>
      match filter (@nonempty pyclass) seqs with
      | [] => Some []
      | live =>
          match find (good_head live) (List.map (hd py_object) live) with
          | None => None
          | Some c =>
              option_map (cons c) (c3_merge fuel' (List.map (drop_head c) live))
          end
      end
  end.

Fixpoint all_some {A : Type} (l : list (option A)) : option (list A) :=
  match l with
  | [] => Some []
  | None :: _ => None
  | Some x :: l' => option_map (cons x) (all_some l')
  end.

Fixpoint linearize (fuel : nat) (c : pyclass) : option (list pyclass) :=
  match fuel with
  | O => None
  | S fuel' =>
      match all_some (List.map (linearize fuel') (bases c)) with
      | None => None
      | Some parents => option_map (cons c) (c3_merge 16 (parents ++ [bases c]))
      end
  end.

(** The method resolution order, tabulated; [mro_is_c3] below checks the
    table against the linearization. *)
Definition mro (c : pyclass) : list pyclass :=
  match c with
  | py_object => [py_object]
  | py_bool => [py_bool; py_int; py_object]
  | py_datetime => [py_datetime; py_date; py_object]
  | user_enum n => [user_enum n; py_Enum; py_object]
  | JType => [JType; py_object]
  | JContainer => [JContainer; JType; py_object]
  | JObject => [JObject; JContainer; JType; py_dict; py_object]
  | Array => [Array; JContainer; JType; py_list; py_object]
  | Identifier => [Identifier; JType; py_str; py_object]
  | JString => [JString; JType; py_str; py_object]
  | JNumber => [JNumber; JType; py_object]
  | Float => [Float; py_float; JNumber; JType; py_object]
  | Integer => [Integer; py_int; JNumber; JType; py_object]
  | HexInteger => [HexInteger; Integer; py_int; JNumber; JType; py_object]
  | JWrapper => [JWrapper; JType; py_object]
  | BoolWrapper =>
      [BoolWrapper; Integer; py_int; JNumber; JWrapper; JType; py_object]
  | c => [c; py_object]
  end.

Definition issubclass (c d : pyclass) : bool := existsb (pyclass_eqb d) (mro c).

(** [issubclass(c, (d1, d2, ...))] *)
Definition issubclass_any (c : pyclass) (ds : list pyclass) : bool :=
  existsb (issubclass c) ds.

(** The first class of the resolution order that defines a method. *)
Fixpoint resolve {M : Type} (defines : pyclass -> option M) (order : list pyclass)
  : option M :=
  match order with
  | [] => None
  | c :: order' =>
      match defines c with
      | Some m => Some m
      | None => resolve defines order'
      end
  end.

(* ================================================================= *)
(** ** Objects *)

(** Whitespace-or-comment atoms; each is a [str] subclass holding its text. *)
Inductive WSC : Type :=
| WhiteSpace (text : str)
| Comment (text : str)
| BlockStyleComment (text : str)
| LineStyleComment (text : str).

Inductive Quote : Type := SINGLE | DOUBLE.

(** [Quote.value] *)
Definition Quote_value (q : Quote) : str :=
  match q with
  | SINGLE => lit "'"
  | DOUBLE => [34%N]
  end.

(** The attributes the two modules read off an object.  Every one but
    [prefixed] has a class-level default or is read through
    [getattr(obj, name, default)], so an absent one is its default;
    [prefixed] is declared by no class, and [None] is its absence. *)
Record attrs : Type := mk_attrs {
  json_before : list WSC;
  json_after : list WSC;
  json_container_head : list WSC;
  json_container_tail : list WSC;
  json_container_trailing_comma : bool;
  quote : Quote;
  linebreaks : list Z;
  origin : option str;
  prefixed : option bool
}.

(** The attributes of an object straight after construction. *)
Definition no_attrs : attrs :=
  {| json_before := []; json_after := [];
     json_container_head := []; json_container_tail := [];
     json_container_trailing_comma := false;
     quote := DOUBLE; linebreaks := [];
     origin := None; prefixed := None |}.

(** Host values without members.  [PyOpaque] is an instance of a class the
    format has no literal for ([date], [time], [datetime], [re.Pattern], an
    enumeration) or of any other class: [tag] tells its values apart and
    [text] is what [str()] gives for it. *)
Inductive scalar : Type :=
| PyNone
| PyBool (b : bool)
| PyInt (z : Z)
| PyFloat (f : spec_float)
| PyStr (s : str)
| PyOpaque (c : pyclass) (tag : N) (text : str).

Arguments PyOpaque c tag%_N text.

Definition class_of_scalar (v : scalar) : pyclass :=
  match v with
  | PyNone => py_NoneType
  | PyBool _ => py_bool
  | PyInt _ => py_int
  | PyFloat _ => py_float
  | PyStr _ => py_str
  | PyOpaque c _ _ => c
  end.

(** The identity of an object (what [id()] returns and [is] compares). *)
Definition addr : Type := N.

(** An object: identity, class, attributes and contents.
    - [Atom]: [v] is the value of the builtin base ([int], [float], [str],
      [NoneType], an opaque class); for [JWrapper] and [BoolWrapper] it is
      the constructor's argument, kept in [value] (and, for [BoolWrapper],
      converted by [int.__new__] for the integer part).
    - [Seq]: the elements of a [list] or [tuple] (sub)class instance.
    - [Map]: the items of a [dict] (sub)class instance, in insertion order. *)
Inductive pyobj : Type :=
| Atom (id : addr) (c : pyclass) (a : attrs) (v : scalar)
| Seq (id : addr) (c : pyclass) (a : attrs) (l : list pyobj)
| Map (id : addr) (c : pyclass) (a : attrs) (d : list (pyobj * pyobj)).

Arguments Atom id%_N c a v.
Arguments Seq id%_N c a l.
Arguments Map id%_N c a d.

Definition id_of (o : pyobj) : addr :=
  match o with Atom i _ _ _ | Seq i _ _ _ | Map i _ _ _ => i end.

(** [type(o)] *)
Definition type_of (o : pyobj) : pyclass :=
  match o with Atom _ c _ _ | Seq _ c _ _ | Map _ c _ _ => c end.

Definition attrs_of (o : pyobj) : attrs :=
  match o with Atom _ _ a _ | Seq _ _ a _ | Map _ _ a _ => a end.

Definition set_attrs (a : attrs) (o : pyobj) : pyobj :=
  match o with
  | Atom i c _ v => Atom i c a v
  | Seq i c _ l => Seq i c a l
  | Map i c _ d => Map i c a d
  end.

Definition scalar_of (o : pyobj) : scalar :=
  match o with Atom _ _ _ v => v | _ => PyNone end.

Definition elements (o : pyobj) : list pyobj :=
  match o with Seq _ _ _ l => l | _ => [] end.

Definition items (o : pyobj) : list (pyobj * pyobj) :=
  match o with Map _ _ _ d => d | _ => [] end.

(** [a is b] *)
Definition is_ (a b : pyobj) : bool := N.eqb (id_of a) (id_of b).

Definition isinstance (o : pyobj) (c : pyclass) : bool := issubclass (type_of o) c.

(** [isinstance(o, (c1, c2, ...))] and [isinstance(o, c1 | c2 | ...)] *)
Definition isinstance_any (o : pyobj) (cs : list pyclass) : bool :=
  issubclass_any (type_of o) cs.

(** A member-less host object, as the interpreter makes it. *)
Definition host (i : addr) (v : scalar) : pyobj := Atom i (class_of_scalar v) no_attrs v.

Arguments host i%_N v.

(** The integer and float an object is through its builtin base;
    [int(True)] is 1. *)
Definition int_of_scalar (v : scalar) : Z :=
  match v with
  | PyInt z => z
  | PyBool b => if b then 1 else 0
  | _ => 0
  end.

Definition float_of_scalar (v : scalar) : spec_float :=
  match v with
  | PyFloat f => f
  | _ => S754_zero false
  end.

Definition text_of_scalar (v : scalar) : str :=
  match v with
  | PyStr s => s
  | _ => []
  end.

(** Contents agree with the class: what an interpreter can build. *)
Definition wf_scalar (v : scalar) : bool :=
  match v with
  | PyOpaque c _ _ =>
      match c with
      | py_object | py_date | py_time | py_datetime | py_Pattern
      | user_enum _ | user_class _ => true
      | _ => false
      end
  | _ => true
  end.

Definition wf_atom (c : pyclass) (v : scalar) : bool :=
  wf_scalar v &&
  if issubclass c JWrapper then true
  else if issubclass c py_int then
         match v with PyInt _ => true | PyBool _ => pyclass_eqb c py_bool | _ => false end
  else if issubclass c py_float then match v with PyFloat _ => true | _ => false end
  else if issubclass c py_str then match v with PyStr _ => true | _ => false end
  else pyclass_eqb c (class_of_scalar v).

Fixpoint wf (o : pyobj) : bool :=
  match o with
  | Atom _ c _ v => wf_atom c v
  | Seq _ c _ l => issubclass_any c [py_list; py_tuple] && forallb wf l
  | Map _ c _ d =>
      issubclass c py_dict && forallb (fun kv => wf (fst kv) && wf (snd kv)) d
  end.

(* ================================================================= *)
(** ** What the two modules take from outside *)

(** Exceptions the modelled code raises. *)
Inductive exn : Type :=
| NotImplementedError (msg : str)
| AttributeError (msg : str)
| TypeError (msg : str)
| ValueError (msg : str).

(** The host interpreter's [float.__repr__], [float(text)] (with [None] for
    a [ValueError]), [repr(text)], [int(text, base)] on a text that is not
    all ASCII (where the digits and blanks of other scripts count) and hash
    functions, and the repository's [wsc.encode_wsc], whose module is not
    among the sources (the spec: given a WSC atom, it returns its exact
    original text). *)
Class External : Type := {
  float_repr : spec_float -> str;
  encode_wsc : WSC -> str;
  float_parse : str -> option spec_float;
  str_repr : str -> str;
  int_unicode : Z -> str -> exn + Z;
  hash_str : str -> Z;
  hash_float : spec_float -> Z;
  hash_None : Z;
  hash_opaque : pyclass -> N -> Z;
  hash_tuple : list Z -> Z
}.

(** A computation writing to the sink [fp]: from the text written so far to
    the text written after it, and its value or the exception it raised. *)
Definition io (A : Type) : Type := str -> str * (exn + A).

Definition ret {A : Type} (a : A) : io A := fun fp => (fp, inr a).

Definition bind {A B : Type} (c : io A) (k : A -> io B) : io B :=
  fun fp =>
    match c fp with
    | (fp', inr a) => k a fp'
    | (fp', inl e) => (fp', inl e)
    end.

Definition raise {A : Type} (e : exn) : io A := fun fp => (fp, inl e).

(** A call that returns or raises, inside a computation. *)
Definition lift {A : Type} (r : exn + A) : io A :=
  match r with
  | inl e => raise e
  | inr a => ret a
  end.

(** [self.fp.write(s)] *)
Definition write (s : str) : io unit := fun fp => (fp ++ s, inr tt).

Notation "c1 ;; c2" := (bind c1 (fun _ => c2))
  (at level 61, right associativity).

(** [for x in l: body(x)] *)
Definition for_each {A : Type} (l : list A) (body : A -> io unit) : io unit :=
  (fix loop (xs : list A) : io unit :=
     match xs with
     | [] => ret tt
     | x :: xs' => body x ;; loop xs'
     end) l.

(** [if cond: body] *)
Definition when (cond : bool) (body : io unit) : io unit :=
  if cond then body else ret tt.

(** [dumps]: the text an empty sink holds after the call, with the outcome. *)
Definition run {A : Type} (c : io A) : str * (exn + A) := c [].

(** Names of classes: [__name__], and the text of [type(obj)]. *)
Definition class_name (c : pyclass) : str :=
  match c with
  | py_object => lit "object" | py_NoneType => lit "NoneType"
  | py_bool => lit "bool" | py_int => lit "int" | py_float => lit "float"
  | py_str => lit "str" | py_list => lit "list" | py_tuple => lit "tuple"
  | py_dict => lit "dict" | py_date => lit "date" | py_time => lit "time"
  | py_datetime => lit "datetime" | py_Pattern => lit "Pattern"
  | py_Enum => lit "Enum"
  | user_enum n | user_class n => n
  | JType => lit "JType" | JContainer => lit "JContainer"
  | JObject => lit "JObject" | Array => lit "Array"
  | Identifier => lit "Identifier" | JString => lit "JString"
  | JNumber => lit "JNumber" | Float => lit "Float" | Integer => lit "Integer"
  | HexInteger => lit "HexInteger" | JWrapper => lit "JWrapper"
  | BoolWrapper => lit "BoolWrapper"
  end.

Definition class_module (c : pyclass) : str :=
  match c with
  | py_object | py_NoneType | py_bool | py_int | py_float | py_str
  | py_list | py_tuple | py_dict | user_enum _ | user_class _ => []
  | py_date | py_time | py_datetime => lit "datetime."
  | py_Pattern => lit "re."
  | py_Enum => lit "enum."
  | _ => lit "kayaku.backend.types."
  end.

(** [str(type(obj))]: an enumeration class prints as [<enum 'Name'>], by
    the [__repr__] of its metaclass. *)
Definition type_repr (c : pyclass) : str :=
  match c with
  | py_Enum | user_enum _ => lit "<enum '" ++ class_name c ++ lit "'>"
  | _ => lit "<class '" ++ class_module c ++ class_name c ++ lit "'>"
  end.

(** The number of decimal digits CPython reads or writes for one integer,
    at its default: [sys.get_int_max_str_digits()] on the versions that
    have [typing.Self], which [types.py] imports.  Base 16 has no limit. *)
Definition int_max_str_digits : Z := 4300.

(** The digits of [abs(z)] in base 10. *)
Definition decimal_digits (z : Z) : Z := len (int_repr (Z.abs z)).

(** [int.__repr__(z)]: a [ValueError] past the limit. *)
Definition exceeds_str_digits : exn :=
  ValueError
    (lit "Exceeds the limit (4300 digits) for integer string conversion; use sys.set_int_max_str_digits() to increase the limit").

Definition int_repr_checked (z : Z) : exn + str :=
  if int_max_str_digits <? decimal_digits z then inl exceeds_str_digits
  else inr (int_repr z).

(* ================================================================= *)
(** ** types.py: text of values *)

Section Model.
Context {ext : External}.

(** The text of [str(v)] for a member-less host value. *)
Definition str_of_scalar (v : scalar) : str :=
  match v with
  | PyNone => lit "None"
  | PyBool b => if b then lit "True" else lit "False"
  | PyInt z => int_repr z
  | PyFloat f => float_repr f
  | PyStr s => s
  | PyOpaque _ _ text => text
  end.

(** The [__str__] methods [types.py] defines. *)
Inductive str_method : Type :=
| Integer_str | HexInteger_str | BoolWrapper_str.

Definition defines_str (c : pyclass) : option str_method :=
  match c with
  | Integer => Some Integer_str
  | HexInteger => Some HexInteger_str
  | BoolWrapper => Some BoolWrapper_str
  | _ => None
  end.

(** [obj.value] of a wrapper. *)
Definition value (o : pyobj) : scalar := scalar_of o.

(** The integer an [int] subclass instance is. *)
Definition int_of (o : pyobj) : Z := int_of_scalar (scalar_of o).

Definition float_of (o : pyobj) : spec_float := float_of_scalar (scalar_of o).

(** The text of [str(obj)] for numbers, wrapped values and objects of
    unlisted classes (the objects the two modules print): the first
    [__str__] of the resolution order, else the builtin base's. *)
Definition str_of (o : pyobj) : str :=
  match resolve defines_str (mro (type_of o)) with
  | Some Integer_str => int_repr (int_of o)
  | Some HexInteger_str => hex (int_of o)
  | Some BoolWrapper_str => str_of_scalar (value o)
  | None => str_of_scalar (scalar_of o)
  end.

(** The calls [str(v)] and [str(obj)] themselves, which end in
    [int.__repr__] for an integer and raise with it; [hex] and
    [float.__repr__] always return. *)
Definition to_str_scalar (v : scalar) : exn + str :=
  match v with
  | PyInt z => int_repr_checked z
  | _ => inr (str_of_scalar v)
  end.

Definition to_str (o : pyobj) : exn + str :=
  match resolve defines_str (mro (type_of o)) with
  | Some Integer_str => int_repr_checked (int_of o)
  | Some HexInteger_str => inr (hex (int_of o))
  | Some BoolWrapper_str => to_str_scalar (value o)
  | None => to_str_scalar (scalar_of o)
  end.

(** [f > 0] on floats: false on NaN and on both zeros. *)
Definition float_gt0 (f : spec_float) : bool :=
  match f with
  | S754_finite false _ _ | S754_infinity false => true
  | _ => false
  end.

(** [obj > 0] for a number. *)
Definition gt0 (o : pyobj) : bool :=
  if isinstance o py_int then 0 <? int_of o else float_gt0 (float_of o).

(** The identity of a temporary the encoder builds; nothing compares it. *)
Definition tmp : addr := 0%N.

(** [cls(obj)] for the [int], [float] and wrapper classes: a new object,
    before any [__post_init__]. *)
Definition new_Integer (i : addr) (obj : pyobj) : pyobj :=
  Atom i Integer no_attrs (PyInt (int_of obj)).

Definition new_Float (i : addr) (obj : pyobj) : pyobj :=
  Atom i Float no_attrs (PyFloat (float_of obj)).

Definition new_JWrapper (i : addr) (obj : pyobj) : pyobj :=
  Atom i JWrapper no_attrs (scalar_of obj).

(** [BoolWrapper(b)] with attributes [a] set on it afterwards:
    [int.__new__] makes the integer, [__init__] keeps [b] in [value]. *)
Definition new_BoolWrapper (i : addr) (a : attrs) (b : bool) : pyobj :=
  Atom i BoolWrapper a (PyBool b).

(** [int(text, base)] for base 10 and 16, as [PyLong_FromString] reads an
    ASCII text: blanks, an optional sign, for base 16 an optional [0x] and
    one underscore after it, then digits with single underscores between
    them, then blanks. *)
Definition is_space (c : char) : bool :=
  (c =? 32)%N || ((9 <=? c)%N && (c <=? 13)%N).

Fixpoint lstrip (s : str) : str :=
  match s with
  | c :: s' => if is_space c then lstrip s' else s
  | [] => []
  end.

Definition digit_value (base : Z) (c : char) : option Z :=
  let d :=
    if (48 <=? c)%N && (c <=? 57)%N then Z.of_N c - 48
    else if (97 <=? c)%N && (c <=? 122)%N then Z.of_N c - 87
    else if (65 <=? c)%N && (c <=? 90)%N then Z.of_N c - 55
    else base in
  if d <? base then Some d else None.

(** The digits and underscores at the head of [s]: their value after
    [acc], the number of digits after [count], and the text that follows.
    [None]: two underscores in a row, or one at the end. *)
Fixpoint scan_digits (base acc count : Z) (prev_underscore : bool) (s : str)
  : option (Z * Z * str) :=
  match s with
  | [] => if prev_underscore then None else Some (acc, count, [])
  | c :: s' =>
      if (c =? 95)%N
      then (if prev_underscore then None else scan_digits base acc count true s')
      else match digit_value base c with
           | Some d => scan_digits base (acc * base + d) (count + 1) false s'
           | None => if prev_underscore then None else Some (acc, count, s)
           end
  end.

(** The two [ValueError]s of [int()]. *)
Inductive int_failure : Type :=
| invalid_literal
| too_many_digits (digits : Z).

(** After the sign: [0x] or [0X] in base 16, and one underscore after
    it. *)
Definition skip_prefix (base : Z) (s : str) : str :=
  match s with
  | 48%N :: x :: s' =>
      if (base =? 16) && ((x =? 120)%N || (x =? 88)%N)
      then match s' with
           | 95%N :: s'' => s''
           | _ => s'
           end
      else s
  | _ => s
  end.

(** The number itself: no underscore in front, at least one digit, no more
    digits than the limit unless the base is a power of two, and nothing
    but blanks behind. *)
Definition read_digits (base sign : Z) (s : str) : int_failure + Z :=
  match s with
  | 95%N :: _ => inl invalid_literal
  | _ =>
      match scan_digits base 0 0 false s with
      | None => inl invalid_literal
      | Some (n, count, rest) =>
          if negb (base =? 16) && (int_max_str_digits <? count)
          then inl (too_many_digits count)
          else if count =? 0 then inl invalid_literal
          else match lstrip rest with
               | [] => inr (sign * n)
               | _ => inl invalid_literal
               end
      end
  end.

Definition int_parse (base : Z) (s : str) : int_failure + Z :=
  match lstrip s with
  | 43%N :: s' => read_digits base 1 (skip_prefix base s')
  | 45%N :: s' => read_digits base (-1) (skip_prefix base s')
  | s' => read_digits base 1 (skip_prefix base s')
  end.

Definition is_ascii (s : str) : bool := forallb (fun c => (c <? 128)%N) s.

(** The message of each failure; the literal is shown by its [repr], cut
    at 200 characters. *)
Definition int_error (base : Z) (text : str) (e : int_failure) : exn :=
  match e with
  | invalid_literal =>
      ValueError (lit "invalid literal for int() with base " ++ int_repr base
                  ++ lit ": " ++ slice_to (str_repr text) 200)
  | too_many_digits n =>
      ValueError
        (lit "Exceeds the limit (4300 digits) for integer string conversion: value has "
         ++ int_repr n
         ++ lit " digits; use sys.set_int_max_str_digits() to increase the limit")
  end.

(** [int(text, base)] *)
Definition int_of_text (base : Z) (text : str) : exn + Z :=
  if is_ascii text then
    match int_parse base text with
    | inr z => inr z
    | inl e => inl (int_error base text e)
    end
  else int_unicode base text.

(** [s.replace(old, new)] for a non-empty [old]. *)
Fixpoint starts_with (p s : str) : bool :=
  match p, s with
  | [], _ => true
  | x :: p', y :: s' => char_eqb x y && starts_with p' s'
  | _, [] => false
  end.

Fixpoint replace_from (old new : str) (skip : nat) (s : str) : str :=
  match s with
  | [] => []
  | c :: s' =>
      match skip with
      | S k => replace_from old new k s'
      | O =>
          if starts_with old s
          then new ++ replace_from old new (Nat.pred (List.length old)) s'
          else c :: replace_from old new O s'
      end
  end.

Definition replace (old new s : str) : str := replace_from old new O s.

(** [f == g] on floats: false on NaN, true on the two zeros. *)
Definition float_eqb (f g : spec_float) : bool := SFeqb f g.

Definition isnan (f : spec_float) : bool :=
  match f with S754_nan => true | _ => false end.

(** The [__round_dump__] methods: the origin text when it still reads as the
    value, else a text made from the value.  [JNumber]'s own body is [...]
    and returns [None]. *)
Inductive round_dump_method : Type :=
| JNumber_round_dump | Float_round_dump | Integer_round_dump
| HexInteger_round_dump | BoolWrapper_round_dump.

Definition defines_round_dump (c : pyclass) : option round_dump_method :=
  match c with
  | JNumber => Some JNumber_round_dump
  | Float => Some Float_round_dump
  | Integer => Some Integer_round_dump
  | HexInteger => Some HexInteger_round_dump
  | BoolWrapper => Some BoolWrapper_round_dump
  | _ => None
  end.

(** [if self.origin and int(self.origin, base) == self: return self.origin],
    then the fallback. *)
Definition integer_round_dump (base : Z) (fallback : Z -> exn + str) (self : pyobj)
  : exn + option str :=
  let otherwise :=
    match fallback (int_of self) with
    | inl e => inl e
    | inr text => inr (Some text)
    end in
  match origin (attrs_of self) with
  | Some (c :: text) =>
      match int_of_text base (c :: text) with
      | inl e => inl e
      | inr n => if n =? int_of self then inr (Some (c :: text)) else otherwise
      end
  | _ => otherwise
  end.

Definition round_dump (self : pyobj) : exn + option str :=
  match resolve defines_round_dump (mro (type_of self)) with
  | Some JNumber_round_dump => inr None
  | Some Float_round_dump =>
      let canonical :=
        replace (lit "inf") (lit "Infinity")
          (replace (lit "nan") (lit "NaN") (float_repr (float_of self))) in
      match origin (attrs_of self) with
      | Some (c :: text) =>
          match float_parse (c :: text) with
          | None =>
              inl (ValueError (lit "could not convert string to float: "
                               ++ str_repr (c :: text)))
          | Some constructed =>
              if (isnan constructed && isnan (float_of self))
                 || float_eqb (float_of self) constructed
              then inr (Some (c :: text))
              else inr (Some canonical)
          end
      | _ => inr (Some canonical)
      end
  | Some Integer_round_dump => integer_round_dump 10 int_repr_checked self
  | Some HexInteger_round_dump => integer_round_dump 16 (fun z => inr (hex z)) self
  | Some BoolWrapper_round_dump =>
      match to_str_scalar (value self) with
      | inl e => inl e
      | inr text => inr (Some (lower text))
      end
  | None => inl (AttributeError (lit "'" ++ class_name (type_of self)
                                 ++ lit "' object has no attribute '__round_dump__'"))
  end.

(* ================================================================= *)
(** ** encode.py *)

Definition ESCAPES : list (char * str) :=
  [ (92%N, lit "\\");
    (10%N, lit "\n");
    (13%N, lit "\r");
    (8%N, lit "\b");
    (12%N, lit "\f");
    (9%N, lit "\t");
    (11%N, lit "\v");
    (0%N, lit "\0");
    (8232%N, lit "\\u2028");
    (8233%N, lit "\\u2029") ].

Fixpoint lookup (table : list (char * str)) (c : char) : option str :=
  match table with
  | [] => None
  | (k, v) :: table' => if char_eqb k c then Some v else lookup table' c
  end.

(** [string.translate(str.maketrans(table))] *)
Definition translate (table : char -> option str) (s : str) : str :=
  flat_map (fun c => match table c with Some r => r | None => [c] end) s.

(** [{**escapes, **ESCAPES}]: an entry of [ESCAPES] wins. *)
Definition merged (escapes : list (char * str)) (c : char) : option str :=
  match lookup ESCAPES c with
  | Some r => Some r
  | None => lookup escapes c
  end.

(** The text a [str] subclass instance is. *)
Definition text_of (o : pyobj) : str := text_of_scalar (scalar_of o).

Definition insert_linebreak (out : str) (line_break : Z) : str :=
  slice_to out (line_break - 1) ++ [92%N; 10%N] ++ slice_from out (line_break - 1).

Definition escape_string (string : pyobj) (escapes : list (char * str)) : str :=
  let out := translate (merged escapes) (text_of string) in
  if isinstance string JString
  then fold_left insert_linebreak (linebreaks (attrs_of string)) out
  else out.

Definition wsc_text (ws : list WSC) : str := join (List.map encode_wsc ws).

(** The decorator [with_style]. *)
Definition with_style (fn : pyobj -> io unit) (obj : pyobj) : io unit :=
  write (wsc_text (json_before (attrs_of obj))) ;;
  fn obj ;;
  write (wsc_text (json_after (attrs_of obj))).

Definition encode_literal : pyobj -> io unit :=
  with_style (fun obj =>
    match value obj with
    | PyBool true => write (lit "true")
    | PyBool false => write (lit "false")
    | PyNone => write (lit "null")
    | v =>
        bind (lift (to_str_scalar v)) (fun text =>
          raise (NotImplementedError (lit "Unknown literal: " ++ text)))
    end).

(** [obj.prefixed]: no class declares the attribute. *)
Definition get_prefixed (obj : pyobj) : io bool :=
  match prefixed (attrs_of obj) with
  | Some b => ret b
  | None =>
      raise (AttributeError (lit "'" ++ class_name (type_of obj)
                             ++ lit "' object has no attribute 'prefixed'"))
  end.

Definition encode_number : pyobj -> io unit :=
  with_style (fun obj =>
    let obj :=
      if negb (isinstance obj JNumber)
      then (if isinstance obj py_int then new_Integer tmp obj else new_Float tmp obj)
      else obj in
    bind (lift (to_str obj)) (fun presentation =>
      if gt0 obj
      then bind (get_prefixed obj) (fun p =>
             write (if p then lit "+" ++ presentation else presentation))
      else write presentation)).

Definition encode_string : pyobj -> io unit :=
  with_style (fun obj =>
    if isinstance obj JString then
      let q := Quote_value (quote (attrs_of obj)) in
      write (q ++ escape_string obj [] ++ q)
    else if isinstance obj Identifier then
      write (text_of obj)
    else
      write ([34%N] ++ escape_string obj [] ++ [34%N])).

Section Methods.
(** [self.encode], for the methods that call it. *)
Variable encode : pyobj -> io unit.

Definition encode_pair (key value : pyobj) : io unit :=
  encode key ;; write (lit ":") ;; encode value.

(** [members] is [obj.items()]. *)
Definition encode_dict (members : list (pyobj * pyobj)) : pyobj -> io unit :=
  with_style (fun obj =>
    write (lit "{") ;;
    write (wsc_text (json_container_head (attrs_of obj))) ;;
    match members with
    | [] => ret tt
    | first :: _ =>
        let last_k := fst (last members first) in
        for_each members (fun kv =>
          encode_pair (fst kv) (snd kv) ;;
          when (negb (is_ (fst kv) last_k)
                || json_container_trailing_comma (attrs_of obj))
               (write (lit ",")))
    end ;;
    write (wsc_text (json_container_tail (attrs_of obj))) ;;
    write (lit "}")).

(** [elems] is the elements of [obj], in order. *)
Definition encode_iterable (elems : list pyobj) : pyobj -> io unit :=
  with_style (fun obj =>
    write (lit "[") ;;
    write (wsc_text (json_container_head (attrs_of obj))) ;;
    match elems with
    | [] => ret tt
    | first :: _ =>
        let last_v := last elems first in
        for_each elems (fun v =>
          encode v ;;
          when (negb (is_ v last_v)
                || json_container_trailing_comma (attrs_of obj))
               (write (lit ",")))
    end ;;
    write (wsc_text (json_container_tail (attrs_of obj))) ;;
    write (lit "]")).

(** The body of [Encoder.encode], given the elements and items of [obj]. *)
Definition encode_dispatch (elems : list pyobj) (members : list (pyobj * pyobj))
  (obj : pyobj) : io unit :=
  if isinstance_any obj [JNumber; py_int; py_float] then encode_number obj
  else if isinstance obj py_bool then encode_literal (new_JWrapper tmp obj)
  else if isinstance obj py_str then encode_string obj
  else if isinstance obj py_dict then encode_dict members obj
  else if isinstance_any obj [py_list; py_tuple] then encode_iterable elems obj
  else if isinstance obj JLiteral then encode_literal obj
  else raise (NotImplementedError (lit "Unknown type: " ++ type_repr (type_of obj))).

End Methods.

Fixpoint encode (obj : pyobj) : io unit :=
  match obj with
  | Atom _ _ _ _ => encode_dispatch encode [] [] obj
  | Seq _ _ _ l => encode_dispatch encode l [] obj
  | Map _ _ _ d => encode_dispatch encode [] d obj
  end.

(** [dumps(obj)] *)
Definition dumps (obj : pyobj) : str * (exn + unit) := run (encode obj).

(* ================================================================= *)
(** ** types.py: convert *)

(** State of [convert]: the next unused identity.  Building an object takes
    it; nothing else is written. *)
Definition alloc (A : Type) : Type := addr -> A * addr.

(** The [__post_init__] methods, each as the attribute assignments it makes
    with its default arguments. *)
Definition JType_post_init (a : attrs) : attrs :=
  {| json_before := []; json_after := [];
     json_container_head := json_container_head a;
     json_container_tail := json_container_tail a;
     json_container_trailing_comma := json_container_trailing_comma a;
     quote := quote a; linebreaks := linebreaks a;
     origin := origin a; prefixed := prefixed a |}.

Definition JContainer_post_init (a : attrs) : attrs :=
  let a := JType_post_init a in
  {| json_before := json_before a; json_after := json_after a;
     json_container_head := json_container_head a;
     json_container_tail := [];
     json_container_trailing_comma := false;
     quote := quote a; linebreaks := linebreaks a;
     origin := origin a; prefixed := prefixed a |}.

Definition JString_post_init (a : attrs) : attrs :=
  let a := JType_post_init a in
  {| json_before := json_before a; json_after := json_after a;
     json_container_head := json_container_head a;
     json_container_tail := json_container_tail a;
     json_container_trailing_comma := json_container_trailing_comma a;
     quote := DOUBLE; linebreaks := [];
     origin := origin a; prefixed := prefixed a |}.

Definition JNumber_post_init (a : attrs) : attrs :=
  let a :=
    {| json_before := json_before a; json_after := json_after a;
       json_container_head := json_container_head a;
       json_container_tail := json_container_tail a;
       json_container_trailing_comma := json_container_trailing_comma a;
       quote := quote a; linebreaks := linebreaks a;
       origin := None; prefixed := prefixed a |} in
  JType_post_init a.

Definition defines_post_init (c : pyclass) : option (attrs -> attrs) :=
  match c with
  | JType => Some JType_post_init
  | JContainer => Some JContainer_post_init
  | JString => Some JString_post_init
  | JNumber => Some JNumber_post_init
  | _ => None
  end.

(** [o.__post_init__()] *)
Definition post_init (o : pyobj) : pyobj :=
  match resolve defines_post_init (mro (type_of o)) with
  | Some init => set_attrs (init (attrs_of o)) o
  | None => o
  end.

(** [obj is None]: [None] is the one instance of its class. *)
Definition is_None (obj : pyobj) : bool := pyclass_eqb (type_of obj) py_NoneType.

Definition convert (obj : pyobj) : alloc (exn + pyobj) :=
  fun next =>
    if isinstance obj JType then (inr obj, next)
    else
      let built :=
        if isinstance_any obj [py_list; py_tuple] then
          inr (Seq next Array no_attrs (elements obj))
        else if isinstance_any obj
                  [py_bool; py_date; py_time; py_datetime; py_Pattern; py_Enum]
                || is_None obj then
          inr (new_JWrapper next obj)
        else if isinstance obj py_dict then
          inr (Map next JObject no_attrs (items obj))
        else if isinstance obj py_str then
          inr (Atom next JString no_attrs (PyStr (text_of obj)))
        else if isinstance obj py_int then
          inr (new_Integer next obj)
        else if isinstance obj py_float then
          inr (new_Float next obj)
        else
          inl (TypeError (str_of obj
                          ++ lit " can't be automatically converted to JSONType!"))
      in
      match built with
      | inr o => (inr (post_init o), N.succ next)
      | inl e => (inl e, next)
      end.

(* ================================================================= *)
(** ** types.py: equality and hashing *)

(** The [__eq__] methods in reach: the builtin bases' and [JWrapper]'s.
    An enumeration and [NoneType] define none and inherit [object]'s. *)
Inductive eq_method : Type :=
| int_eq | float_eq | str_eq | list_eq | tuple_eq | dict_eq
| value_eq | object_eq | JWrapper_eq.

Definition defines_eq (c : pyclass) : option eq_method :=
  match c with
  | py_int => Some int_eq
  | py_float => Some float_eq
  | py_str => Some str_eq
  | py_list => Some list_eq
  | py_tuple => Some tuple_eq
  | py_dict => Some dict_eq
  | py_date | py_time | py_datetime | py_Pattern => Some value_eq
  | py_object => Some object_eq
  | JWrapper => Some JWrapper_eq
  | _ => None
  end.

(** [f == z] of a float against an integer, which Python compares
    exactly. *)

Definition float_eq_int (f : spec_float) (z : Z) : bool :=
  match f with
  | S754_zero _ => z =? 0
  | S754_finite s m e =>
      let n := if s then Z.neg m else Z.pos m in
      if 0 <=? e then z =? n * 2 ^ e else z * 2 ^ (- e) =? n
  | _ => false
  end.

(** What a builtin [__eq__] looks at in its other argument: its class and
    the value of its builtin base (a container has none of interest here). *)
Definition operand : Type := pyclass * scalar.

Definition operand_of (o : pyobj) : operand := (type_of o, scalar_of o).

Definition operand_of_scalar (v : scalar) : operand := (class_of_scalar v, v).

(** Identity of member-less host values: the singletons, and an opaque
    value by its tag. *)
Definition scalar_is (v w : scalar) : bool :=
  match v, w with
  | PyNone, PyNone => true
  | PyBool b, PyBool b' => Bool.eqb b b'
  | PyOpaque c t _, PyOpaque c' t' _ => pyclass_eqb c c' && N.eqb t t'
  | _, _ => false
  end.

(** A builtin [__eq__] applied to [self] and [other]; [None] is
    [NotImplemented].  [same] is [self is other]. *)
Definition builtin_eq (m : option eq_method) (self other : operand) (same : bool)
  : option bool :=
  match m with
  | Some int_eq =>
      if issubclass (fst other) py_int
      then Some (int_of_scalar (snd self) =? int_of_scalar (snd other))
      else None
  | Some float_eq =>
      if issubclass (fst other) py_float
      then Some (float_eqb (float_of_scalar (snd self)) (float_of_scalar (snd other)))
      else if issubclass (fst other) py_int
      then Some (float_eq_int (float_of_scalar (snd self)) (int_of_scalar (snd other)))
      else None
  | Some str_eq =>
      if issubclass (fst other) py_str
      then Some (str_eqb (text_of_scalar (snd self)) (text_of_scalar (snd other)))
      else None
  | Some value_eq =>
      if pyclass_eqb (fst other) (fst self)
      then Some (scalar_is (snd self) (snd other))
      else None
  | Some object_eq => if same then Some true else None
  | _ => None
  end.

(** [type(self).__eq__(self, other)] for a member-less [self].
    [JWrapper.__eq__] hands over to the [__eq__] of the wrapped value. *)
Definition atom_eq (self other : pyobj) : option bool :=
  match resolve defines_eq (mro (type_of self)) with
  | Some JWrapper_eq =>
      let v := value self in
      let arg :=
        if isinstance other JWrapper then operand_of_scalar (value other)
        else operand_of other in
      builtin_eq (resolve defines_eq (mro (class_of_scalar v)))
        (operand_of_scalar v) arg
        (pyclass_eqb (fst arg) (class_of_scalar v) && scalar_is v (snd arg))
  | m => builtin_eq m (operand_of self) (operand_of other) (is_ self other)
  end.

Definition method_eq (self other : pyobj) : option bool :=
  match self with
  | Atom _ _ _ _ => atom_eq self other
  | _ => None
  end.

(** The operator [==]: the method of the left operand, then the reflected
    one, then identity. *)
Definition first_implemented (r reflected : option bool) (same : bool) : bool :=
  match r, reflected with
  | Some b, _ => b
  | None, Some b => b
  | None, None => same
  end.

Definition both (c d : pyclass) (base : pyclass) : bool :=
  issubclass c base && issubclass d base.

(** [list.__eq__] and [tuple.__eq__] on the elements: equal lengths, and
    [p x y] at every position. *)
Definition all2 {A B : Type} (p : A -> B -> bool) : list A -> list B -> bool :=
  fix go (xs : list A) (ys : list B) {struct xs} : bool :=
    match xs, ys with
    | [], [] => true
    | x :: xs', y :: ys' => p x y && go xs' ys'
    | _, _ => false
    end.

(** [d[k]] by the first key that [same_key] accepts. *)
Definition dict_get {K V : Type} (same_key : K -> bool) : list (K * V) -> option V :=
  fix go (d : list (K * V)) : option V :=
    match d with
    | [] => None
    | (k', v') :: d' => if same_key k' then Some v' else go d'
    end.

(** [a == b].  Two lists, two tuples or two dicts compare their members
    ([x is y or x == y], a dict looking each of its keys up in the other);
    a container against anything else is [NotImplemented] both ways. *)
Fixpoint py_eq (a b : pyobj) {struct a} : bool :=
  match a, b with
  | Seq _ ca _ xs, Seq _ cb _ ys =>
      if both ca cb py_list || both ca cb py_tuple
      then all2 (fun x y => is_ x y || py_eq x y) xs ys
      else is_ a b
  | Map _ ca _ da, Map _ cb _ db =>
      if both ca cb py_dict then
        Nat.eqb (List.length da) (List.length db)
        && forallb
             (fun kv =>
                match dict_get (fun k' => is_ (fst kv) k' || py_eq (fst kv) k') db with
                | Some v' => is_ (snd kv) v' || py_eq (snd kv) v'
                | None => false
                end) da
      else is_ a b
  | _, _ => first_implemented (method_eq a b) (method_eq b a) (is_ a b)
  end.

(** [int.__hash__] of CPython on a 64-bit build: reduction modulo
    [2^61 - 1], with the sign, and -2 in place of -1. *)
Definition hash_int (z : Z) : Z :=
  let h := Z.sgn z * (Z.abs z mod (2 ^ 61 - 1)) in
  if h =? -1 then -2 else h.

Inductive hash_method : Type :=
| int_hash | float_hash | str_hash | tuple_hash | host_hash
| unhashable | JWrapper_hash.

(** [list] and [dict] set [__hash__] to [None]. *)
Definition defines_hash (c : pyclass) : option hash_method :=
  match c with
  | py_int => Some int_hash
  | py_float => Some float_hash
  | py_str => Some str_hash
  | py_tuple => Some tuple_hash
  | py_list | py_dict => Some unhashable
  | py_object => Some host_hash
  | JWrapper => Some JWrapper_hash
  | _ => None
  end.

Definition builtin_hash (m : option hash_method) (v : scalar) : option Z :=
  match m with
  | Some int_hash => Some (hash_int (int_of_scalar v))
  | Some float_hash => Some (hash_float (float_of_scalar v))
  | Some str_hash => Some (hash_str (text_of_scalar v))
  | Some host_hash =>
      match v with
      | PyOpaque c t _ => Some (hash_opaque c t)
      | _ => Some hash_None
      end
  | _ => None
  end.

(** [hash(o)]; [None] is the [TypeError] of an unhashable object.
    [JWrapper.__hash__] is the hash of the wrapped value. *)
Fixpoint py_hash (o : pyobj) : option Z :=
  match o with
  | Atom _ c _ v =>
      match resolve defines_hash (mro c) with
      | Some JWrapper_hash =>
          builtin_hash (resolve defines_hash (mro (class_of_scalar v))) v
      | m => builtin_hash m v
      end
  | Seq _ c _ l =>
      match resolve defines_hash (mro c) with
      | Some tuple_hash => option_map hash_tuple (all_some (List.map py_hash l))
      | _ => None
      end
  | Map _ _ _ _ => None
  end.

(** The object with every formatting attribute back at its default, here
    and below: what is left is the structured value. *)
Fixpoint plain (o : pyobj) : pyobj :=
  match o with
  | Atom i c _ v => Atom i c no_attrs v
  | Seq i c _ l => Seq i c no_attrs (List.map plain l)
  | Map i c _ d =>
      Map i c no_attrs (List.map (fun kv => (plain (fst kv), plain (snd kv))) d)
  end.

End Model.

(* ================================================================= *)
(** ** Vocabulary of the statements *)

Section Statements.
Context {ext : External}.

(** The host [None], and a Literal wrapper around a host value. *)
Definition None_ (i : addr) : pyobj := host i PyNone.

Definition literal (i : addr) (a : attrs) (v : scalar) : pyobj := Atom i JLiteral a v.

(** [int(b)] *)
Definition int_of_bool (b : bool) : Z := if b then 1 else 0.

(** The attributes of a number as a parser would record them: its origin
    text, and whether a [+] stood in front of it. *)
Definition recorded (origin : option str) (prefixed : bool) : attrs :=
  {| json_before := []; json_after := [];
     json_container_head := []; json_container_tail := [];
     json_container_trailing_comma := false;
     quote := DOUBLE; linebreaks := [];
     origin := origin; prefixed := Some prefixed |}.

Definition set_origin (t : option str) (a : attrs) : attrs :=
  {| json_before := json_before a; json_after := json_after a;
     json_container_head := json_container_head a;
     json_container_tail := json_container_tail a;
     json_container_trailing_comma := json_container_trailing_comma a;
     quote := quote a; linebreaks := linebreaks a;
     origin := t; prefixed := prefixed a |}.

(** The sign the encoder puts in front of a number whose [prefixed] is [p]. *)
Definition sign_of (obj : pyobj) (p : bool) : str :=
  if gt0 obj && p then lit "+" else [].

(** The [AttributeError] of reading [obj.prefixed] where there is none. *)
Definition no_prefixed (c : pyclass) : exn :=
  AttributeError (lit "'" ++ class_name c ++ lit "' object has no attribute 'prefixed'").

(** A [JString] as a parser would record it: its quote style and the
    offsets of its escaped line breaks. *)
Definition quoted (i : addr) (q : Quote) (breaks : list Z) (text : str) : pyobj :=
  Atom i JString
    {| json_before := []; json_after := [];
       json_container_head := []; json_container_tail := [];
       json_container_trailing_comma := false;
       quote := q; linebreaks := breaks;
       origin := None; prefixed := None |}
    (PyStr text).

(** The comma rule by position: [entry] on each member in turn, a comma
    after every member but the last, and after the last when [trailing] is
    set. *)
Fixpoint entries_by_position {A : Type} (entry : A -> io unit) (trailing : bool)
  (l : list A) : io unit :=
  match l with
  | [] => ret tt
  | x :: l' =>
      (entry x ;; when (nonempty l' || trailing) (write (lit ",")))
      ;; entries_by_position entry trailing l'
  end.

(** [encode_iterable] and [encode_dict] with the comma rule by position. *)
Definition encode_iterable_by_position (encode : pyobj -> io unit)
  (elems : list pyobj) : pyobj -> io unit :=
  with_style (fun obj =>
    write (lit "[") ;;
    write (wsc_text (json_container_head (attrs_of obj))) ;;
    entries_by_position encode (json_container_trailing_comma (attrs_of obj)) elems ;;
    write (wsc_text (json_container_tail (attrs_of obj))) ;;
    write (lit "]")).

Definition encode_dict_by_position (encode : pyobj -> io unit)
  (members : list (pyobj * pyobj)) : pyobj -> io unit :=
  with_style (fun obj =>
    write (lit "{") ;;
    write (wsc_text (json_container_head (attrs_of obj))) ;;
    entries_by_position (fun kv => encode_pair encode (fst kv) (snd kv))
      (json_container_trailing_comma (attrs_of obj)) members ;;
    write (wsc_text (json_container_tail (attrs_of obj))) ;;
    write (lit "}")).

(** The classes [convert] has a case for, in the order it tests them. *)
Definition classified : list pyclass :=
  [JType; py_list; py_tuple; py_bool; py_date; py_time; py_datetime;
   py_Pattern; py_Enum; py_dict; py_str; py_int; py_float].

Definition classifiable (obj : pyobj) : bool :=
  isinstance_any obj classified || is_None obj.

(** The error of the last case of [convert]. *)
Definition unsupported (obj : pyobj) : exn :=
  TypeError (str_of obj ++ lit " can't be automatically converted to JSONType!").

End Statements.

(* ================================================================= *)
(** ** The values of the fidelity model *)

(** A key of an object: a [JString], an [Identifier] or a host string. *)
Definition is_key (k : pyobj) : bool :=
  match k with
  | Atom _ c _ (PyStr _) =>
      pyclass_eqb c JString || pyclass_eqb c Identifier || pyclass_eqb c py_str
  | _ => false
  end.

(** No text twice. *)
Fixpoint distinct (texts : list str) : bool :=
  match texts with
  | [] => true
  | t :: rest => negb (existsb (str_eqb t) rest) && distinct rest
  end.

(** The member-less values of the model: a string, an identifier, a
    number with the value of its builtin base, a boolean wrapper, and a
    Literal wrapper around a host value. *)
Definition fidelity_atom (c : pyclass) (v : scalar) : bool :=
  match c, v with
  | JString, PyStr _ | Identifier, PyStr _
  | Integer, PyInt _ | HexInteger, PyInt _
  | Float, PyFloat _
  | BoolWrapper, PyBool _ => true
  | JWrapper, _ => wf_scalar v
  | _, _ => false
  end.

(** A value of the fidelity model, as a parser or [convert] builds it: one
    of the above, an [Array] of such values, or a [JObject] of such values
    under keys of pairwise different texts. *)
Fixpoint fidelity (o : pyobj) : bool :=
  match o with
  | Atom _ c _ v => fidelity_atom c v
  | Seq _ c _ l => pyclass_eqb c Array && forallb fidelity l
  | Map _ c _ d =>
      pyclass_eqb c JObject
      && forallb (fun kv => is_key (fst kv) && fidelity (snd kv)) d
      && distinct (List.map (fun kv => text_of (fst kv)) d)
  end.

(** Two host values of one kind that the host holds equal: [None], equal
    booleans, integers, texts, floats that are [==] (no NaN, the two zeros
    alike), and one opaque value. *)
Definition same_scalar (v w : scalar) : bool :=
  match v, w with
  | PyNone, PyNone => true
  | PyBool b, PyBool b' => Bool.eqb b b'
  | PyInt z, PyInt z' => z =? z'
  | PyFloat f, PyFloat g => float_eqb f g
  | PyStr s, PyStr t => str_eqb s t
  | PyOpaque c t _, PyOpaque c' t' _ => pyclass_eqb c c' && N.eqb t t'
  | _, _ => false
  end.

(** The same structured value: the same class and the same contents,
    member by member, keys and values alike, the entries of an object in
    their insertion order (its canonical order).  Identities and formatting
    attributes are not looked at, and [py_eq] and [py_hash] are not used. *)
Fixpoint same_value (a b : pyobj) {struct a} : bool :=
  match a, b with
  | Atom _ c _ v, Atom _ c' _ w => pyclass_eqb c c' && same_scalar v w
  | Seq _ c _ l, Seq _ c' _ l' => pyclass_eqb c c' && all2 same_value l l'
  | Map _ c _ d, Map _ c' _ d' =>
      pyclass_eqb c c'
      && all2 (fun kv kv' =>
                 same_value (fst kv) (fst kv') && same_value (snd kv) (snd kv'))
           d d'
  | _, _ => false
  end.

(** [o] and the objects below it live in the heap [h]: each is what [h]
    holds at its identity, so that two of them with one identity are one
    object. *)
Fixpoint stored (h : addr -> option pyobj) (o : pyobj) : Prop :=
  h (id_of o) = Some o
  /\ match o with
     | Atom _ _ _ _ => True
     | Seq _ _ _ l => fold_right (fun x P => stored h x /\ P) True l
     | Map _ _ _ d =>
         fold_right (fun kv P => stored h (fst kv) /\ stored h (snd kv) /\ P) True d
     end.

Section Agreement.
Context {ext : External}.

(** [a] is equal to every object of the heap that has its value, and
    hashes as it does where the host hashes the two float zeros alike. *)
Definition agrees (h : addr -> option pyobj) (a : pyobj) : Prop :=
  forall b, stored h b -> same_value a b = true ->
            py_eq a b = true
            /\ (hash_float (S754_zero true) = hash_float (S754_zero false) ->
                py_hash a = py_hash b).

End Agreement.

(** Every object of a tree: itself, then the objects below it. *)
Fixpoint nodes (o : pyobj) : list pyobj :=
  o :: match o with
       | Atom _ _ _ _ => []
       | Seq _ _ _ l => flat_map nodes l
       | Map _ _ _ d => flat_map (fun kv => nodes (fst kv) ++ nodes (snd kv)) d
       end.

(** The heap that holds the given objects, each at its identity. *)
Definition heap_of (objs : list pyobj) (i : addr) : option pyobj :=
  find (fun o => N.eqb (id_of o) i) objs.

(* ================================================================= *)
(** ** Sample values *)

(** The hexadecimal 26 read from the text [0x1A]. *)
Definition hex_1A : pyobj :=
  Atom 1 HexInteger (recorded (Some (lit "0x1A")) false) (PyInt 26).

(** The host integer 5, and the [Integer] that [convert] makes of it. *)
Definition host_5 : pyobj := host 2 (PyInt 5).

Definition Integer_5 (i : addr) : pyobj := Atom i Integer no_attrs (PyInt 5).

Arguments Integer_5 i%_N.

(** A backslash, a double quote and a newline. *)
Definition backslash_quote_newline : str := [92%N; 34%N; 10%N].

(** The string ["a"]. *)
Definition letter_a (i : addr) : pyobj := quoted i DOUBLE [] (lit "a").

Arguments letter_a i%_N.

(** The text [abc] twice: in single quotes after a blank, with a line break
    recorded, and in double quotes before a comment. *)
Definition abc_single : pyobj :=
  Atom 1 JString
    {| json_before := [WhiteSpace (lit " ")]; json_after := [];
       json_container_head := []; json_container_tail := [];
       json_container_trailing_comma := false;
       quote := SINGLE; linebreaks := [2];
       origin := None; prefixed := None |}
    (PyStr (lit "abc")).

Definition abc_double : pyobj :=
  Atom 2 JString
    {| json_before := []; json_after := [LineStyleComment (lit "// c")];
       json_container_head := []; json_container_tail := [];
       json_container_trailing_comma := false;
       quote := DOUBLE; linebreaks := [];
       origin := None; prefixed := None |}
    (PyStr (lit "abc")).

(** The object [{name: 'abc', "sizes": [0x1A, 1.5, null]}] as two sources
    spell it: over several lines, with a comment, single quotes and a
    trailing comma, and on one line. *)
Definition settings_spread : pyobj :=
  Map 20 JObject
    {| json_before := []; json_after := [WhiteSpace [10%N]];
       json_container_head := [WhiteSpace (10%N :: lit "  ")];
       json_container_tail := [WhiteSpace [10%N]];
       json_container_trailing_comma := true;
       quote := DOUBLE; linebreaks := [];
       origin := None; prefixed := None |}
    [ (Atom 21 Identifier no_attrs (PyStr (lit "name")),
       Atom 22 JString
         {| json_before := [WhiteSpace (lit " ")];
            json_after := [BlockStyleComment (lit "/* the name */")];
            json_container_head := []; json_container_tail := [];
            json_container_trailing_comma := false;
            quote := SINGLE; linebreaks := [];
            origin := None; prefixed := None |}
         (PyStr (lit "abc")));
      (Atom 23 JString no_attrs (PyStr (lit "sizes")),
       Seq 24 Array
         {| json_before := [WhiteSpace (lit " ")]; json_after := [];
            json_container_head := []; json_container_tail := [];
            json_container_trailing_comma := true;
            quote := DOUBLE; linebreaks := [];
            origin := None; prefixed := None |}
         [ Atom 25 HexInteger (recorded (Some (lit "0x1A")) false) (PyInt 26);
           Atom 26 Float (recorded (Some (lit "1.5")) true)
             (PyFloat (S754_finite false 3 (-1)));
           Atom 27 JWrapper no_attrs PyNone ]) ].

Definition settings_tight : pyobj :=
  Map 30 JObject no_attrs
    [ (Atom 31 Identifier no_attrs (PyStr (lit "name")),
       Atom 32 JString no_attrs (PyStr (lit "abc")));
      (Atom 33 JString no_attrs (PyStr (lit "sizes")),
       Seq 34 Array no_attrs
         [ Atom 35 HexInteger (recorded (Some (lit "0x1a")) false) (PyInt 26);
           Atom 36 Float (recorded None false) (PyFloat (S754_finite false 3 (-1)));
           Atom 37 JWrapper no_attrs PyNone ]) ].

(** The host list [[5]] and the host dict [{"k": 5}]. *)
Definition list_of_5 : pyobj := Seq 1 py_list no_attrs [host_5].

Definition dict_k_5 : pyobj :=
  Map 1 py_dict no_attrs [(host 4 (PyStr (lit "k")), host_5)].

(** A set, which [convert] has no case for. *)
Definition a_set : pyobj := host 3 (PyOpaque (user_class (lit "set")) 0 (lit "{1, 2}")).

(** The exact decimal expansion of [m * 2^e]; CPython prints the same text
    for the floats whose shortest decimal form is exact (0.5, 1.5, 26.0). *)
Fixpoint zeros (n : nat) : str :=
  match n with
  | O => []
  | S n' => 48%N :: zeros n'
  end.

Fixpoint drop_zeros (rev_digits : str) : str :=
  match rev_digits with
  | 48%N :: s => drop_zeros s
  | _ => rev_digits
  end.

Definition fraction_digits (k : nat) (frac : Z) : str :=
  let digits := int_repr frac in
  let padded := zeros (k - List.length digits) ++ digits in
  match rev (drop_zeros (rev padded)) with
  | [] => lit "0"
  | s => s
  end.

Definition exact_decimal (m : positive) (e : Z) : str :=
  if 0 <=? e then int_repr (Z.pos m * 2 ^ e) ++ lit ".0"
  else
    let k := - e in
    int_repr (Z.pos m / 2 ^ k) ++ lit "."
    ++ fraction_digits (Z.to_nat k) ((Z.pos m mod 2 ^ k) * 5 ^ k).

Definition example_float_repr (f : spec_float) : str :=
  match f with
  | S754_nan => lit "nan"
  | S754_infinity s => if s then lit "-inf" else lit "inf"
  | S754_zero s => if s then lit "-0.0" else lit "0.0"
  | S754_finite s m e => (if s then lit "-" else []) ++ exact_decimal m e
  end.

(** Modelled from the spec: [wsc.encode_wsc], whose module is not among
    the sources; it "returns its exact original text", the text the atom
    stores. *)
Definition WSC_text (w : WSC) : str :=
  match w with
  | WhiteSpace t | Comment t | BlockStyleComment t | LineStyleComment t => t
  end.

(** The [repr] of a text without quotes, backslashes or control
    characters. *)
Definition example_str_repr (s : str) : str := lit "'" ++ s ++ lit "'".

(** An [External] to run closed examples on.  The examples hold no float
    and parse none, and read no integer from a text outside ASCII; the
    hashes are functions of the value, as the host's are. *)
Definition example_host : External :=
  {| float_repr := example_float_repr;
     float_parse := fun _ => None;
     encode_wsc := WSC_text;
     str_repr := example_str_repr;
     int_unicode := fun base text =>
       inl (ValueError (lit "invalid literal for int() with base " ++ int_repr base
                        ++ lit ": " ++ example_str_repr text));
     hash_str := fun s => fold_left (fun h c => (31 * h + Z.of_N c) mod 2 ^ 61) s 0;
     hash_float := fun f => match f with S754_finite _ m e => Z.pos m + e | _ => 0 end;
     hash_None := 0;
     hash_opaque := fun _ t => Z.of_N t;
     hash_tuple := fun hs => fold_left (fun h x => (31 * h + x) mod 2 ^ 61) hs 1 |}.

(* ================================================================= *)
(** ** types.py: clearing the atoms *)

(** The attributes with other leading and trailing atoms. *)
Definition with_atoms (before after : list WSC) (a : attrs) : attrs :=
  {| json_before := before; json_after := after;
     json_container_head := json_container_head a;
     json_container_tail := json_container_tail a;
     json_container_trailing_comma := json_container_trailing_comma a;
     quote := quote a; linebreaks := linebreaks a;
     origin := origin a; prefixed := prefixed a |}.

Definition restyle (before after : list WSC) (o : pyobj) : pyobj :=
  set_attrs (with_atoms before after (attrs_of o)) o.

(** [obj.__json_clear__()]: a method of [JType] that no subclass overrides;
    it empties the leading and trailing atoms of the object itself. *)
Definition json_clear (obj : pyobj) : exn + pyobj :=
  if isinstance obj JType then inr (restyle [] [] obj)
  else inl (AttributeError (lit "'" ++ class_name (type_of obj)
                            ++ lit "' object has no attribute '__json_clear__'")).

(* ================================================================= *)
(** ** Vocabulary of the further statements *)

(** A computation that only appends to the sink: started on [fp] it leaves
    [fp] followed by what it writes on an empty sink, with the same
    outcome. *)
Definition appends {A : Type} (c : io A) : Prop :=
  forall fp, c fp = (fp ++ fst (c []), snd (c [])).

(** The texts [parts] with a comma after each but the last, and after the
    last when [trailing] is set. *)
Fixpoint separated (trailing : bool) (parts : list str) : str :=
  match parts with
  | [] => []
  | p :: ps =>
      p ++ (if nonempty ps || trailing then lit "," else []) ++ separated trailing ps
  end.

(** The first exception of a run of outcomes, if there is one. *)
Fixpoint first_error (rs : list (exn + unit)) : exn + unit :=
  match rs with
  | [] => inr tt
  | inl e :: _ => inl e
  | inr _ :: rs' => first_error rs'
  end.

(** The classes of the model that [encode] hands to [encode_iterable], and
    those it hands to [encode_dict]. *)
Definition sequence_classes : list pyclass := [py_list; py_tuple; Array].

Definition mapping_classes : list pyclass := [py_dict; JObject].

(** The characters [ESCAPES] has an entry for, the backslash apart. *)
Definition raw_controls : list char :=
  [10%N; 13%N; 8%N; 12%N; 9%N; 11%N; 0%N; 8232%N; 8233%N].

(** The line and paragraph separators, whose entries are raw strings. *)
Definition separators : list char := [8232%N; 8233%N].

(** [string.translate(str.maketrans({**escapes, **ESCAPES}))] of
    [escape_string] when no further escapes are passed, as the encoder
    calls it. *)
Definition escaped (s : str) : str := translate (merged []) s.

Section Further.
Context {ext : External}.

(** What [dumps] writes for a value, and how the call ends: [inr tt], or
    the exception. *)
Definition written (obj : pyobj) : str := fst (dumps obj).

Definition outcome (obj : pyobj) : exn + unit := snd (dumps obj).

Definition encodes (obj : pyobj) : Prop := outcome obj = inr tt.

(** The text of a key, the colon, the text of the value. *)
Definition pair_written (kv : pyobj * pyobj) : str :=
  written (fst kv) ++ lit ":" ++ written (snd kv).

Definition pair_outcomes (kv : pyobj * pyobj) : list (exn + unit) :=
  [outcome (fst kv); outcome (snd kv)].

(** A [dict] keeps one entry per key: no key equals ([is] or [==]) an
    earlier one. *)
Fixpoint distinct_keys (d : list (pyobj * pyobj)) : bool :=
  match d with
  | [] => true
  | (k, _) :: d' =>
      forallb (fun kv => negb (is_ (fst kv) k || py_eq (fst kv) k)) d'
      && distinct_keys d'
  end.

(** The values [==] holds of against themselves and whose builtin class
    [convert] keeps: no NaN, no tuple (it becomes an [Array], a list), a
    dict as the interpreter keeps it. *)
Definition comparable (obj : pyobj) : bool :=
  match obj with
  | Atom _ _ _ (PyFloat f) => negb (isnan f)
  | Atom _ _ _ _ => true
  | Seq _ c _ _ => negb (issubclass c py_tuple)
  | Map _ _ _ d => distinct_keys d
  end.

End Further.

(* ================================================================= *)
(** ** domain.py: the occupation of sections *)

(** A domain and a section are tuples of names.  A [Path] is taken by its
    [as_posix()] text, which decides its equality on a POSIX host. *)
Definition DomainType : Type := list str.

Definition Path : Type := str.

(** [==] on tuples of [str]. *)
Fixpoint names_eqb (a b : DomainType) : bool :=
  match a, b with
  | [], [] => true
  | x :: a', y :: b' => str_eqb x y && names_eqb a' b'
  | _, _ => false
  end.

(** [spec.FormattedPath], by the two attributes [_insert_domain] reads. *)
Record FormattedPath : Type := mk_FormattedPath {
  path : Path;
  section : list str
}.

(** A model class, by its identity. *)
Definition model_class : Type := N.

(** Dictionaries in insertion order: [d.setdefault(k, v)] and
    [d[k] = v]. *)
Definition setdefault {K V : Type} (same : K -> K -> bool) (k : K) (v : V)
  (d : list (K * V)) : list (K * V) :=
  match dict_get (same k) d with
  | Some _ => d
  | None => d ++ [(k, v)]
  end.

Fixpoint setitem {K V : Type} (same : K -> K -> bool) (k : K) (v : V)
  (d : list (K * V)) : list (K * V) :=
  match d with
  | [] => [(k, v)]
  | (k', v') :: d' =>
      if same k k' then (k', v) :: d' else (k', v') :: setitem same k v d'
  end.

(** [d[k]] where the key is known to be there, [default] standing for the
    [KeyError]. *)
Definition getitem {K V : Type} (same : K -> K -> bool) (k : K) (default : V)
  (d : list (K * V)) : V :=
  match dict_get (same k) d with
  | Some v => v
  | None => default
  end.

(** The dictionaries of the module and of [_Reg] that [_insert_domain]
    reads and writes. *)
Record registry : Type := mk_registry {
  domain_map : list (DomainType * model_class);
  file_map : list (Path * list (DomainType * list model_class));
  model_path : list (model_class * FormattedPath);
  domain_occupation : list (Path * list DomainType)
}.

Definition with_occupation (st : registry) (occ : list (Path * list DomainType))
  : registry :=
  {| domain_map := domain_map st; file_map := file_map st;
     model_path := model_path st; domain_occupation := occ |}.

(** What [_insert_domain] raises: the [KeyError] of [domain_map[domains]],
    its own [NameError], or whatever [lookup] raised. *)
Inductive domain_exn (E : Type) : Type :=
| KeyError (key : DomainType)
| NameError (msg : str)
| LookupRaised (e : E).

Arguments KeyError {E} key.
Arguments NameError {E} msg.
Arguments LookupRaised {E} e.

(** ['.'.join(section)] *)
Fixpoint join_dots (parts : list str) : str :=
  match parts with
  | [] => []
  | [p] => p
  | p :: ps => p ++ lit "." ++ join_dots ps
  end.

Definition occupied_message (p : Path) (sect : DomainType) : str :=
  p ++ lit "::" ++ join_dots sect ++ lit " is occupied!".

(** [sect in _Reg.domain_occupation[p]], false where [p] has no entry. *)
Definition occupied (st : registry) (p : Path) (sect : DomainType) : bool :=
  existsb (names_eqb sect) (getitem str_eqb p [] (domain_occupation st)).

(** The loop over [cls.__fields__] on the set [occupation[path]]: the set
    as the loop leaves it, and the sub-section it found occupied if it
    raised. *)
Fixpoint occupy (sect : DomainType) (names : list str) (occ : list DomainType)
  : list DomainType * option DomainType :=
  match names with
  | [] => (occ, None)
  | f_name :: names' =>
      let sub_sect := sect ++ [f_name] in
      if existsb (names_eqb sub_sect) occ then (occ, Some sub_sect)
      else occupy sect names' (occ ++ [sub_sect])
  end.

Section InsertDomain.
(** [storage.lookup], which is not among the sources, with whatever it
    raises, and [cls.__fields__] as the names it iterates over. *)
Variable E : Type.
Variable storage_lookup : list str -> E + FormattedPath.
Variable fields : model_class -> list str.

Definition _insert_domain (st : registry) (domains : DomainType)
  : registry * (domain_exn E + unit) :=
  match dict_get (names_eqb domains) (domain_map st) with
  | None => (st, inl (KeyError domains))
  | Some cls =>
      match storage_lookup domains with
      | inl e => (st, inl (LookupRaised e))
      | inr fmt_path =>
          let p := path fmt_path in
          let sect := section fmt_path in
          let st := with_occupation st (setdefault str_eqb p [] (domain_occupation st)) in
          if occupied st p sect
          then (st, inl (NameError (occupied_message p sect)))
          else
            let (occ, found) :=
              occupy sect (fields cls) (getitem str_eqb p [] (domain_occupation st)) in
            let st := with_occupation st (setitem str_eqb p occ (domain_occupation st)) in
            match found with
            | Some sub_sect => (st, inl (NameError (occupied_message p sub_sect)))
            | None =>
                let files := setdefault str_eqb p [] (file_map st) in
                let sections := setdefault names_eqb sect [] (getitem str_eqb p [] files) in
                let classes := getitem names_eqb sect [] sections in
                let files :=
                  setitem str_eqb p (setitem names_eqb sect (classes ++ [cls]) sections)
                    files in
                ({| domain_map := domain_map st;
                    file_map := files;
                    model_path := setitem N.eqb cls fmt_path (model_path st);
                    domain_occupation := domain_occupation st |},
                 inr tt)
            end
      end
  end.

End InsertDomain.

(** A registry to run [_insert_domain] on: one class, declared for the
    domain [app], whose fields are [name] and [port]; a [lookup] that puts
    every domain into the file [config.jsonc], under the section of its
    own name. *)
Definition sample_domain : DomainType := [lit "app"].

Definition sample_lookup (domains : list str) : unit + FormattedPath :=
  inr {| path := lit "config.jsonc"; section := domains |}.

Definition sample_fields (cls : model_class) : list str := [lit "name"; lit "port"].

Definition sample_registry : registry :=
  {| domain_map := [(sample_domain, 1%N)]; file_map := [];
     model_path := []; domain_occupation := [] |}.

(** The registry after the domain has been inserted. *)
Definition sample_registered : registry :=
  fst (_insert_domain sample_lookup sample_fields sample_registry sample_domain).

(* ================================================================= *)
(** * Properties *)

(** ** Text, lists and classes *)

Lemma str_eqb_refl (s : str) : str_eqb s s = true.
Proof.
  induction s as [|x s IH]; simpl; [reflexivity|].
  unfold char_eqb. now rewrite N.eqb_refl, IH.
Qed.

Lemma str_eqb_eq (s t : str) : str_eqb s t = true <-> s = t.
Proof.
  split.
  - revert t. induction s as [|x s IH]; intros [|y t]; simpl; try discriminate; auto.
    unfold char_eqb. intros H. apply andb_true_iff in H as [Hx Hs].
    apply N.eqb_eq in Hx. subst. f_equal. now apply IH.
  - intros ->. apply str_eqb_refl.
Qed.

(** The tabulated resolution order is the C3 linearization of the class
    statements. *)
Lemma mro_is_c3 (c : pyclass) : linearize 8 c = Some (mro c).
Proof. destruct c; reflexivity. Qed.

Lemma slice_to_length {A : Type} (l : list A) (k : Z) :
  0 <= k <= len l -> List.length (slice_to l k) = Z.to_nat k.
Proof.
  intros Hk. unfold slice_to, slice_index, len in *.
  destruct (k <? 0) eqn:E; [apply Z.ltb_lt in E; lia|].
  rewrite length_firstn. lia.
Qed.

Lemma slice_to_from {A : Type} (l : list A) (k : Z) :
  slice_to l k ++ slice_from l k = l.
Proof. apply firstn_skipn. Qed.

Lemma last_cons_nonempty {A : Type} (x y : A) (l : list A) (d d' : A) :
  last (x :: y :: l) d = last (y :: l) d'.
Proof.
  revert y. induction l as [|z l IH]; intros y; [reflexivity|].
  change (last (x :: y :: z :: l) d) with (last (y :: z :: l) d).
  change (last (y :: z :: l) d) with (last (z :: l) d).
  change (last (y :: z :: l) d') with (last (z :: l) d').
  destruct l; [reflexivity|]. apply (IH z).
Qed.

Lemma last_In {A : Type} (x : A) (l : list A) (d : A) : In (last (x :: l) d) (x :: l).
Proof.
  revert x. induction l as [|y l IH]; intros x; [now left|].
  right. change (last (x :: y :: l) d) with (last (y :: l) d). apply IH.
Qed.

Lemma forallb_over_map {A B : Type} (f : A -> B) (p : B -> bool) (l : list A) :
  forallb p (List.map f l) = forallb (fun x => p (f x)) l.
Proof. induction l as [|x l IH]; cbn; [reflexivity|]. now rewrite IH. Qed.

Lemma forallb_agree {A : Type} (p q : A -> bool) (l : list A) :
  (forall x, In x l -> p x = q x) -> forallb p l = forallb q l.
Proof.
  induction l as [|x l IH]; cbn; intros H; [reflexivity|].
  rewrite (H x) by now left. rewrite IH; [reflexivity|].
  intros y Hy. apply H. now right.
Qed.

(** Induction on an object with its members. *)
Lemma pyobj_members_ind (P : pyobj -> Prop) :
  (forall i c a v, P (Atom i c a v)) ->
  (forall i c a l, Forall P l -> P (Seq i c a l)) ->
  (forall i c a d, Forall (fun kv => P (fst kv) /\ P (snd kv)) d -> P (Map i c a d)) ->
  forall o, P o.
Proof.
  intros HA HS HM. fix IH 1. intros [i c a v|i c a l|i c a d].
  - apply HA.
  - apply HS. induction l as [|x l IHl]; constructor; [apply IH|exact IHl].
  - apply HM. induction d as [|[k v] d IHd]; constructor; [split; apply IH|exact IHd].
Qed.

Section Properties.
Context {ext : External}.

(** ** The sink and the decorator *)

Lemma run_write (s : str) : run (write s) = (s, inr tt).
Proof. reflexivity. Qed.

Lemma bind_write {B : Type} (s : str) (k : unit -> io B) (fp : str) :
  bind (write s) k fp = k tt (fp ++ s).
Proof. reflexivity. Qed.

Lemma bind_raise {A B : Type} (e : exn) (k : A -> io B) (fp : str) :
  bind (raise e) k fp = (fp, inl e).
Proof. reflexivity. Qed.

Lemma bind_ok {A B : Type} (c : io A) (k : A -> io B) (fp fp' : str) (a : A) :
  c fp = (fp', inr a) -> bind c k fp = k a fp'.
Proof. unfold bind. now intros ->. Qed.

Lemma bind_err {A B : Type} (c : io A) (k : A -> io B) (fp fp' : str) (e : exn) :
  c fp = (fp', inl e) -> bind c k fp = (fp', inl e).
Proof. unfold bind. now intros ->. Qed.

Lemma for_each_cons {A : Type} (x : A) (l : list A) (body : A -> io unit) :
  for_each (x :: l) body = (body x ;; for_each l body).
Proof. reflexivity. Qed.

(** The decorator writes the leading atoms, runs the method, and writes the
    trailing atoms when the method returned. *)
Lemma with_style_ok (fn : pyobj -> io unit) (obj : pyobj) (fp body : str) :
  (forall fp0, fn obj fp0 = (fp0 ++ body, inr tt)) ->
  with_style fn obj fp =
    (fp ++ wsc_text (json_before (attrs_of obj)) ++ body
        ++ wsc_text (json_after (attrs_of obj)), inr tt).
Proof.
  intros Hfn. unfold with_style.
  rewrite bind_write. erewrite bind_ok by apply Hfn.
  unfold write. now rewrite <- !app_assoc.
Qed.

Lemma with_style_err (fn : pyobj -> io unit) (obj : pyobj) (fp : str) (e : exn) :
  (forall fp0, fn obj fp0 = (fp0, inl e)) ->
  with_style fn obj fp = (fp ++ wsc_text (json_before (attrs_of obj)), inl e).
Proof.
  intros Hfn. unfold with_style.
  rewrite bind_write. now erewrite bind_err by apply Hfn.
Qed.

Lemma with_style_ext (f g : pyobj -> io unit) (obj : pyobj) :
  f obj = g obj -> with_style f obj = with_style g obj.
Proof. unfold with_style. now intros ->. Qed.

(** ** Dispatch *)

(** [encode] is its dispatch on the members of the object. *)
Lemma encode_unfold (obj : pyobj) :
  encode obj = encode_dispatch encode (elements obj) (items obj) obj.
Proof. destruct obj; reflexivity. Qed.

(** A [bool] is an [int]: the first test of [encode] takes every boolean,
    and its second branch is never reached. *)
Lemma bool_is_dispatched_as_number (obj : pyobj) :
  isinstance obj py_bool = true ->
  isinstance_any obj [JNumber; py_int; py_float] = true.
Proof.
  unfold isinstance, isinstance_any.
  destruct (type_of obj); try discriminate; reflexivity.
Qed.

Lemma encode_JNumber (obj : pyobj) :
  isinstance obj JNumber = true -> encode obj = encode_number obj.
Proof.
  intros Hnum. rewrite encode_unfold. unfold encode_dispatch.
  replace (isinstance_any obj [JNumber; py_int; py_float]) with true; [reflexivity|].
  unfold isinstance_any, issubclass_any. cbn [existsb].
  unfold isinstance in Hnum. now rewrite Hnum.
Qed.

(** ** Literals *)

Lemma encode_literal_null (i : addr) (a : attrs) (fp : str) :
  encode_literal (literal i a PyNone) fp =
    (fp ++ wsc_text (json_before a) ++ lit "null" ++ wsc_text (json_after a), inr tt).
Proof.
  unfold encode_literal.
  now rewrite with_style_ok with (body := lit "null").
Qed.

(** C9: encoding the bare host [None] raises the unknown-type error and
    writes nothing, while the null literal in its wrapper is written as
    [null] between its leading and trailing atoms. *)
Theorem bare_None_is_unknown_wrapped_None_is_null (i j : addr) (a : attrs) :
  dumps (None_ i)
    = ([], inl (NotImplementedError (lit "Unknown type: <class 'NoneType'>")))
  /\ dumps (literal j a PyNone)
    = (wsc_text (json_before a) ++ lit "null" ++ wsc_text (json_after a), inr tt).
Proof.
  split; [reflexivity|].
  unfold dumps, run. rewrite encode_unfold.
  change (encode_dispatch encode (elements (literal j a PyNone))
            (items (literal j a PyNone)) (literal j a PyNone))
    with (encode_literal (literal j a PyNone)).
  now rewrite encode_literal_null.
Qed.

(** ** Numbers *)

(** [str] returns the text of the value, or raises the [ValueError] of
    [int.__repr__]. *)
Lemma to_str_scalar_returns (v : scalar) :
  to_str_scalar v = inr (str_of_scalar v) \/ to_str_scalar v = inl exceeds_str_digits.
Proof.
  destruct v as [| |z| | |]; try (left; reflexivity).
  cbn [to_str_scalar str_of_scalar]. unfold int_repr_checked.
  destruct (int_max_str_digits <? decimal_digits z); [right|left]; reflexivity.
Qed.

Lemma to_str_returns (o : pyobj) :
  to_str o = inr (str_of o) \/ to_str o = inl exceeds_str_digits.
Proof.
  unfold to_str, str_of.
  destruct (resolve defines_str (mro (type_of o))) as [[| |]|];
    try apply to_str_scalar_returns; [|left; reflexivity].
  unfold int_repr_checked.
  destruct (int_max_str_digits <? decimal_digits (int_of o)); [right|left]; reflexivity.
Qed.

(** What [encode_number] does with a number of the model: the text is
    [str(obj)], with the [+] when the number is positive and [prefixed] is
    set; a [str(obj)] that raises, or a positive number with no [prefixed]
    attribute, stops the encoder after the leading atoms. *)
Lemma encode_number_JNumber (obj : pyobj) (fp : str) :
  isinstance obj JNumber = true ->
  encode_number obj fp =
    let before := wsc_text (json_before (attrs_of obj)) in
    let after := wsc_text (json_after (attrs_of obj)) in
    match to_str obj with
    | inl e => (fp ++ before, inl e)
    | inr presentation =>
        match prefixed (attrs_of obj) with
        | Some p => (fp ++ before ++ (sign_of obj p ++ presentation) ++ after, inr tt)
        | None =>
            if gt0 obj
            then (fp ++ before, inl (no_prefixed (type_of obj)))
            else (fp ++ before ++ presentation ++ after, inr tt)
        end
    end.
Proof.
  intros Hnum. cbv zeta. unfold encode_number, sign_of, no_prefixed.
  destruct (to_str obj) as [e|presentation] eqn:Hs.
  { apply with_style_err. intros fp0. rewrite Hnum. cbn [negb].
    now rewrite Hs. }
  destruct (prefixed (attrs_of obj)) as [p|] eqn:Hp.
  - apply with_style_ok. intros fp0. rewrite Hnum. cbn [negb].
    rewrite Hs. unfold get_prefixed. rewrite Hp.
    destruct (gt0 obj), p; reflexivity.
  - destruct (gt0 obj) eqn:Hpos.
    + apply with_style_err. intros fp0. rewrite Hnum. cbn [negb].
      rewrite Hs. cbn [lift]. unfold bind at 1, ret.
      rewrite Hpos. unfold get_prefixed. now rewrite Hp.
    + apply with_style_ok. intros fp0. rewrite Hnum. cbn [negb].
      rewrite Hs. cbn [lift]. unfold bind at 1, ret.
      now rewrite Hpos.
Qed.

(** The encoder never reads the origin text. *)
Lemma encode_ignores_origin (i : addr) (c : pyclass) (a : attrs) (v : scalar)
  (t : option str) :
  encode (Atom i c (set_origin t a) v) = encode (Atom i c a v).
Proof. destruct a, c; reflexivity. Qed.

(** [__round_dump__] of an [Integer] or [HexInteger] returns an origin text
    that reads as the value. *)
Lemma round_dump_keeps_matching_origin (i : addr) (a : attrs) (z : Z) (c : char)
  (t : str) :
  origin a = Some (c :: t) ->
  (int_of_text 10 (c :: t) = inr z ->
   round_dump (Atom i Integer a (PyInt z)) = inr (Some (c :: t)))
  /\ (int_of_text 16 (c :: t) = inr z ->
      round_dump (Atom i HexInteger a (PyInt z)) = inr (Some (c :: t))).
Proof.
  intros Ho. split; intros Hp.
  - change (integer_round_dump 10 int_repr_checked (Atom i Integer a (PyInt z))
            = inr (Some (c :: t))).
    unfold integer_round_dump. cbn [attrs_of]. rewrite Ho, Hp.
    cbn [int_of int_of_scalar scalar_of]. now rewrite Z.eqb_refl.
  - change (integer_round_dump 16 (fun z => inr (hex z))
              (Atom i HexInteger a (PyInt z))
            = inr (Some (c :: t))).
    unfold integer_round_dump. cbn [attrs_of]. rewrite Ho, Hp.
    cbn [int_of int_of_scalar scalar_of]. now rewrite Z.eqb_refl.
Qed.

(** C1: the hexadecimal number read from [0x1A], value 26.  Its
    [__round_dump__] returns the origin text, which still reads as 26; the
    encoder writes [str(obj)] instead, the lowercase [0x1a]. *)
Theorem origin_text_0x1A_is_written_0x1a :
  round_dump hex_1A = inr (Some (lit "0x1A"))
  /\ dumps hex_1A = (lit "0x1a", inr tt).
Proof. split; reflexivity. Qed.

(** C5: the integer 5 as [convert] builds it carries no [prefixed]
    attribute; encoding it, or the host integer 5 itself, raises
    [AttributeError] and writes nothing. *)
Theorem positive_number_without_prefixed_raises :
  convert host_5 10%N = (inr (Integer_5 10), 11%N)
  /\ dumps (Integer_5 10) = ([], inl (no_prefixed Integer))
  /\ dumps host_5 = ([], inl (no_prefixed Integer))
  /\ no_prefixed Integer
     = AttributeError (lit "'Integer' object has no attribute 'prefixed'").
Proof. repeat split; reflexivity. Qed.

(** C6: the host [False] is written [0] and the host [True] stops the
    encoder; the wrappers [BoolWrapper(False)] and [BoolWrapper(True)] are
    written [False] and [True], capitalised, where [__round_dump__] has the
    lowercase literal. *)
Theorem booleans_are_encoded_as_numbers (i : addr) :
  dumps (host i (PyBool false)) = (lit "0", inr tt)
  /\ dumps (host i (PyBool true)) = ([], inl (no_prefixed Integer))
  /\ dumps (new_BoolWrapper i no_attrs false) = (lit "False", inr tt)
  /\ dumps (new_BoolWrapper i (recorded None false) true) = (lit "True", inr tt)
  /\ round_dump (new_BoolWrapper i no_attrs false) = inr (Some (lit "false")).
Proof. repeat split; reflexivity. Qed.

(** ** Boolean wrappers *)

(** A boolean wrapper answers [==] as the [Integer] of its value does, on
    either side and against every object. *)
Lemma BoolWrapper_equals_as_Integer (i : addr) (a a' : attrs) (b : bool) (x : pyobj) :
  py_eq (new_BoolWrapper i a b) x = py_eq (Atom i Integer a' (PyInt (int_of_bool b))) x
  /\ py_eq x (new_BoolWrapper i a b) = py_eq x (Atom i Integer a' (PyInt (int_of_bool b))).
Proof.
  destruct x as [j c ax v|j c ax l|j c ax d].
  - destruct v as [| | | | |c' t s]; [destruct b, c; split; reflexivity ..|].
    destruct b, c; try (split; reflexivity); destruct c'; split; reflexivity.
  - destruct b; split; reflexivity.
  - destruct b; split; reflexivity.
Qed.

(** C10: a boolean wrapper is an instance of [Integer], of [JNumber] and of
    [int]; [BoolWrapper(True)] equals the integer 1 and [BoolWrapper(False)]
    the integer 0, on either side of [==] and whether the integer is a host
    [int] or an [Integer]; it hashes as that integer; and against any
    object at all it compares as the [Integer] does. *)
Theorem BoolWrapper_is_the_integer (i j : addr) (a a' : attrs) (b : bool) :
  let w := new_BoolWrapper i a b in
  let n := host j (PyInt (int_of_bool b)) in
  let n' := Atom j Integer a' (PyInt (int_of_bool b)) in
  isinstance w Integer = true
  /\ isinstance w JNumber = true
  /\ isinstance w py_int = true
  /\ py_eq w n = true /\ py_eq n w = true
  /\ py_eq w n' = true /\ py_eq n' w = true
  /\ py_hash w = py_hash n
  /\ py_hash w = Some (int_of_bool b)
  /\ forall x, py_eq w x = py_eq (Atom i Integer a' (PyInt (int_of_bool b))) x
               /\ py_eq x w = py_eq x (Atom i Integer a' (PyInt (int_of_bool b))).
Proof.
  cbv zeta. repeat split; try (destruct b; reflexivity);
    apply BoolWrapper_equals_as_Integer.
Qed.

(** ** Strings *)

(** C2: the text backslash, double quote, newline in double quotes.  The
    backslash and the newline are written as their escapes; the double quote
    is written as it is, with no backslash in front of it, for a [JString]
    and for a host [str] alike. *)
Theorem double_quote_is_written_unescaped (i : addr) :
  dumps (quoted i DOUBLE [] backslash_quote_newline)
    = ([34%N; 92%N; 92%N; 34%N; 92%N; 110%N; 34%N], inr tt)
  /\ dumps (host i (PyStr backslash_quote_newline))
    = ([34%N; 92%N; 92%N; 34%N; 92%N; 110%N; 34%N], inr tt).
Proof. split; reflexivity. Qed.

(** The table has no entry for either quote character, and the encoder
    passes no further escapes. *)
Lemma quotes_are_not_escaped (q : Quote) (c : char) :
  Quote_value q = [c] -> merged [] c = None.
Proof. destruct q; intros [= <-]; reflexivity. Qed.

(** The text between the quotes of a [JString] with one recorded line
    break. *)
Lemma escape_string_one_break (i : addr) (q : Quote) (k : Z) (text : str) :
  escape_string (quoted i q [k] text) []
    = insert_linebreak (translate (merged []) text) k.
Proof. reflexivity. Qed.

(** A recorded line break at offset [k] of the quoted text (the opening
    quote is offset 0) puts the backslash at offset [k] of the output and
    the newline after it. *)
Lemma linebreak_at_offset (i : addr) (q : Quote) (k : Z) (text : str) :
  1 <= k <= len (translate (merged []) text) + 1 ->
  let out := fst (dumps (quoted i q [k] text)) in
  nth_error out (Z.to_nat k) = Some 92%N
  /\ nth_error out (S (Z.to_nat k)) = Some 10%N.
Proof.
  intros Hk out.
  assert (Hout : out = Quote_value q
                       ++ (slice_to (translate (merged []) text) (k - 1)
                           ++ [92%N; 10%N]
                           ++ slice_from (translate (merged []) text) (k - 1))
                       ++ Quote_value q).
  { subst out. unfold dumps, run. rewrite encode_unfold.
    cbn. unfold insert_linebreak. now rewrite app_nil_r. }
  assert (Hlen : List.length (slice_to (translate (merged []) text) (k - 1))
                 = Z.to_nat (k - 1)) by (apply slice_to_length; lia).
  assert (Hq : List.length (Quote_value q) = 1%nat) by (destruct q; reflexivity).
  rewrite Hout.
  replace (Z.to_nat k) with (1 + Z.to_nat (k - 1))%nat by lia.
  split.
  - rewrite nth_error_app2 by lia. rewrite Hq.
    replace (1 + Z.to_nat (k - 1) - 1)%nat with (Z.to_nat (k - 1) + 0)%nat by lia.
    rewrite <- app_assoc, <- Hlen.
    now rewrite nth_error_app2, Nat.add_comm, Nat.add_sub by lia.
  - rewrite nth_error_app2 by lia. rewrite Hq.
    replace (S (1 + Z.to_nat (k - 1)) - 1)%nat with (Z.to_nat (k - 1) + 1)%nat by lia.
    rewrite <- app_assoc, <- Hlen.
    now rewrite nth_error_app2, Nat.add_comm, Nat.add_sub by lia.
Qed.

(** ** Containers *)

(** C4: an array holding one string object twice is written with no comma
    between its two elements: the test [v is not last_v] fails at the first
    element as it does at the last.  Two distinct objects of equal value
    get their comma. *)
Theorem shared_element_loses_its_comma :
  dumps (Seq 1 Array no_attrs [letter_a 7; letter_a 7])
    = (lit "[" ++ [34%N; 97%N; 34%N; 34%N; 97%N; 34%N] ++ lit "]", inr tt)
  /\ dumps (Seq 1 Array no_attrs [letter_a 7; letter_a 8])
    = (lit "[" ++ [34%N; 97%N; 34%N; 44%N; 34%N; 97%N; 34%N] ++ lit "]", inr tt).
Proof. split; reflexivity. Qed.

Lemma entries_by_position_cons {A : Type} (entry : A -> io unit) (trailing : bool)
  (x : A) (l : list A) :
  entries_by_position entry trailing (x :: l)
  = ((entry x ;; when (nonempty l || trailing) (write (lit ",")))
     ;; entries_by_position entry trailing l).
Proof. reflexivity. Qed.

(** The encoder's loop tells the last member by identity with [last_v]. *)
Lemma for_each_by_identity {A : Type} (key : A -> pyobj) (entry : A -> io unit)
  (trailing : bool) (last_v : pyobj) (d : A) (l : list A) :
  NoDup (List.map (fun x => id_of (key x)) l) ->
  (l <> [] -> id_of (key (last l d)) = id_of last_v) ->
  for_each l (fun x =>
    entry x ;; when (negb (is_ (key x) last_v) || trailing) (write (lit ",")))
  = entries_by_position entry trailing l.
Proof.
  induction l as [|x l IH]; intros Hnd Hlast; [reflexivity|].
  rewrite for_each_cons, entries_by_position_cons.
  inversion Hnd as [|? ? Hx Hnd']; subst.
  destruct l as [|y l].
  - pose proof (Hlast ltac:(discriminate)) as Hid. cbn [last] in Hid.
    cbn [nonempty orb]. unfold is_. rewrite Hid, N.eqb_refl. reflexivity.
  - pose proof (Hlast ltac:(discriminate)) as Hid.
    rewrite (last_cons_nonempty x y l d d) in Hid.
    rewrite IH; [|exact Hnd'|intros _; exact Hid].
    cbn [nonempty orb].
    replace (is_ (key x) last_v) with false; [reflexivity|].
    symmetry. unfold is_. apply N.eqb_neq. intros Heq. apply Hx.
    rewrite Heq, <- Hid.
    apply (in_map (fun x => id_of (key x))). apply last_In.
Qed.

(** It is the rule by position when no object occurs twice among the
    [key x]. *)
Lemma for_each_by_position {A : Type} (key : A -> pyobj) (entry : A -> io unit)
  (trailing : bool) (l : list A) (d : A) :
  NoDup (List.map (fun x => id_of (key x)) l) ->
  for_each l (fun x =>
    entry x ;;
    when (negb (is_ (key x) (key (last l d))) || trailing) (write (lit ",")))
  = entries_by_position entry trailing l.
Proof.
  intros Hnd. now apply for_each_by_identity with (d := d).
Qed.

(** A sequence whose elements are distinct objects gets its commas by
    position. *)
Lemma encode_iterable_distinct (encode : pyobj -> io unit) (elems : list pyobj)
  (obj : pyobj) :
  NoDup (List.map id_of elems) ->
  encode_iterable encode elems obj = encode_iterable_by_position encode elems obj.
Proof.
  intros Hnd. unfold encode_iterable, encode_iterable_by_position.
  apply with_style_ext.
  destruct elems as [|x l]; [reflexivity|]. cbv zeta.
  now rewrite (@for_each_by_position _ (fun v => v) encode _ (x :: l) x Hnd).
Qed.

(** The keys of a dict are distinct objects, so an object container always
    gets its commas by position. *)
Lemma encode_dict_distinct (encode : pyobj -> io unit) (members : list (pyobj * pyobj))
  (obj : pyobj) :
  NoDup (List.map (fun kv => id_of (fst kv)) members) ->
  encode_dict encode members obj = encode_dict_by_position encode members obj.
Proof.
  intros Hnd. unfold encode_dict, encode_dict_by_position.
  apply with_style_ext.
  destruct members as [|x l]; [reflexivity|]. cbv zeta.
  now rewrite (@for_each_by_position _ (@fst pyobj pyobj)
                 (fun kv => encode_pair encode (fst kv) (snd kv)) _ (x :: l) x Hnd).
Qed.

(** The same for [encode] on an [Array] and on a [JObject]. *)
Lemma encode_Array_distinct (i : addr) (a : attrs) (l : list pyobj) :
  NoDup (List.map id_of l) ->
  encode (Seq i Array a l) = encode_iterable_by_position encode l (Seq i Array a l).
Proof.
  intros Hnd. rewrite encode_unfold.
  change (encode_dispatch encode (elements (Seq i Array a l))
            (items (Seq i Array a l)) (Seq i Array a l))
    with (encode_iterable encode l (Seq i Array a l)).
  now apply encode_iterable_distinct.
Qed.

Lemma encode_JObject_distinct (i : addr) (a : attrs) (d : list (pyobj * pyobj)) :
  NoDup (List.map (fun kv => id_of (fst kv)) d) ->
  encode (Map i JObject a d) = encode_dict_by_position encode d (Map i JObject a d).
Proof.
  intros Hnd. rewrite encode_unfold.
  change (encode_dispatch encode (elements (Map i JObject a d))
            (items (Map i JObject a d)) (Map i JObject a d))
    with (encode_dict encode d (Map i JObject a d)).
  now apply encode_dict_distinct.
Qed.

(** ** convert *)

(** C8: given an object of a class it has no case for, [convert] raises the
    [TypeError] whose message starts with [str(obj)], and leaves the state
    as it was: it builds nothing and assigns no attribute. *)
Theorem convert_rejects_unclassified (obj : pyobj) (next : addr) :
  classifiable obj = false ->
  convert obj next = (inl (unsupported obj), next).
Proof.
  destruct obj as [i c a v|i c a l|i c a d]; destruct c; try discriminate;
    intros _; reflexivity.
Qed.

(** Every other object is converted. *)
Lemma convert_accepts_classified (obj : pyobj) (next : addr) :
  classifiable obj = true ->
  exists o next', convert obj next = (inr o, next').
Proof.
  destruct obj as [i c a v|i c a l|i c a d]; destruct c; try discriminate;
    intros _; eexists; eexists; reflexivity.
Qed.

(** An object of the model that [convert] rejects is an instance of
    [object] itself or of a caller's class; the message starts with the
    text [str()] gives for it. *)
Lemma unclassified_is_foreign (obj : pyobj) :
  wf obj = true -> classifiable obj = false ->
  exists i c a t text,
    obj = Atom i c a (PyOpaque c t text) /\ str_of obj = text.
Proof.
  destruct obj as [i c a v|i c a l|i c a d]; destruct c; try discriminate;
    destruct v as [| | | | |c' t text]; try discriminate;
    destruct c'; try discriminate; intros Hwf _.
  - do 5 eexists. split; reflexivity.
  - cbn in Hwf. apply str_eqb_eq in Hwf. subst.
    do 5 eexists. split; reflexivity.
Qed.

(** A fidelity value is returned as it is, and what [convert] returns is a
    fidelity value: converting twice is converting once. *)
Lemma convert_JType (obj : pyobj) (next : addr) :
  isinstance obj JType = true -> convert obj next = (inr obj, next).
Proof. unfold convert. now intros ->. Qed.

Lemma convert_returns_JType (obj o : pyobj) (next next' : addr) :
  convert obj next = (inr o, next') -> isinstance o JType = true.
Proof.
  destruct obj as [i c a v|i c a l|i c a d]; destruct c;
    intros [= <- _] || intros [=]; reflexivity.
Qed.

Lemma convert_idempotent (obj o : pyobj) (next next' : addr) :
  convert obj next = (inr o, next') -> convert o next' = (inr o, next').
Proof. intros H. apply convert_JType. exact (convert_returns_JType _ _ H). Qed.

(** C3, amended: a host list or tuple becomes a new [Array] holding the
    very elements it was given, and a host dict a new [JObject] holding the
    very keys and values it was given; no member is converted, and the new
    container starts with empty formatting. *)
Theorem convert_containers_are_shallow (obj : pyobj) (next : addr) :
  isinstance obj JType = false ->
  (isinstance_any obj [py_list; py_tuple] = true ->
   convert obj next = (inr (Seq next Array no_attrs (elements obj)), N.succ next))
  /\ (isinstance obj py_dict = true ->
      convert obj next = (inr (Map next JObject no_attrs (items obj)), N.succ next)).
Proof.
  intros Hhost.
  split; intros Hc;
    destruct obj as [i c a v|i c a l|i c a d]; destruct c; try discriminate;
    reflexivity.
Qed.

(** ** Equality and hashing *)

Lemma type_of_plain (o : pyobj) : type_of (plain o) = type_of o.
Proof. destruct o; reflexivity. Qed.

Lemma scalar_of_plain (o : pyobj) : scalar_of (plain o) = scalar_of o.
Proof. destruct o; reflexivity. Qed.

Lemma id_of_plain (o : pyobj) : id_of (plain o) = id_of o.
Proof. destruct o; reflexivity. Qed.

Lemma is_plain (a b : pyobj) : is_ (plain a) (plain b) = is_ a b.
Proof. unfold is_. now rewrite !id_of_plain. Qed.

(** No [__eq__] reads a formatting attribute. *)
Lemma method_eq_plain (a b : pyobj) :
  method_eq (plain a) (plain b) = method_eq a b.
Proof.
  destruct a as [i c a v|i c a l|i c a d]; try reflexivity.
  cbn [plain method_eq]. unfold atom_eq, operand_of, isinstance, value.
  rewrite !type_of_plain, !scalar_of_plain.
  change (is_ (Atom i c no_attrs v) (plain b))
    with (is_ (plain (Atom i c a v)) (plain b)).
  now rewrite is_plain.
Qed.

Lemma all2_plain (l ys : list pyobj) :
  Forall (fun x => forall b, py_eq (plain x) (plain b) = py_eq x b) l ->
  all2 (fun x y => is_ x y || py_eq x y) (List.map plain l) (List.map plain ys)
  = all2 (fun x y => is_ x y || py_eq x y) l ys.
Proof.
  intros Hl. revert ys.
  induction Hl as [|x l Hx Hl IH]; intros [|y ys]; cbn; try reflexivity.
  now rewrite is_plain, Hx, IH.
Qed.

Lemma dict_get_plain (k : pyobj) (db : list (pyobj * pyobj)) :
  (forall b, py_eq (plain k) (plain b) = py_eq k b) ->
  dict_get (fun k' => is_ (plain k) k' || py_eq (plain k) k')
    (List.map (fun kv => (plain (fst kv), plain (snd kv))) db)
  = option_map plain (dict_get (fun k' => is_ k k' || py_eq k k') db).
Proof.
  intros Hk. induction db as [|[k' v'] db IH]; cbn; [reflexivity|].
  rewrite is_plain, Hk. now destruct (is_ k k' || py_eq k k').
Qed.

(** [==] does not see the formatting attributes, at any depth. *)
Lemma py_eq_plain (a b : pyobj) : py_eq (plain a) (plain b) = py_eq a b.
Proof.
  revert b. induction a as [i c a v|i c a l IHl|i c a d IHd] using pyobj_members_ind;
    intros b.
  - change (py_eq (plain (Atom i c a v)) (plain b))
      with (first_implemented (method_eq (plain (Atom i c a v)) (plain b))
              (method_eq (plain b) (plain (Atom i c a v)))
              (is_ (plain (Atom i c a v)) (plain b))).
    rewrite !method_eq_plain, is_plain. reflexivity.
  - destruct b as [j cb ab vb|j cb ab ys|j cb ab db].
    + change (py_eq (plain (Seq i c a l)) (plain (Atom j cb ab vb)))
        with (first_implemented (method_eq (plain (Seq i c a l)) (plain (Atom j cb ab vb)))
                (method_eq (plain (Atom j cb ab vb)) (plain (Seq i c a l)))
                (is_ (plain (Seq i c a l)) (plain (Atom j cb ab vb)))).
      rewrite !method_eq_plain, is_plain. reflexivity.
    + cbn [plain py_eq]. rewrite all2_plain by exact IHl. reflexivity.
    + reflexivity.
  - destruct b as [j cb ab vb|j cb ab ys|j cb ab db].
    + change (py_eq (plain (Map i c a d)) (plain (Atom j cb ab vb)))
        with (first_implemented (method_eq (plain (Map i c a d)) (plain (Atom j cb ab vb)))
                (method_eq (plain (Atom j cb ab vb)) (plain (Map i c a d)))
                (is_ (plain (Map i c a d)) (plain (Atom j cb ab vb)))).
      rewrite !method_eq_plain, is_plain. reflexivity.
    + reflexivity.
    + cbn [plain py_eq]. rewrite !length_map.
      destruct (both c cb py_dict); [|reflexivity].
      f_equal. rewrite forallb_over_map.
      apply forallb_agree. intros [k v] Hin.
      rewrite Forall_forall in IHd. destruct (IHd _ Hin) as [Hk Hv].
      cbn [fst snd] in *.
      rewrite dict_get_plain by exact Hk.
      destruct (dict_get (fun k' => is_ k k' || py_eq k k') db) as [v'|]; cbn;
        [|reflexivity].
      now rewrite is_plain, Hv.
Qed.

(** Nor does [hash]. *)
Lemma py_hash_plain (o : pyobj) : py_hash (plain o) = py_hash o.
Proof.
  induction o as [i c a v|i c a l IHl|i c a d _] using pyobj_members_ind;
    try reflexivity.
  cbn [plain py_hash]. rewrite map_map.
  replace (List.map (fun x => py_hash (plain x)) l) with (List.map py_hash l);
    [reflexivity|].
  induction IHl as [|x l Hx _ IH]; cbn; [reflexivity|]. now rewrite Hx, IH.
Qed.

(** Two formattings of one value cannot be told apart by [==] or [hash]. *)
Lemma reformatting_is_invisible (a a' b b' : pyobj) :
  plain a = plain a' -> plain b = plain b' ->
  py_eq a b = py_eq a' b' /\ py_hash a = py_hash a'.
Proof.
  intros Ha Hb. split.
  - now rewrite <- (py_eq_plain a b), <- (py_eq_plain a' b'), Ha, Hb.
  - now rewrite <- (py_hash_plain a), <- (py_hash_plain a'), Ha.
Qed.

(** ** Values of one structured value *)

Lemma pyclass_eqb_eq (c d : pyclass) : pyclass_eqb c d = true -> c = d.
Proof.
  destruct c, d; try discriminate; try reflexivity; cbn [pyclass_eqb];
    intros H; apply str_eqb_eq in H; now subst.
Qed.

Lemma float_eqb_true (f g : spec_float) :
  float_eqb f g = true ->
  f = g \/ exists s s', f = S754_zero s /\ g = S754_zero s'.
Proof.
  unfold float_eqb, SFeqb, SFcompare.
  destruct f as [s|s| |s m e], g as [s'|s'| |s' m' e']; try discriminate;
    try (destruct s; discriminate); try (destruct s'; discriminate).
  - intros _. right. now exists s, s'.
  - destruct s, s'; try discriminate; now left.
  - destruct s, s'; try discriminate;
      destruct (Z.compare_spec e e') as [->|?|?]; try discriminate;
      destruct (Pos.compare_cont Eq m m') eqn:E; try discriminate;
      apply Pos.compare_eq in E; subst; now left.
Qed.

Lemma key_eq (k k' : pyobj) :
  is_key k = true -> is_key k' = true ->
  py_eq k k' = str_eqb (text_of k) (text_of k').
Proof.
  destruct k as [i c a [| | | |s|]| |], k' as [j c' a' [| | | |t|]| |];
    try discriminate.
  destruct c; try discriminate; destruct c'; try discriminate; reflexivity.
Qed.

Lemma same_key (k k' : pyobj) :
  is_key k = true -> same_value k k' = true ->
  is_key k' = true /\ text_of k = text_of k'.
Proof.
  destruct k as [i c a [| | | |s|]| |]; try discriminate.
  destruct k' as [j c' a' w| |]; try discriminate.
  cbn [is_key same_value text_of text_of_scalar scalar_of].
  intros Hk H. apply andb_prop in H. destruct H as [Hc Hs].
  destruct w; try discriminate. cbn [same_scalar] in Hs.
  apply pyclass_eqb_eq in Hc. apply str_eqb_eq in Hs. now subst.
Qed.

Lemma same_atom (i j : addr) (c c' : pyclass) (a a' : attrs) (v w : scalar) :
  fidelity_atom c v = true ->
  pyclass_eqb c c' = true -> same_scalar v w = true ->
  py_eq (Atom i c a v) (Atom j c' a' w) = true
  /\ (hash_float (S754_zero true) = hash_float (S754_zero false) ->
      py_hash (Atom i c a v) = py_hash (Atom j c' a' w)).
Proof.
  intros Hf Hc Hs. apply pyclass_eqb_eq in Hc. subst c'.
  destruct c; try discriminate; destruct v, w; try discriminate.
  all: cbn [same_scalar] in Hs.
  all: try (apply str_eqb_eq in Hs; subst).
  all: try (apply Z.eqb_eq in Hs; subst).
  all: try (apply Bool.eqb_prop in Hs; subst).
  all: try (split; [cbv -[str_eqb hash_str]; try rewrite str_eqb_refl; reflexivity
                   | intros _; reflexivity]).
  all: try (split; [cbv -[Z.eqb hash_int]; try rewrite Z.eqb_refl; reflexivity
                   | intros _; reflexivity]).
  - split; [cbv -[float_eqb]; exact Hs|].
    intros Hz. cbv -[hash_float].
    destruct (float_eqb_true _ _ Hs) as [->|(s & s' & -> & ->)]; [reflexivity|].
    destruct s, s'; congruence.
  - split; [cbv -[float_eqb]; exact Hs|].
    intros Hz. cbv -[hash_float].
    destruct (float_eqb_true _ _ Hs) as [->|(s & s' & -> & ->)]; [reflexivity|].
    destruct s, s'; congruence.
  - apply andb_prop in Hs. destruct Hs as [Hc Ht].
    apply pyclass_eqb_eq in Hc. apply N.eqb_eq in Ht. subst c0 tag0.
    destruct c; try discriminate;
      (split; [cbv -[str_eqb N.eqb]; rewrite ?str_eqb_refl, ?N.eqb_refl; reflexivity
              |intros _; reflexivity]).
Qed.

Lemma dict_get_skip (K V : Type) (f : K -> bool) (pre rest : list (K * V)) :
  Forall (fun kv => f (fst kv) = false) pre ->
  dict_get f (pre ++ rest) = dict_get f rest.
Proof.
  induction 1 as [|[k v] pre Hk _ IH]; [reflexivity|].
  cbn [app dict_get]. cbn [fst] in Hk. now rewrite Hk.
Qed.

Section Heap.
Variable h : addr -> option pyobj.

Lemma stored_here (o : pyobj) : stored h o -> h (id_of o) = Some o.
Proof. destruct o; intros [H _]; exact H. Qed.

Lemma stored_elements (i : addr) (c : pyclass) (a : attrs) (l : list pyobj) :
  stored h (Seq i c a l) -> Forall (stored h) l.
Proof.
  intros [_ H]. induction l as [|x l IH]; constructor.
  - exact (proj1 H).
  - exact (IH (proj2 H)).
Qed.

Lemma stored_items (i : addr) (c : pyclass) (a : attrs) (d : list (pyobj * pyobj)) :
  stored h (Map i c a d) ->
  Forall (fun kv => stored h (fst kv) /\ stored h (snd kv)) d.
Proof.
  intros [_ H]. induction d as [|kv d IH]; constructor.
  - exact (conj (proj1 H) (proj1 (proj2 H))).
  - exact (IH (proj2 (proj2 H))).
Qed.

(** Two keys of different texts are neither the same object nor equal. *)
Lemma key_differs (k y : pyobj) :
  is_key k = true -> is_key y = true -> stored h k -> stored h y ->
  text_of k <> text_of y ->
  is_ k y || py_eq k y = false.
Proof.
  intros Hk Hy Sk Sy Hne. rewrite (key_eq _ _ Hk Hy).
  apply orb_false_intro.
  - unfold is_. apply N.eqb_neq. intros Hid.
    apply stored_here in Sk, Sy. rewrite Hid in Sk. congruence.
  - destruct (str_eqb (text_of k) (text_of y)) eqn:E; [|reflexivity].
    apply str_eqb_eq in E. contradiction.
Qed.

Lemma elements_agree (l : list pyobj) :
  Forall (fun x => fidelity x = true -> stored h x -> agrees h x) l ->
  forallb fidelity l = true -> Forall (stored h) l ->
  forall l', Forall (stored h) l' -> all2 same_value l l' = true ->
             all2 (fun x y => is_ x y || py_eq x y) l l' = true.
Proof.
  induction 1 as [|x l Hx _ IH]; intros Hf Hs [|y l'] Hs' Hv;
    try discriminate; [reflexivity|].
  cbn [forallb] in Hf. apply andb_prop in Hf. destruct Hf as [Hfx Hf].
  cbn [all2] in Hv |- *. apply andb_prop in Hv. destruct Hv as [Hxy Hv].
  inversion Hs as [|? ? Sx Sl]; subst. inversion Hs' as [|? ? Sy Sl']; subst.
  rewrite (proj1 (Hx Hfx Sx y Sy Hxy)), orb_true_r. cbn [andb].
  now apply IH.
Qed.

Lemma items_agree (d : list (pyobj * pyobj)) :
  Forall (fun kv => fidelity (snd kv) = true -> stored h (snd kv) ->
                    agrees h (snd kv)) d ->
  forall pre d',
    forallb (fun kv => is_key (fst kv) && fidelity (snd kv)) d = true ->
    distinct (List.map (fun kv => text_of (fst kv)) d) = true ->
    Forall (fun kv => stored h (fst kv) /\ stored h (snd kv)) d ->
    Forall (fun kv => stored h (fst kv) /\ stored h (snd kv)) d' ->
    Forall (fun kv => is_key (fst kv) = true /\ stored h (fst kv)) pre ->
    (forall x y, In x d -> In y pre -> text_of (fst x) <> text_of (fst y)) ->
    all2 (fun kv kv' =>
            same_value (fst kv) (fst kv') && same_value (snd kv) (snd kv'))
      d d' = true ->
    forallb
      (fun kv =>
         match dict_get (fun k' => is_ (fst kv) k' || py_eq (fst kv) k') (pre ++ d') with
         | Some v' => is_ (snd kv) v' || py_eq (snd kv) v'
         | None => false
         end) d = true.
Proof.
  induction 1 as [|[k v] d Hv _ IH]; intros pre [|[k' v'] d'] Hf Hd Hs Hs' Hpre Hne Hsame;
    try discriminate; [reflexivity|].
  cbn [forallb fst snd] in Hf. apply andb_prop in Hf. destruct Hf as [Hkv Hf].
  apply andb_prop in Hkv. destruct Hkv as [Hk Hfv].
  cbn [List.map distinct fst] in Hd. apply andb_prop in Hd. destruct Hd as [Hnew Hd].
  cbn [all2 fst snd] in Hsame. apply andb_prop in Hsame. destruct Hsame as [Hkv Hsame].
  apply andb_prop in Hkv. destruct Hkv as [Hkk Hvv].
  inversion Hs as [|? ? [Sk Sv] Sd]; subst. inversion Hs' as [|? ? [Sk' Sv'] Sd']; subst.
  cbn [fst snd] in *.
  destruct (same_key _ _ Hk Hkk) as [Hk' Htext].
  cbn [forallb fst snd]. apply andb_true_intro. split.
  - rewrite dict_get_skip.
    + cbn [dict_get]. rewrite (key_eq _ _ Hk Hk'), Htext, str_eqb_refl, orb_true_r.
      rewrite (proj1 (Hv Hfv Sv v' Sv' Hvv)). apply orb_true_r.
    + apply Forall_forall. intros y Hy.
      destruct (proj1 (Forall_forall _ _) Hpre y Hy) as [Ky Sy].
      apply key_differs; try assumption.
      apply (Hne (k, v) y); [now left|exact Hy].
  - replace (pre ++ (k', v') :: d') with ((pre ++ [(k', v')]) ++ d')
      by (rewrite <- app_assoc; reflexivity).
    apply IH; try assumption.
    + apply Forall_app. split; [exact Hpre|]. constructor; [|constructor].
      now split.
    + intros x y Hx Hy. apply in_app_or in Hy. destruct Hy as [Hy|[<-|[]]].
      * apply (Hne x y); [now right|exact Hy].
      * cbn [fst]. rewrite <- Htext. intros E.
        apply negb_true_iff in Hnew.
        assert (Hex : existsb (str_eqb (text_of k))
                        (List.map (fun kv => text_of (fst kv)) d) = true).
        { apply existsb_exists. exists (text_of (fst x)). split.
          - apply in_map_iff. now exists x.
          - apply str_eqb_eq. now symmetry. }
        congruence.
Qed.

Lemma same_value_agrees (a : pyobj) : fidelity a = true -> stored h a -> agrees h a.
Proof.
  induction a as [i c a v|i c a l IHl|i c a d IHd] using pyobj_members_ind;
    intros Hf Sa b Sb Hs.
  - destruct b as [j c' a' w| |]; try discriminate.
    cbn [same_value] in Hs. apply andb_prop in Hs. destruct Hs as [Hc Hs].
    now apply same_atom.
  - destruct b as [|j c' a' l'|]; try discriminate.
    cbn [fidelity] in Hf. apply andb_prop in Hf. destruct Hf as [Hc Hf].
    cbn [same_value] in Hs. apply andb_prop in Hs. destruct Hs as [Hc' Hs].
    apply pyclass_eqb_eq in Hc'. apply pyclass_eqb_eq in Hc. subst c' c.
    split; [|intros _; reflexivity].
    change (all2 (fun x y => is_ x y || py_eq x y) l l' = true).
    apply elements_agree; try assumption.
    + exact (stored_elements Sa).
    + exact (stored_elements Sb).
  - destruct b as [| |j c' a' d']; try discriminate.
    cbn [fidelity] in Hf. apply andb_prop in Hf. destruct Hf as [Hf Hd].
    apply andb_prop in Hf. destruct Hf as [Hc Hf].
    cbn [same_value] in Hs. apply andb_prop in Hs. destruct Hs as [Hc' Hs].
    apply pyclass_eqb_eq in Hc'. apply pyclass_eqb_eq in Hc. subst c' c.
    split; [|intros _; reflexivity].
    assert (Hlen : Nat.eqb (List.length d) (List.length d') = true).
    { clear -Hs. revert d' Hs. induction d as [|x d IH]; intros [|y d'] H;
        try discriminate; [reflexivity|].
      cbn [all2] in H. apply andb_prop in H. cbn [List.length Nat.eqb].
      apply IH. exact (proj2 H). }
    change (Nat.eqb (List.length d) (List.length d')
            && forallb
                 (fun kv =>
                    match dict_get (fun k' => is_ (fst kv) k' || py_eq (fst kv) k') d' with
                    | Some v' => is_ (snd kv) v' || py_eq (snd kv) v'
                    | None => false
                    end) d = true).
    rewrite Hlen. cbn [andb].
    apply (@items_agree d) with (pre := []); try assumption.
    + eapply Forall_impl; [|exact IHd]. intros kv [_ H]. exact H.
    + exact (stored_items Sa).
    + exact (stored_items Sb).
    + constructor.
    + intros x y _ [].
Qed.

(** C7: formatting takes no part in [==] or in [hash]: both give what they
    give on the objects with every formatting attribute reset.  And two
    values of the fidelity model that have the same structured value (the
    same classes and contents, member by member, whatever the formatting
    attributes and the identities) are equal under [==], and hash alike
    (two containers being both unhashable) provided the host hashes the
    two float zeros, which are [==], alike, as CPython does.  The two
    values are objects of one heap. *)
Theorem equality_and_hash_ignore_formatting (a b : pyobj) :
  (py_eq a b = py_eq (plain a) (plain b) /\ py_hash a = py_hash (plain a))
  /\ (fidelity a = true -> stored h a -> stored h b -> same_value a b = true ->
      py_eq a b = true
      /\ (hash_float (S754_zero true) = hash_float (S754_zero false) ->
          py_hash a = py_hash b)).
Proof.
  split.
  - now rewrite py_eq_plain, py_hash_plain.
  - intros Hf Sa Sb Hs. now apply same_value_agrees.
Qed.

End Heap.

End Properties.

(* ================================================================= *)
(** * Further properties *)

(** ** Decimal and hexadecimal text *)

Lemma lit_String (c : ascii) (s : string) : lit (String c s) = N_of_ascii c :: lit s.
Proof. reflexivity. Qed.

Lemma skip_prefix_10 (s : str) : skip_prefix 10 s = s.
Proof.
  unfold skip_prefix.
  repeat match goal with
  | |- context [match ?x with _ => _ end] => is_var x; destruct x
  end; reflexivity.
Qed.

Lemma len_cons (A : Type) (x : A) (l : list A) : len (x :: l) = 1 + len l.
Proof. unfold len. cbn [List.length]. lia. Qed.

Lemma len_nonneg (A : Type) (l : list A) : 0 <= len l.
Proof. unfold len. lia. Qed.

Lemma scan_step (base acc count d : Z) (b : bool) (c : char) (s : str) :
  (c =? 95)%N = false -> digit_value base c = Some d ->
  scan_digits base acc count b (c :: s)
  = scan_digits base (acc * base + d) (count + 1) false s.
Proof. intros H1 H2. cbn [scan_digits]. now rewrite H1, H2. Qed.

Ltac digit_head :=
  rewrite lit_String;
  erewrite scan_step; [|reflexivity|vm_compute; reflexivity].

Ltac scan_rest IH count :=
  match goal with
  | |- _ = Some (Z.pos (_ _ ?q), _, _) =>
      rewrite (IH q _ (count + 1)) by (subst; lia)
  end;
  rewrite len_cons, Z.add_assoc; reflexivity.

(** The digits [int.__repr__] writes are read back as the number, and
    counted. *)
Lemma scan_dec_acc (d : Decimal.uint) (p : positive) (acc count : Z) :
  acc = Z.pos p ->
  scan_digits 10 acc count false (lit (DecimalString.NilEmpty.string_of_uint d))
  = Some (Z.pos (Pos.of_uint_acc d p),
          count + len (lit (DecimalString.NilEmpty.string_of_uint d)), []).
Proof.
  revert p acc count. induction d; intros p acc count Hacc;
    cbn [DecimalString.NilEmpty.string_of_uint Pos.of_uint_acc];
    [subst; cbn; now rewrite Z.add_0_r|..];
    digit_head; scan_rest IHd count.
Qed.

Lemma scan_dec (d : Decimal.uint) (count : Z) :
  scan_digits 10 0 count false (lit (DecimalString.NilEmpty.string_of_uint d))
  = Some (Z.of_N (Pos.of_uint d),
          count + len (lit (DecimalString.NilEmpty.string_of_uint d)), []).
Proof.
  revert count. induction d; intros count;
    cbn [DecimalString.NilEmpty.string_of_uint Pos.of_uint];
    [cbn; now rewrite Z.add_0_r|..]; digit_head;
    [rewrite IHd, len_cons, Z.add_assoc; reflexivity|..];
    match goal with
    | |- scan_digits _ ?acc _ _ _ = Some (Z.of_N (N.pos (_ _ ?q)), _, _) =>
        rewrite (@scan_dec_acc d q acc (count + 1) eq_refl)
    end;
    rewrite len_cons, Z.add_assoc; reflexivity.
Qed.

Lemma dec_head (d : Decimal.uint) :
  d <> Decimal.Nil ->
  exists c s, lit (DecimalString.NilEmpty.string_of_uint d) = c :: s
              /\ In c (lit "0123456789").
Proof.
  destruct d; intros Hd; [congruence|..];
    cbn [DecimalString.NilEmpty.string_of_uint]; rewrite lit_String;
    eexists; eexists; (split; [reflexivity|]); vm_compute; tauto.
Qed.

Lemma dec_ascii (d : Decimal.uint) :
  is_ascii (lit (DecimalString.NilEmpty.string_of_uint d)) = true.
Proof.
  induction d; cbn [DecimalString.NilEmpty.string_of_uint];
    [reflexivity|..]; rewrite lit_String; exact IHd.
Qed.

Lemma int_repr_pos (p : positive) :
  int_repr (Z.pos p) = lit (DecimalString.NilEmpty.string_of_uint (Pos.to_uint p))
  /\ int_repr (Z.neg p) = 45%N :: lit (DecimalString.NilEmpty.string_of_uint (Pos.to_uint p)).
Proof.
  unfold int_repr. cbn [Z.to_int DecimalString.NilZero.string_of_int].
  unfold DecimalString.NilZero.string_of_uint.
  pose proof (DecimalPos.Unsigned.to_uint_nonnil p) as Hn.
  destruct (Pos.to_uint p); [congruence|..]; split; reflexivity.
Qed.

Lemma int_repr_ascii (z : Z) : is_ascii (int_repr z) = true.
Proof.
  destruct z as [|p|p]; [reflexivity|..]; destruct (int_repr_pos p) as [Hp Hm].
  - rewrite Hp. apply dec_ascii.
  - rewrite Hm. exact (dec_ascii (Pos.to_uint p)).
Qed.

(** A text of decimal digits within the limit, with or without [-]. *)
Lemma int_parse_decimal (c : char) (s : str) (n : Z) :
  In c (lit "0123456789") ->
  scan_digits 10 0 0 false (c :: s) = Some (n, len (c :: s), []) ->
  len (c :: s) <= int_max_str_digits ->
  int_parse 10 (c :: s) = inr n /\ int_parse 10 (45%N :: c :: s) = inr (- n).
Proof.
  intros Hc Hs Hl.
  assert (H : forall sign, read_digits 10 sign (c :: s) = inr (sign * n)).
  { intros sign. pose proof (len_nonneg s) as H0. rewrite len_cons in Hl.
    assert (Hlim : (int_max_str_digits <? len (c :: s)) = false)
      by (rewrite len_cons; apply Z.ltb_ge; lia).
    assert (Hnz : (len (c :: s) =? 0) = false)
      by (rewrite len_cons; apply Z.eqb_neq; lia).
    unfold read_digits. rewrite Hs, Hlim, Hnz.
    cbn in Hc. repeat (destruct Hc as [<-|Hc]; [reflexivity|]). destruct Hc. }
  unfold int_parse.
  cbn in Hc.
  repeat (destruct Hc as [<-|Hc]; [
    split; cbn [lstrip is_space N.eqb Pos.eqb N.leb N.compare Pos.compare
                Pos.compare_cont orb andb];
    rewrite skip_prefix_10, H; f_equal; lia|]).
  destruct Hc.
Qed.

(** [int(int.__repr__(z))] is [z], for a [z] that [int.__repr__] writes. *)
Lemma int_parse_int_repr (z : Z) :
  decimal_digits z <= int_max_str_digits -> int_parse 10 (int_repr z) = inr z.
Proof.
  unfold decimal_digits.
  destruct z as [|p|p]; [reflexivity|..]; cbn [Z.abs];
    destruct (int_repr_pos p) as [Hp Hm]; rewrite Hp; intros Hl;
    pose proof (DecimalPos.Unsigned.to_uint_nonnil p) as Hn;
    pose proof (DecimalPos.Unsigned.of_to p) as Hv;
    pose proof (scan_dec (Pos.to_uint p) 0) as Hd; rewrite Hv in Hd;
    destruct (dec_head Hn) as (c & s & Hcs & Hc);
    rewrite Hcs in Hd, Hl; cbn [Z.add] in Hd;
    destruct (int_parse_decimal Hc Hd Hl) as [H1 H2].
  - now rewrite Hcs.
  - now rewrite Hm, Hcs.
Qed.

Lemma scan_hex_acc (d : Hexadecimal.uint) (p : positive) (acc count : Z) :
  acc = Z.pos p ->
  scan_digits 16 acc count false (lit (HexadecimalString.NilEmpty.string_of_uint d))
  = Some (Z.pos (Pos.of_hex_uint_acc d p),
          count + len (lit (HexadecimalString.NilEmpty.string_of_uint d)), []).
Proof.
  revert p acc count. induction d; intros p acc count Hacc;
    cbn [HexadecimalString.NilEmpty.string_of_uint Pos.of_hex_uint_acc];
    [subst; cbn; now rewrite Z.add_0_r|..];
    digit_head; scan_rest IHd count.
Qed.

Lemma scan_hex (d : Hexadecimal.uint) (count : Z) :
  scan_digits 16 0 count false (lit (HexadecimalString.NilEmpty.string_of_uint d))
  = Some (Z.of_N (Pos.of_hex_uint d),
          count + len (lit (HexadecimalString.NilEmpty.string_of_uint d)), []).
Proof.
  revert count. induction d; intros count;
    cbn [HexadecimalString.NilEmpty.string_of_uint Pos.of_hex_uint];
    [cbn; now rewrite Z.add_0_r|..]; digit_head;
    [rewrite IHd, len_cons, Z.add_assoc; reflexivity|..];
    match goal with
    | |- scan_digits _ ?acc _ _ _ = Some (Z.of_N (N.pos (_ _ ?q)), _, _) =>
        rewrite (@scan_hex_acc d q acc (count + 1) eq_refl)
    end;
    rewrite len_cons, Z.add_assoc; reflexivity.
Qed.

Lemma hex_head (d : Hexadecimal.uint) :
  d <> Hexadecimal.Nil ->
  exists c s, lit (HexadecimalString.NilEmpty.string_of_uint d) = c :: s
              /\ In c (lit "0123456789abcdef").
Proof.
  destruct d; intros Hd; [congruence|..];
    cbn [HexadecimalString.NilEmpty.string_of_uint]; rewrite lit_String;
    eexists; eexists; (split; [reflexivity|]); vm_compute; tauto.
Qed.

Lemma hex_digits_ascii (d : Hexadecimal.uint) :
  is_ascii (lit (HexadecimalString.NilEmpty.string_of_uint d)) = true.
Proof.
  induction d; cbn [HexadecimalString.NilEmpty.string_of_uint];
    [reflexivity|..]; rewrite lit_String; exact IHd.
Qed.

Lemma hex_pos (p : positive) :
  hex (Z.pos p)
  = lit "0x" ++ lit (HexadecimalString.NilEmpty.string_of_uint (Pos.to_hex_uint p))
  /\ hex (Z.neg p)
     = 45%N :: lit "0x"
       ++ lit (HexadecimalString.NilEmpty.string_of_uint (Pos.to_hex_uint p)).
Proof.
  unfold hex. cbn [Z.ltb Z.compare Z.abs_N N.to_hex_uint].
  unfold HexadecimalString.NilZero.string_of_uint.
  pose proof (HexadecimalPos.Unsigned.to_uint_nonnil p) as Hn.
  destruct (Pos.to_hex_uint p); [congruence|..]; split; reflexivity.
Qed.

Lemma hex_ascii (z : Z) : is_ascii (hex z) = true.
Proof.
  destruct z as [|p|p]; [reflexivity|..]; destruct (hex_pos p) as [Hp Hm].
  - rewrite Hp. exact (hex_digits_ascii (Pos.to_hex_uint p)).
  - rewrite Hm. exact (hex_digits_ascii (Pos.to_hex_uint p)).
Qed.

(** A text of hexadecimal digits after [0x], with or without [-]. *)
Lemma int_parse_hexadecimal (c : char) (s : str) (n : Z) :
  In c (lit "0123456789abcdef") ->
  scan_digits 16 0 0 false (c :: s) = Some (n, len (c :: s), []) ->
  int_parse 16 (lit "0x" ++ c :: s) = inr n
  /\ int_parse 16 (45%N :: lit "0x" ++ c :: s) = inr (- n).
Proof.
  intros Hc Hs.
  assert (H : forall sign, read_digits 16 sign (c :: s) = inr (sign * n)).
  { intros sign. pose proof (len_nonneg s) as H0.
    assert (Hnz : (len (c :: s) =? 0) = false)
      by (rewrite len_cons; apply Z.eqb_neq; lia).
    unfold read_digits. rewrite Hs, Hnz.
    cbn in Hc. repeat (destruct Hc as [<-|Hc]; [reflexivity|]). destruct Hc. }
  assert (Hx : skip_prefix 16 (lit "0x" ++ c :: s) = c :: s).
  { cbn in Hc. repeat (destruct Hc as [<-|Hc]; [reflexivity|]). destruct Hc. }
  unfold int_parse.
  split.
  - change (lstrip (lit "0x" ++ c :: s)) with (lit "0x" ++ c :: s).
    change (read_digits 16 1 (skip_prefix 16 (lit "0x" ++ c :: s)) = inr n).
    rewrite Hx, H. f_equal; lia.
  - change (lstrip (45%N :: lit "0x" ++ c :: s)) with (45%N :: lit "0x" ++ c :: s).
    cbv iota. rewrite Hx, H. f_equal; lia.
Qed.

(** [int(hex(z), base=16)] is [z]. *)
Lemma int_parse_hex (z : Z) : int_parse 16 (hex z) = inr z.
Proof.
  destruct z as [|p|p]; [reflexivity|..];
    destruct (hex_pos p) as [Hp Hm];
    pose proof (HexadecimalPos.Unsigned.to_uint_nonnil p) as Hn;
    pose proof (HexadecimalPos.Unsigned.of_to p) as Hv;
    pose proof (scan_hex (Pos.to_hex_uint p) 0) as Hd; rewrite Hv in Hd;
    destruct (hex_head Hn) as (c & s & Hcs & Hc);
    rewrite Hcs in Hd; cbn [Z.add] in Hd;
    destruct (int_parse_hexadecimal Hc Hd) as [H1 H2].
  - now rewrite Hp, Hcs.
  - now rewrite Hm, Hcs.
Qed.

(** ** The escape table *)

Lemma escaped_cons (c : char) (s : str) :
  escaped (c :: s) = escaped [c] ++ escaped s.
Proof. unfold escaped, translate. cbn [flat_map]. now rewrite app_nil_r. Qed.

Lemma escaped_app (s t : str) : escaped (s ++ t) = escaped s ++ escaped t.
Proof. unfold escaped, translate. apply flat_map_app. Qed.

(** What the table makes of one character. *)
Lemma escaped_char (c : char) :
  (c = 92%N /\ escaped [c] = lit "\\")
  \/ (c = 10%N /\ escaped [c] = lit "\n")
  \/ (c = 13%N /\ escaped [c] = lit "\r")
  \/ (c = 8%N /\ escaped [c] = lit "\b")
  \/ (c = 12%N /\ escaped [c] = lit "\f")
  \/ (c = 9%N /\ escaped [c] = lit "\t")
  \/ (c = 11%N /\ escaped [c] = lit "\v")
  \/ (c = 0%N /\ escaped [c] = lit "\0")
  \/ (c = 8232%N /\ escaped [c] = lit "\\u2028")
  \/ (c = 8233%N /\ escaped [c] = lit "\\u2029")
  \/ (c <> 92%N /\ ~ In c raw_controls /\ escaped [c] = [c]).
Proof.
  unfold escaped, translate, merged. cbn [flat_map lookup ESCAPES].
  unfold char_eqb.
  repeat match goal with
  | |- context [N.eqb ?k c] =>
      destruct (N.eqb_spec k c) as [<-|?];
      [cbn; tauto|]
  end.
  do 10 right. cbn. intuition congruence.
Qed.

Ltac by_escaped_char c E :=
  destruct (escaped_char c) as
    [[-> E]|[[-> E]|[[-> E]|[[-> E]|[[-> E]|[[-> E]|[[-> E]|[[-> E]|[[-> E]
    |[[-> E]|[? [? E]]]]]]]]]]]].

Lemma escaped_char_nonempty (c : char) (s : str) : escaped [c] ++ s <> [].
Proof. by_escaped_char c E; rewrite E; discriminate. Qed.

Lemma escaped_in (c : char) (s : str) :
  In c raw_controls -> ~ In c (escaped s).
Proof.
  intros Hc. induction s as [|x s IH]; [intros []|].
  rewrite escaped_cons, in_app_iff. intros [H|H]; [|now apply IH].
  by_escaped_char x E; rewrite E in H; cbn in H, Hc;
    intuition (subst; try discriminate; tauto).
Qed.

Lemma escaped_injective_step (c d : char) (s t : str) :
  ~ In c separators -> ~ In d separators ->
  escaped [c] ++ s = escaped [d] ++ t -> c = d /\ s = t.
Proof.
  intros Hc Hd.
  by_escaped_char c E; by_escaped_char d F;
  rewrite E; try rewrite F; cbn; intros Heq;
  try (exfalso; cbn in Hc; tauto); try (exfalso; cbn in Hd; tauto);
  try (injection Heq; intros; subst; split;
       first [reflexivity | discriminate | congruence]);
  try discriminate Heq.
Qed.

Lemma escaped_injective (s t : str) :
  (forall c, In c separators -> ~ In c s /\ ~ In c t) ->
  escaped s = escaped t -> s = t.
Proof.
  revert t. induction s as [|c s IH]; intros [|d t] Hsep H.
  - reflexivity.
  - rewrite escaped_cons in H. symmetry in H. now apply escaped_char_nonempty in H.
  - rewrite escaped_cons in H. now apply escaped_char_nonempty in H.
  - rewrite (escaped_cons c), (escaped_cons d) in H.
    apply escaped_injective_step in H.
    + destruct H as [-> H]. f_equal. apply IH; [|exact H].
      intros x Hx. destruct (Hsep x Hx) as [Hs Ht]. cbn in Hs, Ht. tauto.
    + intros Hc. destruct (Hsep c Hc) as [Hs _]. apply Hs. now left.
    + intros Hd. destruct (Hsep d Hd) as [_ Ht]. apply Ht. now left.
Qed.

(** ** Values against themselves *)

Lemma float_eqb_refl (f : spec_float) : isnan f = false -> float_eqb f f = true.
Proof.
  unfold float_eqb, SFeqb. destruct f as [s| s | |s m e]; try discriminate; intros _.
  - reflexivity.
  - now destruct s.
  - cbn. destruct s; rewrite Z.compare_refl, Pos.compare_cont_refl; reflexivity.
Qed.

Lemma is_refl (a : pyobj) : is_ a a = true.
Proof. apply N.eqb_refl. Qed.

Lemma all2_same (l : list pyobj) (p : pyobj -> pyobj -> bool) :
  (forall x, p x x = true) -> all2 p l l = true.
Proof. intros Hp. induction l as [|x l IH]; cbn; [reflexivity|]. now rewrite Hp, IH. Qed.

Lemma restyle_self (o : pyobj) :
  restyle (json_before (attrs_of o)) (json_after (attrs_of o)) o = o.
Proof. destruct o as [i c [] v|i c [] l|i c [] d]; reflexivity. Qed.

Section FurtherProperties.
Context {ext : External}.

(** ** The encoder only appends *)

Lemma appends_ret {A : Type} (a : A) : appends (ret a).
Proof. intros fp. cbn. now rewrite app_nil_r. Qed.

Lemma appends_raise {A : Type} (e : exn) : appends (raise (A := A) e).
Proof. intros fp. cbn. now rewrite app_nil_r. Qed.

Lemma appends_write (s : str) : appends (write s).
Proof. intros fp. reflexivity. Qed.

Lemma appends_lift {A : Type} (r : exn + A) : appends (lift r).
Proof. destruct r; [apply appends_raise|apply appends_ret]. Qed.

Lemma appends_bind {A B : Type} (c : io A) (k : A -> io B) :
  appends c -> (forall a, appends (k a)) -> appends (bind c k).
Proof.
  intros Hc Hk fp. unfold bind. rewrite (Hc fp).
  destruct (c []) as [w [e|a]]; cbn [fst snd].
  - reflexivity.
  - rewrite (Hk a (fp ++ w)), (Hk a w). cbn [fst snd]. now rewrite app_assoc.
Qed.

Lemma appends_when (b : bool) (c : io unit) : appends c -> appends (when b c).
Proof. destruct b; [trivial|intros _; apply appends_ret]. Qed.

Lemma appends_for_each {A : Type} (l : list A) (body : A -> io unit) :
  Forall (fun x => appends (body x)) l -> appends (for_each l body).
Proof.
  induction 1 as [|x l Hx _ IH]; [apply appends_ret|].
  change (for_each (x :: l) body) with (body x ;; for_each l body).
  apply appends_bind; [exact Hx|intros _; exact IH].
Qed.

Lemma appends_with_style (fn : pyobj -> io unit) (obj : pyobj) :
  appends (fn obj) -> appends (with_style fn obj).
Proof.
  intros H. unfold with_style.
  repeat (apply appends_bind; [|intros _]); auto using appends_write.
Qed.

Ltac appends_step :=
  lazymatch goal with
  | |- appends (bind _ _) => apply appends_bind; [|intros ?]
  | |- appends (write _) => apply appends_write
  | |- appends (ret _) => apply appends_ret
  | |- appends (raise _) => apply appends_raise
  | |- appends (lift _) => apply appends_lift
  | |- appends (when _ _) => apply appends_when
  | |- appends (with_style _ _) => apply appends_with_style
  | |- appends (if ?b then _ else _) => destruct b
  | |- appends (match ?x with _ => _ end) => destruct x
  | |- appends (let _ := _ in _) => cbv zeta
  end.

Lemma appends_encode_literal (obj : pyobj) : appends (encode_literal obj).
Proof. unfold encode_literal. repeat appends_step. Qed.

Lemma appends_encode_number (obj : pyobj) : appends (encode_number obj).
Proof. unfold encode_number, get_prefixed. repeat appends_step. Qed.

Lemma appends_encode_string (obj : pyobj) : appends (encode_string obj).
Proof. unfold encode_string. repeat appends_step. Qed.

Lemma appends_encode (obj : pyobj) : appends (encode obj).
Proof.
  induction obj as [i c a v|i c a l IHl|i c a d IHd] using pyobj_members_ind.
  all: rewrite encode_unfold; unfold encode_dispatch.
  all: repeat lazymatch goal with
       | |- appends (if ?b then _ else _) => destruct b
       end.
  all: try apply appends_encode_number; try apply appends_encode_literal;
       try apply appends_encode_string; try apply appends_raise.
  all: unfold encode_dict, encode_iterable, encode_pair; cbn [elements items].
  all: repeat appends_step.
  all: apply appends_for_each.
  - eapply Forall_impl; [|exact IHl]. intros x Hx.
    repeat appends_step; try exact Hx; apply appends_write.
  - eapply Forall_impl; [|exact IHd]. intros [k v] [Hk Hv].
    repeat appends_step; try assumption; apply appends_write.
Qed.

Ltac appends_all :=
  repeat first
    [ appends_step
    | apply appends_encode
    | apply appends_for_each, Forall_forall; intros ? _
    | progress unfold encode_pair ].

(** X1: [Encoder(fp).encode(obj)] on a sink that already holds [fp], as
    [dump] calls it on an open stream, leaves [fp] followed by the text
    [dumps(obj)] returns or had written when it stopped, and ends as
    [dumps(obj)] does: the encoder never reads or rewrites what the sink
    held. *)
Theorem encode_appends_to_the_sink (obj : pyobj) (fp : str) :
  encode obj fp = (fp ++ fst (dumps obj), snd (dumps obj)).
Proof. apply appends_encode. Qed.

(** ** Containers, member by member *)

Lemma encode_sequence (i : addr) (c : pyclass) (a : attrs) (l : list pyobj) :
  In c sequence_classes ->
  encode (Seq i c a l) = encode_iterable encode l (Seq i c a l).
Proof.
  intros [<-|[<-|[<-|[]]]]; now rewrite encode_unfold.
Qed.

Lemma encode_mapping (i : addr) (c : pyclass) (a : attrs) (d : list (pyobj * pyobj)) :
  In c mapping_classes ->
  encode (Map i c a d) = encode_dict encode d (Map i c a d).
Proof.
  intros [<-|[<-|[]]]; now rewrite encode_unfold.
Qed.

Lemma encode_ok (obj : pyobj) (fp : str) :
  encodes obj -> encode obj fp = (fp ++ written obj, inr tt).
Proof.
  intros H. rewrite (appends_encode obj fp).
  unfold encodes, outcome in H. unfold written, dumps, run in *. now rewrite H.
Qed.

Lemma encode_pair_ok (k v : pyobj) (fp : str) :
  encodes k -> encodes v ->
  encode_pair encode k v fp = (fp ++ pair_written (k, v), inr tt).
Proof.
  intros Hk Hv. unfold encode_pair, pair_written.
  erewrite bind_ok by (apply encode_ok; exact Hk).
  rewrite bind_write, encode_ok by exact Hv.
  cbn [fst snd]. now rewrite <- !app_assoc.
Qed.

Lemma entries_by_position_ok {A : Type} (entry : A -> io unit) (t : A -> str)
  (trailing : bool) (l : list A) (fp : str) :
  Forall (fun x => forall fp0, entry x fp0 = (fp0 ++ t x, inr tt)) l ->
  entries_by_position entry trailing l fp
  = (fp ++ separated trailing (List.map t l), inr tt).
Proof.
  intros Hl. revert fp.
  induction Hl as [|x l Hx _ IH]; intros fp; [cbn; now rewrite app_nil_r|].
  rewrite entries_by_position_cons.
  cbn [List.map separated].
  replace (nonempty (List.map t l)) with (nonempty l) by now destruct l.
  unfold bind. rewrite Hx.
  destruct (nonempty l || trailing); cbn [when]; unfold write, ret; rewrite IH;
    now rewrite <- !app_assoc, ?app_nil_l.
Qed.

(** X2: a list, tuple or [Array] of distinct objects that each encode is
    written as its leading atoms, [[], the head atoms, the texts of its
    elements in order with a comma between neighbours (and after the last
    when the trailing-comma flag is set), the tail atoms, []] and its
    trailing atoms. *)
Theorem sequence_text_by_position (i : addr) (c : pyclass) (a : attrs) (l : list pyobj) :
  In c sequence_classes ->
  NoDup (List.map id_of l) ->
  Forall encodes l ->
  dumps (Seq i c a l)
  = (wsc_text (json_before a) ++ lit "[" ++ wsc_text (json_container_head a)
     ++ separated (json_container_trailing_comma a) (List.map written l)
     ++ wsc_text (json_container_tail a) ++ lit "]" ++ wsc_text (json_after a),
     inr tt).
Proof.
  intros Hc Hnd Hl. unfold dumps, run.
  rewrite encode_sequence by exact Hc.
  rewrite encode_iterable_distinct by exact Hnd.
  unfold encode_iterable_by_position.
  rewrite with_style_ok
    with (body := lit "[" ++ wsc_text (json_container_head a)
                  ++ separated (json_container_trailing_comma a) (List.map written l)
                  ++ wsc_text (json_container_tail a) ++ lit "]").
  - cbn [attrs_of app]. now rewrite <- !app_assoc.
  - intros fp0. cbn [attrs_of].
    rewrite !bind_write.
    erewrite bind_ok
      by (apply entries_by_position_ok with (t := written);
          eapply Forall_impl; [|exact Hl]; intros x Hx fp1; now apply encode_ok).
    rewrite bind_write. unfold write. now rewrite <- !app_assoc.
Qed.

(** X3: a dict or [JObject] whose keys are distinct objects, and whose keys
    and values each encode, is written as its leading atoms, [{], the head
    atoms, its pairs in insertion order (key text, [:], value text) with a
    comma between neighbours (and after the last when the trailing-comma
    flag is set), the tail atoms, [}] and its trailing atoms. *)
Theorem mapping_text_by_position (i : addr) (c : pyclass) (a : attrs)
  (d : list (pyobj * pyobj)) :
  In c mapping_classes ->
  NoDup (List.map (fun kv => id_of (fst kv)) d) ->
  Forall (fun kv => encodes (fst kv) /\ encodes (snd kv)) d ->
  dumps (Map i c a d)
  = (wsc_text (json_before a) ++ lit "{" ++ wsc_text (json_container_head a)
     ++ separated (json_container_trailing_comma a) (List.map pair_written d)
     ++ wsc_text (json_container_tail a) ++ lit "}" ++ wsc_text (json_after a),
     inr tt).
Proof.
  intros Hc Hnd Hd. unfold dumps, run.
  rewrite encode_mapping by exact Hc.
  rewrite encode_dict_distinct by exact Hnd.
  unfold encode_dict_by_position.
  rewrite with_style_ok
    with (body := lit "{" ++ wsc_text (json_container_head a)
                  ++ separated (json_container_trailing_comma a) (List.map pair_written d)
                  ++ wsc_text (json_container_tail a) ++ lit "}").
  - cbn [attrs_of app]. now rewrite <- !app_assoc.
  - intros fp0. cbn [attrs_of].
    rewrite !bind_write.
    erewrite bind_ok
      by (apply entries_by_position_ok with (t := pair_written);
          eapply Forall_impl; [|exact Hd]; intros [k v] [Hk Hv] fp1;
          now apply encode_pair_ok).
    rewrite bind_write. unfold write. now rewrite <- !app_assoc.
Qed.

Lemma appends_outcome {A : Type} (c : io A) (fp : str) :
  appends c -> snd (c fp) = snd (c []).
Proof. intros H. now rewrite (H fp). Qed.

Lemma outcome_then {A : Type} (c : io unit) (k : io A) (fp : str) :
  appends c -> appends k ->
  snd ((c ;; k) fp) = match snd (c []) with inl e => inl e | inr _ => snd (k []) end.
Proof.
  intros Hc Hk. unfold bind. rewrite (Hc fp).
  destruct (c []) as [w [e|[]]]; cbn [fst snd]; [reflexivity|].
  now apply appends_outcome.
Qed.

Lemma outcome_for_each {A : Type} (body : A -> io unit) (l : list A) (fp : str) :
  (forall x, appends (body x)) ->
  snd (for_each l body fp) = first_error (List.map (fun x => snd (body x [])) l).
Proof.
  intros Hb. revert fp. induction l as [|x l IH]; intros fp; [reflexivity|].
  rewrite for_each_cons, outcome_then;
    [|apply Hb|apply appends_for_each, Forall_forall; intros; apply Hb].
  cbn [List.map first_error]. rewrite IH.
  now destruct (snd (body x [])) as [e|[]].
Qed.

Lemma first_error_app (rs rs' : list (exn + unit)) :
  first_error (rs ++ rs')
  = match first_error rs with inl e => inl e | inr _ => first_error rs' end.
Proof. induction rs as [|[e|[]] rs IH]; cbn; auto. Qed.

Lemma outcome_with_style (fn : pyobj -> io unit) (obj : pyobj) (fp : str) :
  appends (fn obj) -> snd (with_style fn obj fp) = snd (fn obj []).
Proof.
  intros H. unfold with_style.
  rewrite outcome_then; [|appends_all; exact H..]. cbn [snd write].
  rewrite outcome_then; [|exact H|appends_all].
  now destruct (snd (fn obj [])) as [e|[]].
Qed.

Lemma outcome_entry (c : io unit) (b : bool) (s : str) :
  appends c -> snd ((c ;; when b (write s)) []) = snd (c []).
Proof.
  intros H. rewrite outcome_then; [|exact H|appends_all].
  destruct (snd (c [])) as [e|[]]; [reflexivity|now destruct b].
Qed.

(** X4: encoding a list, tuple or [Array] ends as the first of its elements
    that fails to encode does, and returns when every element encodes;
    the container adds no failure of its own, whatever its formatting and
    whether or not an object occurs in it twice. *)
Theorem sequence_outcome (i : addr) (c : pyclass) (a : attrs) (l : list pyobj) :
  In c sequence_classes ->
  outcome (Seq i c a l) = first_error (List.map outcome l).
Proof.
  intros Hc. unfold outcome at 1, dumps, run.
  rewrite encode_sequence by exact Hc.
  unfold encode_iterable.
  rewrite outcome_with_style by (destruct l; appends_all).
  destruct l as [|x l]; [reflexivity|]. cbv zeta.
  rewrite !bind_write.
  rewrite outcome_then; [|appends_all..].
  rewrite outcome_for_each by (intros; appends_all).
  erewrite map_ext by (intros; apply outcome_entry; appends_all).
  now destruct (first_error _) as [e|[]].
Qed.

Lemma first_error_pairs (d : list (pyobj * pyobj)) :
  first_error
    (List.map (fun kv => first_error (pair_outcomes kv)) d)
  = first_error (flat_map pair_outcomes d).
Proof.
  induction d as [|[k v] d IH]; [reflexivity|].
  cbn [List.map flat_map]. rewrite first_error_app.
  cbn [first_error] in *.
  destruct (first_error (pair_outcomes (k, v))) as [e|[]]; [reflexivity|exact IH].
Qed.

(** X5: encoding a dict or [JObject] ends as the first failure met going
    through its pairs in insertion order, each key before its value, and
    returns when every key and value encodes. *)
Theorem mapping_outcome (i : addr) (c : pyclass) (a : attrs) (d : list (pyobj * pyobj)) :
  In c mapping_classes ->
  outcome (Map i c a d) = first_error (flat_map pair_outcomes d).
Proof.
  intros Hc. unfold outcome at 1, dumps, run.
  rewrite encode_mapping by exact Hc.
  unfold encode_dict.
  rewrite outcome_with_style by (destruct d; appends_all).
  destruct d as [|x d]; [reflexivity|]. cbv zeta.
  rewrite !bind_write.
  rewrite outcome_then; [|appends_all..].
  rewrite outcome_for_each by (intros; appends_all).
  rewrite <- first_error_pairs.
  rewrite (map_ext _ (fun kv => first_error (pair_outcomes kv))).
  - now destruct (first_error _) as [e|[]].
  - intros [k v]. rewrite outcome_entry by appends_all.
    unfold encode_pair. rewrite outcome_then; [|appends_all..].
    cbn [fst snd pair_outcomes first_error]. unfold outcome, dumps, run.
    destruct (snd (encode k [])) as [e|[]]; [reflexivity|].
    rewrite bind_write. rewrite appends_outcome by appends_all.
    now destruct (snd (encode v [])) as [e|[]].
Qed.

(** ** Leading and trailing atoms *)

(** Every method that writes a value is decorated, and none reads the
    leading or trailing atoms. *)
Lemma encode_styled (obj : pyobj) :
  encodes obj ->
  exists fn, forall b a,
    encode (restyle b a obj) = with_style fn (restyle b a obj)
    /\ fn (restyle b a obj) = fn obj.
Proof.
  destruct obj as [i c [] v|i c [] l|i c [] d]; destruct c;
    try (intros H; discriminate H);
    intros _; eexists; intros b a; split; reflexivity.
Qed.

Lemma encode_restyled (obj : pyobj) (b a : list WSC) (fp : str) :
  encodes obj ->
  encode (restyle b a obj) fp
  = (write (wsc_text b) ;; encode (restyle [] [] obj) ;; write (wsc_text a)) fp.
Proof.
  intros Hok. destruct (encode_styled Hok) as [fn Hfn].
  destruct (Hfn b a) as [-> Hb]. destruct (Hfn [] []) as [-> H0].
  unfold with_style. rewrite Hb, H0.
  replace (attrs_of (restyle b a obj)) with (with_atoms b a (attrs_of obj))
    by now destruct obj.
  replace (attrs_of (restyle [] [] obj)) with (with_atoms [] [] (attrs_of obj))
    by now destruct obj.
  cbn [json_before json_after with_atoms].
  unfold bind, write. cbn [wsc_text join List.map concat].
  rewrite app_nil_r.
  destruct (fn obj (fp ++ wsc_text b)) as [w [e|[]]]; [reflexivity|].
  now rewrite app_nil_r.
Qed.

(** X6: for a value that encodes, [__json_clear__] leaves a value that
    encodes too, and the text of the original is its leading atoms, the
    text of the cleared value, and its trailing atoms: the two lists wrap
    the rest of the text and nothing in between depends on them. *)
Theorem json_clear_strips_the_atoms (obj cleared : pyobj) :
  encodes obj ->
  json_clear obj = inr cleared ->
  encodes cleared
  /\ dumps obj
     = (wsc_text (json_before (attrs_of obj)) ++ written cleared
        ++ wsc_text (json_after (attrs_of obj)), inr tt).
Proof.
  intros Hok Hc. unfold json_clear in Hc.
  destruct (isinstance obj JType); [|discriminate]. injection Hc as <-.
  assert (H : dumps obj
              = (wsc_text (json_before (attrs_of obj)) ++ written (restyle [] [] obj)
                 ++ (match outcome (restyle [] [] obj) with
                     | inr _ => wsc_text (json_after (attrs_of obj))
                     | inl _ => []
                     end),
                 outcome (restyle [] [] obj))).
  { unfold dumps at 1, run. rewrite <- (restyle_self obj) at 1.
    rewrite encode_restyled by exact Hok.
    rewrite bind_write. unfold bind.
    rewrite (appends_encode (restyle [] [] obj)).
    unfold outcome, written, dumps, run.
    destruct (snd (encode (restyle [] [] obj) [])) as [e|[]]; cbn;
      [now rewrite app_nil_r|].
    unfold write. now rewrite <- app_assoc. }
  assert (Hout : outcome (restyle [] [] obj) = inr tt).
  { unfold encodes, outcome in Hok. rewrite H in Hok. exact Hok. }
  split; [exact Hout|]. rewrite H, Hout. reflexivity.
Qed.

(** ** Escaping *)

Lemma escape_string_plain (string : pyobj) :
  linebreaks (attrs_of string) = [] ->
  escape_string string [] = escaped (text_of string).
Proof.
  intros Hl. unfold escape_string. rewrite Hl. cbn [fold_left].
  now destruct (isinstance string JString).
Qed.

(** X7: the escaped text of a string without recorded line breaks holds
    none of the characters the table replaces (newline, carriage return,
    backspace, form feed, tab, vertical tab, NUL, U+2028, U+2029). *)
Theorem escaped_has_no_raw_control (string : pyobj) (c : char) :
  linebreaks (attrs_of string) = [] ->
  In c raw_controls ->
  ~ In c (escape_string string []).
Proof.
  intros Hl Hc. rewrite escape_string_plain by exact Hl. now apply escaped_in.
Qed.

(** X8: the entries of U+2028 and U+2029 are raw strings with a doubled
    backslash, so a text holding the separator and the text holding, in its
    place, a backslash followed by [u2028] (or [u2029]) are escaped to the
    same output: the escaping loses which of the two was given. *)
Theorem line_separator_is_written_as_its_escape
        (a b : pyobj) (p s : str) (c : char) (code : string) :
  In (c, code) [(8232%N, "u2028"%string); (8233%N, "u2029"%string)] ->
  linebreaks (attrs_of a) = [] -> linebreaks (attrs_of b) = [] ->
  text_of a = p ++ [c] ++ s ->
  text_of b = p ++ [92%N] ++ lit code ++ s ->
  escape_string a [] = escape_string b [].
Proof.
  intros Hc Ha Hb Ta Tb. rewrite !escape_string_plain by assumption.
  rewrite Ta, Tb.
  destruct Hc as [H|[H|[]]]; injection H as <- <-;
    rewrite !escaped_app; reflexivity.
Qed.

(** X9: apart from those two separators the escaping is one-to-one: two
    strings without recorded line breaks whose texts differ, neither
    holding U+2028 or U+2029, have different escaped texts. *)
Theorem escape_string_tells_texts_apart (a b : pyobj) :
  linebreaks (attrs_of a) = [] -> linebreaks (attrs_of b) = [] ->
  (forall c, In c separators -> ~ In c (text_of a) /\ ~ In c (text_of b)) ->
  text_of a <> text_of b ->
  escape_string a [] <> escape_string b [].
Proof.
  intros Ha Hb Hsep Hne. rewrite !escape_string_plain by assumption.
  intros H. apply Hne. now apply escaped_injective.
Qed.

(** X16: a host string, the [JString] that [convert] makes of it, and any
    [JString] after [__post_init__] are all written the same way: a double
    quote, the escaped text, a double quote, with no atoms around and no
    line continuation inside. *)
Theorem string_is_written_quoted_and_escaped (i next : addr) (a : attrs) (s : str) :
  dumps (host i (PyStr s)) = ([34%N] ++ escaped s ++ [34%N], inr tt)
  /\ dumps (post_init (Atom i JString a (PyStr s)))
     = ([34%N] ++ escaped s ++ [34%N], inr tt)
  /\ exists o, convert (host i (PyStr s)) next = (inr o, N.succ next)
               /\ dumps o = ([34%N] ++ escaped s ++ [34%N], inr tt).
Proof.
  assert (H : forall j, dumps (Atom j JString no_attrs (PyStr s))
                        = ([34%N] ++ escaped s ++ [34%N], inr tt)).
  { intros j. unfold dumps, run. rewrite encode_unfold.
    unfold encode_dispatch, encode_string, with_style, escape_string.
    cbn. unfold bind, write. cbn. now rewrite ?app_nil_r. }
  split; [|split].
  - unfold dumps, run. rewrite encode_unfold.
    unfold encode_dispatch, encode_string, with_style, escape_string.
    cbn. unfold bind, write. cbn. now rewrite ?app_nil_r.
  - destruct a. exact (H i).
  - eexists. split; [reflexivity|]. exact (H next).
Qed.

(** ** Numbers *)

Lemma int_of_text_int_repr (z : Z) (text : str) :
  int_repr_checked z = inr text -> int_of_text 10 text = inr z.
Proof.
  unfold int_repr_checked.
  destruct (int_max_str_digits <? decimal_digits z) eqn:E; [discriminate|].
  intros [= <-]. apply Z.ltb_ge in E.
  unfold int_of_text. now rewrite int_repr_ascii, int_parse_int_repr.
Qed.

Lemma int_of_text_hex (z : Z) : int_of_text 16 (hex z) = inr z.
Proof. unfold int_of_text. now rewrite hex_ascii, int_parse_hex. Qed.

(** X10: whatever text [__round_dump__] returns for an [Integer] reads
    back, with [int], as the value of the object, and for a [HexInteger]
    with [int(..., base=16)]: the origin text is returned only when it
    does, and the texts [int.__repr__] and [hex] return always do. *)
Theorem integer_round_dump_reads_back (self : pyobj) (base : Z) (text : str) :
  In (type_of self, base) [(Integer, 10); (HexInteger, 16)] ->
  round_dump self = inr (Some text) ->
  int_of_text base text = inr (int_of self).
Proof.
  intros Hc. unfold round_dump.
  assert (H : forall fallback,
             (forall z t, fallback z = inr t -> int_of_text base t = inr z) ->
             integer_round_dump base fallback self = inr (Some text) ->
             int_of_text base text = inr (int_of self)).
  { intros fallback Hf. unfold integer_round_dump.
    assert (Ho : match fallback (int_of self) with
                 | inl e => inl e
                 | inr t => inr (Some t)
                 end = inr (Some text) ->
                 int_of_text base text = inr (int_of self)).
    { destruct (fallback (int_of self)) as [e|t] eqn:F; [discriminate|].
      intros [= <-]. now apply Hf. }
    destruct (origin (attrs_of self)) as [[|c o]|]; try exact Ho.
    destruct (int_of_text base (c :: o)) as [e|n] eqn:Hn; [discriminate|].
    destruct (n =? int_of self) eqn:E; [|exact Ho].
    intros [= <-]. apply Z.eqb_eq in E. now rewrite Hn, E. }
  destruct Hc as [[= Hc <-]|[[= Hc <-]|[]]]; rewrite <- Hc;
    change (resolve defines_round_dump (mro Integer)) with (Some Integer_round_dump);
    change (resolve defines_round_dump (mro HexInteger)) with (Some HexInteger_round_dump);
    cbv iota.
  - apply H. exact int_of_text_int_repr.
  - apply H. intros z t [= <-]. apply int_of_text_hex.
Qed.

(** What the encoder makes of a host number: the [Integer] or [Float] of
    it is written as [str] gives it, unless [str] raises or the number is
    greater than zero. *)
Lemma dumps_host_int (i : addr) (c : pyclass) (z : Z) :
  In c [py_int; Integer] ->
  dumps (Atom i c no_attrs (PyInt z))
  = match int_repr_checked z with
    | inl e => ([], inl e)
    | inr text => if 0 <? z then ([], inl (no_prefixed Integer)) else (text, inr tt)
    end.
Proof.
  intros [<-|[<-|[]]]; unfold dumps, run; rewrite encode_unfold.
  - change (encode_dispatch encode (elements (Atom i py_int no_attrs (PyInt z)))
              (items (Atom i py_int no_attrs (PyInt z)))
              (Atom i py_int no_attrs (PyInt z)))
      with (encode_number (Atom i py_int no_attrs (PyInt z))).
    unfold encode_number, with_style.
    change (to_str _) with (int_repr_checked z).
    destruct (int_repr_checked z) as [e|text]; [reflexivity|].
    cbn. destruct (0 <? z); [reflexivity|].
    unfold bind, write. cbn. now rewrite ?app_nil_r.
  - change (encode_dispatch encode (elements (Atom i Integer no_attrs (PyInt z)))
              (items (Atom i Integer no_attrs (PyInt z)))
              (Atom i Integer no_attrs (PyInt z)))
      with (encode_number (Atom i Integer no_attrs (PyInt z))).
    unfold encode_number, with_style.
    change (to_str _) with (int_repr_checked z).
    destruct (int_repr_checked z) as [e|text]; [reflexivity|].
    cbn. destruct (0 <? z); [reflexivity|].
    unfold bind, write. cbn. now rewrite ?app_nil_r.
Qed.

(** X11: a host integer of more than 4300 decimal digits stops the
    encoder with the [ValueError] of [int.__repr__], nothing written.
    Another host integer, or a host float, that is not greater than zero is
    written as [str] gives it; one that is greater than zero stops the
    encoder with the [AttributeError] of the missing [prefixed], nothing
    written.  [convert] first makes no difference. *)
Theorem host_number_is_written_unless_positive (i next : addr) :
  (forall z,
     dumps (host i (PyInt z))
     = (if int_max_str_digits <? decimal_digits z then ([], inl exceeds_str_digits)
        else if 0 <? z then ([], inl (no_prefixed Integer))
        else (int_repr z, inr tt))
     /\ exists o, convert (host i (PyInt z)) next = (inr o, N.succ next)
                  /\ dumps o = dumps (host i (PyInt z)))
  /\ (forall f,
        dumps (host i (PyFloat f))
        = (if float_gt0 f then ([], inl (no_prefixed Float)) else (float_repr f, inr tt))
        /\ exists o, convert (host i (PyFloat f)) next = (inr o, N.succ next)
                     /\ dumps o = dumps (host i (PyFloat f))).
Proof.
  split.
  - intros z. split.
    + change (host i (PyInt z)) with (Atom i py_int no_attrs (PyInt z)).
      rewrite (@dumps_host_int i py_int z) by (now left).
      unfold int_repr_checked.
      now destruct (int_max_str_digits <? decimal_digits z).
    + eexists. split; [reflexivity|].
      change (host i (PyInt z)) with (Atom i py_int no_attrs (PyInt z)).
      rewrite (@dumps_host_int i py_int z) by (now left).
      apply dumps_host_int. now right; left.
  - intros f. split.
    + unfold dumps, run. cbn. destruct (float_gt0 f); [reflexivity|].
      unfold bind, write. cbn. now rewrite ?app_nil_r.
    + eexists. split; [reflexivity|].
      unfold dumps, run. cbn. destruct (float_gt0 f); [reflexivity|].
      unfold bind, write. cbn. now rewrite ?app_nil_r.
Qed.

(** ** Conversion *)

(** X12: [convert] of the host [True], [False] or [None] gives a new
    wrapper that is written [true], [false] or [null]. *)
Theorem converted_literal_is_written (i next : addr) (v : scalar) (word : string) :
  In (v, word) [(PyBool true, "true"); (PyBool false, "false"); (PyNone, "null")]%string ->
  exists o, convert (host i v) next = (inr o, N.succ next)
            /\ dumps o = (lit word, inr tt).
Proof.
  intros [H|[H|[H|[]]]]; injection H as <- <-; eexists; split; reflexivity.
Qed.

(** X13: [convert] accepts a date, a time, a datetime, a compiled pattern
    and a member of an enumeration and wraps it, but the encoder has no
    text for the wrapper: [dumps] of the converted value writes nothing and
    raises [NotImplementedError] with the text of the wrapped value. *)
Theorem converted_opaque_value_is_not_written
        (i next : addr) (c : pyclass) (tag : N) (text : str) :
  issubclass_any c [py_date; py_time; py_datetime; py_Pattern; py_Enum] = true ->
  exists o, convert (host i (PyOpaque c tag text)) next = (inr o, N.succ next)
            /\ dumps o = ([], inl (NotImplementedError (lit "Unknown literal: " ++ text))).
Proof.
  intros Hc. destruct c; try discriminate Hc; eexists; split; reflexivity.
Qed.

(** X14: what [convert] returns is a [JType] instance that [convert]
    returns unchanged, building nothing; and when the argument was not one
    already, the result is a new object that carries no formatting. *)
Theorem convert_settles_at_once (obj o : pyobj) (next next' : addr) :
  convert obj next = (inr o, next') ->
  isinstance o JType = true
  /\ convert o next' = (inr o, next')
  /\ (isinstance obj JType = false ->
      id_of o = next /\ next' = N.succ next /\ attrs_of o = no_attrs).
Proof.
  intros H. split; [exact (convert_returns_JType _ _ H)|].
  split; [exact (convert_idempotent _ _ H)|].
  revert H.
  destruct obj as [i c a v|i c a l|i c a d]; destruct c;
    (intros [= <- <-] || intros [=]); intros Hj; try discriminate Hj;
    repeat split.
Qed.

Lemma dict_get_own (d : list (pyobj * pyobj)) :
  distinct_keys d = true ->
  forallb
    (fun kv =>
       match dict_get (fun k' => is_ (fst kv) k' || py_eq (fst kv) k') d with
       | Some v' => is_ (snd kv) v' || py_eq (snd kv) v'
       | None => false
       end) d = true.
Proof.
  induction d as [|[k v] d IH]; [reflexivity|].
  cbn [distinct_keys]. intros H. apply andb_prop in H. destruct H as [Hk Hd].
  cbn [forallb dict_get fst snd]. rewrite (is_refl k). cbn [orb andb fst snd].
  rewrite ?(is_refl v). cbn [orb andb].
  rewrite forallb_forall in Hk |- *. intros [k' v'] Hin.
  cbn [fst snd]. specialize (Hk _ Hin). cbn [fst] in Hk.
  apply negb_true_iff in Hk. rewrite Hk.
  specialize (IH Hd). rewrite forallb_forall in IH. exact (IH _ Hin).
Qed.

(** X15: the value [convert] makes of a host value equals it under [==],
    from either side, and hashes as it does (or is unhashable as it is),
    for every host value of the model but a NaN and a tuple, which becomes
    an [Array] and so a list. *)
Theorem converted_equals_original (obj o : pyobj) (next next' : addr) :
  wf obj = true -> isinstance obj JType = false -> comparable obj = true ->
  convert obj next = (inr o, next') ->
  py_eq o obj = true /\ py_eq obj o = true /\ py_hash o = py_hash obj.
Proof.
  intros Hwf Hj Hc Ho. rewrite <- and_assoc. split; revert Hwf Hj Hc Ho.
  2: { destruct obj as [i c a v|i c a l|i c a d]; destruct c;
         intros Hwf Hj Hc; try discriminate Hj; try discriminate Hwf;
         try discriminate Hc;
         try (destruct v as [|b|z|f|s|c' t text]; try discriminate Hwf;
              try (destruct c'; try discriminate Hwf;
                   cbn in Hwf; try apply str_eqb_eq in Hwf; subst));
         (intros [= <- <-] || intros [=]); reflexivity. }
  destruct obj as [i c a v|i c a l|i c a d].
  - destruct c; intros Hwf Hj Hc; try discriminate Hj;
      destruct v as [|b|z|f|s|c' t text]; try discriminate Hwf;
      try (destruct c'; try discriminate Hwf;
           cbn in Hwf; try apply str_eqb_eq in Hwf; subst);
      (intros [= <- <-] || intros [=]);
      cbn; unfold is_; cbn [id_of];
      rewrite ?Z.eqb_refl, ?str_eqb_refl, ?N.eqb_refl, ?float_eqb_refl
        by (now apply negb_true_iff in Hc);
      cbn; try destruct (N.eqb i next); try destruct (N.eqb next i);
      split; reflexivity.
  - destruct c; intros Hwf Hj Hc; try discriminate Hj; try discriminate Hwf;
      try discriminate Hc; (intros [= <- <-] || intros [=]).
    cbn. split; apply all2_same; intros x; now rewrite is_refl.
  - destruct c; intros Hwf Hj Hc; try discriminate Hj; try discriminate Hwf;
      (intros [= <- <-] || intros [=]).
    cbn [comparable] in Hc. cbn. rewrite Nat.eqb_refl. cbn [andb].
    split; apply dict_get_own, Hc.
Qed.

End FurtherProperties.

(** ** domain.py: occupation *)


Lemma names_eqb_eq (a b : DomainType) : names_eqb a b = true <-> a = b.
Proof.
  revert b. induction a as [|x a IH]; intros [|y b]; cbn; try (split; congruence).
  rewrite andb_true_iff, str_eqb_eq, IH. split; [intros [-> ->]|intros [= -> ->]]; auto.
Qed.

Lemma names_eqb_refl (a : DomainType) : names_eqb a a = true.
Proof. now apply names_eqb_eq. Qed.

Section Dictionaries.
Variables K V : Type.
Variable same : K -> K -> bool.
Hypothesis same_eq : forall a b, same a b = true <-> a = b.

Lemma same_refl (k : K) : same k k = true.
Proof. now apply same_eq. Qed.

Lemma dict_get_app (k : K) (d d' : list (K * V)) :
  dict_get (same k) (d ++ d')
  = match dict_get (same k) d with
    | Some v => Some v
    | None => dict_get (same k) d'
    end.
Proof.
  induction d as [|[k' v'] d IH]; [reflexivity|].
  cbn. now destruct (same k k').
Qed.

Lemma getitem_setdefault (k k' : K) (v default : V) (d : list (K * V)) :
  getitem same k' default (setdefault same k v d)
  = match dict_get (same k') d with
    | Some x => x
    | None => if same k' k then v else default
    end.
Proof.
  unfold getitem, setdefault.
  destruct (dict_get (same k) d) as [x|] eqn:Hk.
  - destruct (dict_get (same k') d) as [y|] eqn:Hk'; [reflexivity|].
    destruct (same k' k) eqn:E; [|reflexivity].
    apply same_eq in E. subst. congruence.
  - rewrite dict_get_app. destruct (dict_get (same k') d); [reflexivity|].
    cbn. now destruct (same k' k).
Qed.

Lemma dict_get_setitem (k k' : K) (v : V) (d : list (K * V)) :
  dict_get (same k') (setitem same k v d)
  = if same k' k then Some v else dict_get (same k') d.
Proof.
  induction d as [|[k0 v0] d IH]; cbn.
  - now destruct (same k' k).
  - destruct (same k k0) eqn:E0; cbn.
    + apply same_eq in E0. subst k0. now destruct (same k' k).
    + rewrite IH. destruct (same k' k0) eqn:E1; [|reflexivity].
      apply same_eq in E1. subst k0.
      destruct (same k' k) eqn:E2; [|reflexivity].
      apply same_eq in E2. subst. rewrite same_refl in E0. discriminate.
Qed.

Lemma getitem_setitem (k k' : K) (v default : V) (d : list (K * V)) :
  getitem same k' default (setitem same k v d)
  = if same k' k then v else getitem same k' default d.
Proof. unfold getitem. rewrite dict_get_setitem. now destruct (same k' k). Qed.

Lemma setdefault_present (k : K) (v x : V) (d : list (K * V)) :
  dict_get (same k) d = Some x -> setdefault same k v d = d.
Proof. unfold setdefault. now intros ->. Qed.

Lemma setitem_same_value (k : K) (x : V) (d : list (K * V)) :
  dict_get (same k) d = Some x -> setitem same k x d = d.
Proof.
  induction d as [|[k0 v0] d IH]; cbn; [discriminate|].
  destruct (same k k0); [now intros [= ->]|].
  intros H. now rewrite IH.
Qed.

Lemma dict_get_setdefault_same (k : K) (v : V) (d : list (K * V)) :
  exists x, dict_get (same k) (setdefault same k v d) = Some x.
Proof.
  unfold setdefault. destruct (dict_get (same k) d) as [x|] eqn:H.
  - exists x. exact H.
  - exists v. rewrite dict_get_app, H. cbn. now rewrite same_refl.
Qed.

End Dictionaries.

Lemma existsb_names_app (s : DomainType) (l l' : list DomainType) :
  existsb (names_eqb s) (l ++ l') = existsb (names_eqb s) l || existsb (names_eqb s) l'.
Proof. apply existsb_app. Qed.

(** The loop only adds, adds the sub-sections of the fields it passed,
    each of them new, and stops at the first field whose sub-section is
    there already. *)
Lemma occupy_spec (sect : DomainType) (names : list str) (occ : list DomainType) :
  exists done rest,
    names = done ++ rest
    /\ fst (occupy sect names occ) = occ ++ List.map (fun f => sect ++ [f]) done
    /\ Forall (fun f => existsb (names_eqb (sect ++ [f])) occ = false) done
    /\ match snd (occupy sect names occ) with
       | None => rest = []
       | Some sub =>
           exists f rest', rest = f :: rest' /\ sub = sect ++ [f]
                           /\ existsb (names_eqb sub) (fst (occupy sect names occ)) = true
       end.
Proof.
  revert occ. induction names as [|f names IH]; intros occ; cbn [occupy].
  - exists [], []. cbn. rewrite app_nil_r. auto.
  - cbv zeta. destruct (existsb (names_eqb (sect ++ [f])) occ) eqn:Hocc.
    + exists [], (f :: names). cbn. rewrite app_nil_r.
      repeat split; [constructor|]. exists f, names. auto.
    + destruct (IH (occ ++ [sect ++ [f]])) as (done & rest & Hn & Ho & Hfresh & Hf).
      exists (f :: done), rest. cbn [List.map app]. rewrite Ho, <- app_assoc.
      repeat split.
      * now rewrite Hn.
      * constructor; [exact Hocc|].
        eapply Forall_impl; [|exact Hfresh]. intros x Hx. cbn beta in Hx.
        rewrite existsb_app in Hx. now apply orb_false_iff in Hx.
      * rewrite Ho, <- app_assoc in Hf. exact Hf.
Qed.

Lemma sub_section_differs (sect : DomainType) (f : str) :
  names_eqb sect (sect ++ [f]) = false.
Proof.
  destruct (names_eqb sect (sect ++ [f])) eqn:E; [|reflexivity].
  apply names_eqb_eq in E. apply (f_equal (@List.length _)) in E.
  rewrite length_app in E. cbn in E. lia.
Qed.

Lemma existsb_sub_sections (s sect : DomainType) (names : list str) :
  existsb (names_eqb s) (List.map (fun f => sect ++ [f]) names)
  = existsb (fun f => names_eqb s (sect ++ [f])) names.
Proof. induction names as [|f names IH]; cbn; [reflexivity|]. now rewrite IH. Qed.

Lemma occupied_with_setdefault (st : registry) (p0 p : Path) (s : DomainType) :
  occupied (with_occupation st (setdefault str_eqb p0 [] (domain_occupation st))) p s
  = occupied st p s.
Proof.
  unfold occupied. cbn [domain_occupation with_occupation].
  rewrite (getitem_setdefault str_eqb str_eqb_eq). unfold getitem.
  destruct (dict_get (str_eqb p) (domain_occupation st)); [reflexivity|].
  now destruct (str_eqb p p0).
Qed.

Lemma occupied_with_setitem (st : registry) (p0 p : Path) (occ : list DomainType)
  (s : DomainType) :
  occupied (with_occupation st (setitem str_eqb p0 occ (domain_occupation st))) p s
  = if str_eqb p p0 then existsb (names_eqb s) occ else occupied st p s.
Proof.
  unfold occupied. cbn [domain_occupation with_occupation].
  rewrite (getitem_setitem str_eqb str_eqb_eq). now destruct (str_eqb p p0).
Qed.

Lemma with_occupation_same (st : registry) :
  with_occupation st (domain_occupation st) = st.
Proof. now destruct st. Qed.

Section InsertDomainProperties.
Variable E : Type.
Variable storage_lookup : list str -> E + FormattedPath.
Variable fields : model_class -> list str.

(** The occupation after the loop, whether it raised or not. *)
Lemma occupied_after_loop (st : registry) (p0 : Path) (sect : DomainType)
  (names : list str) :
  let st1 := with_occupation st (setdefault str_eqb p0 [] (domain_occupation st)) in
  let r := occupy sect names (getitem str_eqb p0 [] (domain_occupation st1)) in
  let st2 := with_occupation st1 (setitem str_eqb p0 (fst r) (domain_occupation st1)) in
  exists done rest,
    names = done ++ rest
    /\ (forall p s,
          occupied st2 p s
          = occupied st p s
            || (str_eqb p p0 && existsb (fun f => names_eqb s (sect ++ [f])) done))
    /\ Forall (fun f => occupied st p0 (sect ++ [f]) = false) done
    /\ match snd r with
       | None => rest = []
       | Some sub =>
           exists f rest', rest = f :: rest' /\ sub = sect ++ [f]
                           /\ occupied st2 p0 sub = true
       end.
Proof.
  intros st1 r st2.
  destruct (occupy_spec sect names (getitem str_eqb p0 [] (domain_occupation st1)))
    as (done & rest & Hn & Ho & Hfresh & Hf).
  fold r in Ho, Hf.
  exists done, rest. split; [exact Hn|]. split; [|split].
  - intros p s. unfold st2. rewrite occupied_with_setitem, Ho.
    rewrite existsb_app, existsb_sub_sections.
    change (existsb (names_eqb s) (getitem str_eqb p0 [] (domain_occupation st1)))
      with (occupied st1 p0 s).
    unfold st1. rewrite !occupied_with_setdefault.
    destruct (str_eqb p p0) eqn:Ep.
    + apply str_eqb_eq in Ep. subst p. now rewrite andb_true_l.
    + now rewrite andb_false_l, orb_false_r.
  - eapply Forall_impl; [|exact Hfresh]. intros f Hf0. cbn beta in Hf0.
    change (existsb (names_eqb (sect ++ [f])) (getitem str_eqb p0 [] (domain_occupation st1)))
      with (occupied st1 p0 (sect ++ [f])) in Hf0.
    unfold st1 in Hf0. now rewrite occupied_with_setdefault in Hf0.
  - destruct (snd r); [|exact Hf].
    destruct Hf as (f & rest' & H1 & H2 & H3). exists f, rest'.
    repeat split; try assumption.
    unfold st2. now rewrite occupied_with_setitem, str_eqb_refl.
Qed.

(** What a call does once the class and the path are known: it occupies
    the sub-sections of the fields [done] that come before the first
    clash, and registers the class when there is no clash at all. *)
Lemma insert_domain_spec (st : registry) (domains : DomainType)
  (cls : model_class) (fp : FormattedPath) :
  dict_get (names_eqb domains) (domain_map st) = Some cls ->
  storage_lookup domains = inr fp ->
  exists st' r done rest,
    _insert_domain storage_lookup fields st domains = (st', r)
    /\ domain_map st' = domain_map st
    /\ fields cls = done ++ rest
    /\ (forall p s,
          occupied st' p s
          = occupied st p s
            || (str_eqb p (path fp)
                && existsb (fun f => names_eqb s (section fp ++ [f])) done))
    /\ Forall (fun f => occupied st (path fp) (section fp ++ [f]) = false) done
    /\ ((occupied st (path fp) (section fp) = true /\ done = []
         /\ r = inl (NameError (occupied_message (path fp) (section fp)))
         /\ file_map st' = file_map st /\ model_path st' = model_path st)
        \/ (occupied st (path fp) (section fp) = false
            /\ exists f rest',
                 rest = f :: rest'
                 /\ occupied st' (path fp) (section fp ++ [f]) = true
                 /\ r = inl (NameError (occupied_message (path fp) (section fp ++ [f])))
                 /\ file_map st' = file_map st /\ model_path st' = model_path st)
        \/ (occupied st (path fp) (section fp) = false
            /\ rest = [] /\ r = inr tt
            /\ dict_get (N.eqb cls) (model_path st') = Some fp
            /\ getitem names_eqb (section fp) []
                 (getitem str_eqb (path fp) [] (file_map st'))
               = getitem names_eqb (section fp) []
                   (getitem str_eqb (path fp) [] (file_map st)) ++ [cls])).
Proof.
  intros Hcls Hfp. unfold _insert_domain. rewrite Hcls, Hfp. cbv zeta.
  rewrite occupied_with_setdefault.
  destruct (occupied st (path fp) (section fp)) eqn:Hsect.
  - eexists _, _, [], (fields cls). split; [reflexivity|].
    repeat split.
    + intros p s. rewrite occupied_with_setdefault. cbn.
      now rewrite andb_false_r, orb_false_r.
    + constructor.
    + left. repeat split.
  - destruct (occupied_after_loop st (path fp) (section fp) (fields cls))
      as (done & rest & Hn & Ho & Hfresh & Hf). cbv zeta in Ho, Hf.
    destruct (occupy _ _ _) as [occ [sub|]]; cbn [fst snd] in Ho, Hf.
    + destruct Hf as (f & rest' & -> & -> & Hthere).
      eexists _, _, done, (f :: rest'). split; [reflexivity|].
      repeat split; try assumption.
      right. left. split; [reflexivity|]. exists f, rest'. repeat split. exact Hthere.
    + subst rest.
      eexists _, _, done, []. split; [reflexivity|].
      repeat split; try assumption.
      right. right. repeat split.
      * cbn [model_path]. rewrite (dict_get_setitem N.eqb N.eqb_eq). now rewrite N.eqb_refl.
      * cbn [file_map with_occupation].
        rewrite (getitem_setitem str_eqb str_eqb_eq), str_eqb_refl.
        rewrite (getitem_setitem names_eqb names_eqb_eq), names_eqb_refl.
        rewrite (getitem_setdefault names_eqb names_eqb_eq), names_eqb_refl.
        rewrite (getitem_setdefault str_eqb str_eqb_eq), str_eqb_refl.
        unfold getitem.
        destruct (dict_get (str_eqb (path fp)) (file_map st)) as [sections|];
          [|reflexivity].
        now destruct (dict_get (names_eqb (section fp)) sections).
Qed.

(** Without the class or the path nothing is touched. *)
Lemma insert_domain_unknown (st : registry) (domains : DomainType) :
  (dict_get (names_eqb domains) (domain_map st) = None
   \/ exists e, storage_lookup domains = inl e) ->
  fst (_insert_domain storage_lookup fields st domains) = st
  /\ (forall msg,
        snd (_insert_domain storage_lookup fields st domains) <> inl (NameError msg))
  /\ snd (_insert_domain storage_lookup fields st domains) <> inr tt.
Proof.
  unfold _insert_domain. intros [->|[e He]].
  - repeat split; try intros msg; discriminate.
  - destruct (dict_get (names_eqb domains) (domain_map st)) as [cls|];
      [rewrite He|]; repeat split; try intros msg; discriminate.
Qed.

Lemma insert_domain_known_or_not (st : registry) (domains : DomainType) :
  (dict_get (names_eqb domains) (domain_map st) = None
   \/ exists e, storage_lookup domains = inl e)
  \/ exists cls fp,
       dict_get (names_eqb domains) (domain_map st) = Some cls
       /\ storage_lookup domains = inr fp.
Proof.
  destruct (dict_get (names_eqb domains) (domain_map st)) as [cls|]; [|now left; left].
  destruct (storage_lookup domains) as [e|fp]; [left; right; now exists e|].
  right. now exists cls, fp.
Qed.

(** X17: [_insert_domain] never frees a section: whatever was occupied
    before the call is occupied after it, whether it returned or raised. *)
Theorem insert_domain_never_frees (st : registry) (domains : DomainType)
  (p : Path) (s : DomainType) :
  occupied st p s = true ->
  occupied (fst (_insert_domain storage_lookup fields st domains)) p s = true.
Proof.
  intros Hocc.
  destruct (insert_domain_known_or_not st domains) as [H|(cls & fp & Hcls & Hfp)].
  - now rewrite (proj1 (@insert_domain_unknown st domains H)).
  - destruct (@insert_domain_spec st domains cls fp Hcls Hfp)
      as (st' & r & done & rest & -> & _ & _ & Ho & _).
    cbn [fst]. now rewrite Ho, Hocc.
Qed.

(** X18: when [_insert_domain] returns, the section and the sub-sections of
    all the fields of the class were free before the call; after it
    exactly the sub-sections have become occupied (the section itself has
    not), the class is the last one registered for its path and section,
    and its path is recorded. *)
Theorem inserted_domain_occupies_its_fields (st st' : registry) (domains : DomainType) :
  _insert_domain storage_lookup fields st domains = (st', inr tt) ->
  exists cls fmt_path,
    dict_get (names_eqb domains) (domain_map st) = Some cls
    /\ storage_lookup domains = inr fmt_path
    /\ occupied st (path fmt_path) (section fmt_path) = false
    /\ occupied st' (path fmt_path) (section fmt_path) = false
    /\ Forall (fun f => occupied st (path fmt_path) (section fmt_path ++ [f]) = false)
         (fields cls)
    /\ (forall p s,
          occupied st' p s
          = occupied st p s
            || (str_eqb p (path fmt_path)
                && existsb (fun f => names_eqb s (section fmt_path ++ [f])) (fields cls)))
    /\ dict_get (N.eqb cls) (model_path st') = Some fmt_path
    /\ getitem names_eqb (section fmt_path) []
         (getitem str_eqb (path fmt_path) [] (file_map st'))
       = getitem names_eqb (section fmt_path) []
           (getitem str_eqb (path fmt_path) [] (file_map st)) ++ [cls].
Proof.
  intros Hrun.
  destruct (insert_domain_known_or_not st domains) as [H|(cls & fp & Hcls & Hfp)].
  - destruct (@insert_domain_unknown st domains H) as (_ & _ & Hno).
    rewrite Hrun in Hno. now destruct Hno.
  - destruct (@insert_domain_spec st domains cls fp Hcls Hfp)
      as (st0 & r & done & rest & Hrun' & _ & Hn & Ho & Hfresh & Hcase).
    rewrite Hrun in Hrun'. injection Hrun' as <- <-.
    destruct Hcase as [(_ & _ & [=] & _)|[(_ & f & rest' & _ & _ & [=] & _)
                                         |(Hsect & -> & _ & Hpath & Hfiles)]].
    rewrite app_nil_r in Hn. subst done.
    exists cls, fp. repeat split; try assumption.
    rewrite Ho, Hsect, str_eqb_refl. cbn [orb andb].
    clear. induction (fields cls) as [|f l IH]; [reflexivity|].
    cbn [existsb]. now rewrite sub_section_differs, IH.
Qed.

(** X19: when [_insert_domain] raises its [NameError] nothing is
    registered, but the call is not undone: the sub-sections of the fields
    that come before the clashing one have become occupied and stay so. *)
Theorem failed_insertion_is_not_undone (st st' : registry) (domains : DomainType)
  (msg : str) :
  _insert_domain storage_lookup fields st domains = (st', inl (NameError msg)) ->
  domain_map st' = domain_map st /\ file_map st' = file_map st
  /\ model_path st' = model_path st
  /\ exists cls fmt_path,
       dict_get (names_eqb domains) (domain_map st) = Some cls
       /\ storage_lookup domains = inr fmt_path
       /\ ((msg = occupied_message (path fmt_path) (section fmt_path)
            /\ occupied st (path fmt_path) (section fmt_path) = true
            /\ forall p s, occupied st' p s = occupied st p s)
           \/ exists done f rest,
                fields cls = done ++ f :: rest
                /\ msg = occupied_message (path fmt_path) (section fmt_path ++ [f])
                /\ occupied st' (path fmt_path) (section fmt_path ++ [f]) = true
                /\ forall p s,
                     occupied st' p s
                     = occupied st p s
                       || (str_eqb p (path fmt_path)
                           && existsb (fun g => names_eqb s (section fmt_path ++ [g]))
                                done)).
Proof.
  intros Hrun.
  destruct (insert_domain_known_or_not st domains) as [H|(cls & fp & Hcls & Hfp)].
  - destruct (@insert_domain_unknown st domains H) as (_ & Hno & _).
    rewrite Hrun in Hno. now destruct (Hno msg).
  - destruct (@insert_domain_spec st domains cls fp Hcls Hfp)
      as (st0 & r & done & rest & Hrun' & Hdm & Hn & Ho & Hfresh & Hcase).
    rewrite Hrun in Hrun'. injection Hrun' as <- <-.
    destruct Hcase as [(Hsect & -> & [= ->] & Hfm & Hmp)
                      |[(_ & f & rest' & -> & Hthere & [= ->] & Hfm & Hmp)
                       |(_ & _ & [=] & _)]].
    + repeat split; try assumption. exists cls, fp. repeat split; try assumption.
      left. repeat split; [exact Hsect|].
      intros p s. rewrite Ho. cbn. now rewrite andb_false_r, orb_false_r.
    + repeat split; try assumption. exists cls, fp. repeat split; try assumption.
      right. exists done, f, rest'. repeat split; assumption.
Qed.

(** X20: a class with at least one field cannot be inserted twice: after a
    call that returned, the same call raises the [NameError] of the
    sub-section of its first field, and changes neither what is occupied
    nor what is registered. *)
Theorem second_insertion_is_refused (st st' : registry) (domains : DomainType)
  (cls : model_class) (fmt_path : FormattedPath) (f : str) (rest : list str) :
  _insert_domain storage_lookup fields st domains = (st', inr tt) ->
  dict_get (names_eqb domains) (domain_map st) = Some cls ->
  storage_lookup domains = inr fmt_path ->
  fields cls = f :: rest ->
  exists st'',
    _insert_domain storage_lookup fields st' domains
    = (st'', inl (NameError (occupied_message (path fmt_path) (section fmt_path ++ [f]))))
    /\ (forall p s, occupied st'' p s = occupied st' p s)
    /\ file_map st'' = file_map st' /\ model_path st'' = model_path st'.
Proof.
  intros Hrun Hcls Hfp Hfields.
  destruct (@insert_domain_spec st domains cls fmt_path Hcls Hfp)
    as (st0 & r & done & rest0 & Hrun' & Hdm & Hn & Ho & Hfresh & Hcase).
  rewrite Hrun in Hrun'. injection Hrun' as <- <-.
  destruct Hcase as [(_ & _ & [=] & _)|[(_ & f0 & rest' & _ & _ & [=] & _)
                                       |(Hsect & -> & _ & _ & _)]].
  rewrite app_nil_r in Hn. subst done.
  assert (Hsect' : occupied st' (path fmt_path) (section fmt_path) = false).
  { rewrite Ho, Hsect, str_eqb_refl. cbn [orb andb].
    clear. induction (fields cls) as [|x l IH]; [reflexivity|].
    cbn [existsb]. now rewrite sub_section_differs, IH. }
  assert (Hf : occupied st' (path fmt_path) (section fmt_path ++ [f]) = true).
  { rewrite Ho, str_eqb_refl, Hfields. cbn [existsb andb].
    now rewrite names_eqb_refl, orb_true_r. }
  rewrite <- Hdm in Hcls.
  destruct (@insert_domain_spec st' domains cls fmt_path Hcls Hfp)
    as (st'' & r' & done' & rest' & Hrun2 & _ & Hn' & Ho' & Hfresh' & Hcase').
  assert (Hdone : done' = []).
  { destruct done' as [|x done']; [reflexivity|].
    rewrite Hfields in Hn'. injection Hn' as <- _.
    inversion Hfresh' as [|? ? Hx _]. congruence. }
  subst done'. cbn [app] in Hn'.
  exists st''. rewrite Hrun2.
  destruct Hcase' as [(Hocc & _)|[(_ & f' & rest'' & -> & _ & -> & Hfm & Hmp)
                                  |(_ & -> & _)]].
  - congruence.
  - rewrite Hfields in Hn'. injection Hn' as <- _.
    repeat split; try assumption.
    intros p s. rewrite Ho'. cbn. now rewrite andb_false_r, orb_false_r.
  - rewrite Hfields in Hn'. discriminate.
Qed.

End InsertDomainProperties.

(* ================================================================= *)
(** * Closed examples *)

#[local] Existing Instance example_host.

(** C3 as stated fails: [convert] of the host list [[5]] returns an [Array]
    whose element is the host integer it was given, which is no fidelity
    value; converting that integer would have given an [Integer]. *)
Lemma convert_list_keeps_host_int :
  convert list_of_5 10%N = (inr (Seq 10 Array no_attrs [host_5]), 11%N)
  /\ isinstance host_5 JType = false
  /\ convert host_5 11%N = (inr (Integer_5 11), 12%N).
Proof. repeat split; reflexivity. Qed.

(** The amended C3 at the host list [[5]] and the host dict [{"k": 5}]. *)
Lemma convert_containers_are_shallow_witness :
  convert list_of_5 10%N = (inr (Seq 10 Array no_attrs [host_5]), 11%N)
  /\ convert dict_k_5 10%N
     = (inr (Map 10 JObject no_attrs [(host 4 (PyStr (lit "k")), host_5)]), 11%N).
Proof.
  split.
  - apply (proj1 (convert_containers_are_shallow list_of_5 10%N eq_refl)). reflexivity.
  - apply (proj2 (convert_containers_are_shallow dict_k_5 10%N eq_refl)). reflexivity.
Defined.

(** C7 at the object [{name: 'abc', "sizes": [0x1A, 1.5, null]}] in its two
    formattings, and at the text [abc] in single and in double quotes. *)
Lemma equality_and_hash_ignore_formatting_witness :
  (py_eq settings_spread settings_tight = true
   /\ py_hash settings_spread = py_hash settings_tight)
  /\ (py_eq abc_single abc_double = true
      /\ py_hash abc_single = py_hash abc_double).
Proof.
  split.
  - destruct (proj2 (equality_and_hash_ignore_formatting
                       (heap_of (nodes settings_spread ++ nodes settings_tight))
                       settings_spread settings_tight)) as [He Hh].
    + reflexivity.
    + cbn. repeat split.
    + cbn. repeat split.
    + reflexivity.
    + split; [exact He|]. apply Hh. reflexivity.
  - destruct (proj2 (equality_and_hash_ignore_formatting
                       (heap_of [abc_single; abc_double])
                       abc_single abc_double)) as [He Hh].
    + reflexivity.
    + cbn. repeat split.
    + cbn. repeat split.
    + reflexivity.
    + split; [exact He|]. apply Hh. reflexivity.
Defined.

(** C8 at a set. *)
Lemma convert_rejects_unclassified_witness :
  convert a_set 10%N
  = (inl (TypeError (lit "{1, 2} can't be automatically converted to JSONType!")), 10%N).
Proof. apply (convert_rejects_unclassified a_set 10%N). reflexivity. Defined.

(** ** The further properties at sample values *)

(** X2 at the array of the strings ['a'] and ['b']. *)
Lemma sequence_text_by_position_witness :
  dumps (Seq 1 Array no_attrs [quoted 2%N SINGLE [] (lit "a"); quoted 3%N SINGLE [] (lit "b")])
  = (lit "['a','b']", inr tt).
Proof.
  apply sequence_text_by_position.
  - right; right; left; reflexivity.
  - repeat constructor; cbn; intuition discriminate.
  - repeat constructor.
Defined.

(** X3 at the object with the one pair ['k': 'v']. *)
Lemma mapping_text_by_position_witness :
  dumps (Map 1 JObject no_attrs
           [(quoted 2%N SINGLE [] (lit "k"), quoted 3%N SINGLE [] (lit "v"))])
  = (lit "{'k':'v'}", inr tt).
Proof.
  apply mapping_text_by_position.
  - right; left; reflexivity.
  - repeat constructor; cbn; intuition discriminate.
  - repeat constructor.
Defined.

(** X4 at a host list of a string, the host integer 5 and a set: the
    integer stops the encoder before the set is reached. *)
Lemma sequence_outcome_witness :
  outcome (Seq 1 py_list no_attrs [quoted 4%N SINGLE [] (lit "a"); host_5; a_set])
  = inl (no_prefixed Integer).
Proof.
  apply sequence_outcome.
  left; reflexivity.
Defined.

(** X5 at the host dict [{"k": 5}]. *)
Lemma mapping_outcome_witness :
  outcome (Map 1 py_dict no_attrs [(host 4 (PyStr (lit "k")), host_5)])
  = inl (no_prefixed Integer).
Proof.
  apply mapping_outcome.
  left; reflexivity.
Defined.

(** X6 at the text [abc] in single quotes after a blank. *)
Lemma json_clear_strips_the_atoms_witness :
  encodes (restyle [] [] abc_single)
  /\ dumps abc_single
     = (lit " " ++ written (restyle [] [] abc_single) ++ [], inr tt).
Proof.
  exact (json_clear_strips_the_atoms (obj := abc_single)
           (cleared := restyle [] [] abc_single) eq_refl eq_refl).
Defined.

(** X7 at a host string holding a newline. *)
Lemma escaped_has_no_raw_control_witness :
  ~ In 10%N (escape_string (host 1 (PyStr [97%N; 10%N; 98%N])) []).
Proof.
  apply escaped_has_no_raw_control.
  - reflexivity.
  - left; reflexivity.
Defined.

(** X8 at the one-character text U+2028 and the six-character text of a
    backslash and [u2028]. *)
Lemma line_separator_is_written_as_its_escape_witness :
  escape_string (host 1 (PyStr [8232%N])) []
  = escape_string (host 2 (PyStr ([92%N] ++ lit "u2028"))) [].
Proof.
  apply line_separator_is_written_as_its_escape
    with (p := []) (s := []) (c := 8232%N) (code := "u2028"%string);
    try reflexivity.
  left; reflexivity.
Defined.

(** X9 at the texts [a\b] and [a/b]. *)
Lemma escape_string_tells_texts_apart_witness :
  escape_string (host 1 (PyStr (lit "a\b"))) []
  <> escape_string (host 2 (PyStr (lit "a/b"))) [].
Proof.
  apply escape_string_tells_texts_apart; try reflexivity.
  - intros c Hc. cbn in Hc. cbn. intuition (subst; discriminate).
  - discriminate.
Defined.

(** X10 at the [HexInteger] 255 without origin text. *)
Lemma integer_round_dump_reads_back_witness :
  int_of_text 16 (lit "0xff") = inr 255.
Proof.
  apply integer_round_dump_reads_back
    with (self := Atom 1 HexInteger no_attrs (PyInt 255)).
  - right; left; reflexivity.
  - reflexivity.
Defined.

(** X12 at the host [True]. *)
Lemma converted_literal_is_written_witness :
  exists o, convert (host 1 (PyBool true)) 10%N = (inr o, 11%N)
            /\ dumps o = (lit "true", inr tt).
Proof.
  apply converted_literal_is_written.
  left; reflexivity.
Defined.

(** X13 at a date. *)
Lemma converted_opaque_value_is_not_written_witness :
  exists o, convert (host 1 (PyOpaque py_date 0 (lit "2020-01-02"))) 10%N = (inr o, 11%N)
            /\ dumps o = ([], inl (NotImplementedError (lit "Unknown literal: 2020-01-02"))).
Proof.
  apply converted_opaque_value_is_not_written.
  reflexivity.
Defined.

(** X14 at the host integer 5. *)
Lemma convert_settles_at_once_witness :
  isinstance (Integer_5 10) JType = true
  /\ convert (Integer_5 10) 11%N = (inr (Integer_5 10), 11%N)
  /\ (isinstance host_5 JType = false ->
      id_of (Integer_5 10) = 10%N /\ 11%N = N.succ 10%N
      /\ attrs_of (Integer_5 10) = no_attrs).
Proof.
  apply convert_settles_at_once. reflexivity.
Defined.

(** X15 at the host dict [{"k": 5}]. *)
Lemma converted_equals_original_witness :
  py_eq (Map 10 JObject no_attrs [(host 4 (PyStr (lit "k")), host_5)]) dict_k_5 = true
  /\ py_eq dict_k_5 (Map 10 JObject no_attrs [(host 4 (PyStr (lit "k")), host_5)]) = true
  /\ py_hash (Map 10 JObject no_attrs [(host 4 (PyStr (lit "k")), host_5)])
     = py_hash dict_k_5.
Proof.
  apply converted_equals_original with (next := 10%N) (next' := 11%N); reflexivity.
Defined.

(** X17 at the sub-section [app.name], occupied since the first call, and
    a second call for the same domain. *)
Lemma insert_domain_never_frees_witness :
  occupied
    (fst (_insert_domain sample_lookup sample_fields sample_registered sample_domain))
    (lit "config.jsonc") [lit "app"; lit "name"] = true.
Proof.
  apply insert_domain_never_frees. reflexivity.
Defined.

(** X18 at the first call for the domain [app]. *)
Lemma inserted_domain_occupies_its_fields_witness :
  exists cls fmt_path,
    dict_get (names_eqb sample_domain) (domain_map sample_registry) = Some cls
    /\ sample_lookup sample_domain = inr fmt_path
    /\ occupied sample_registry (path fmt_path) (section fmt_path) = false
    /\ occupied sample_registered (path fmt_path) (section fmt_path) = false
    /\ Forall (fun f => occupied sample_registry (path fmt_path) (section fmt_path ++ [f])
                        = false)
         (sample_fields cls)
    /\ (forall p s,
          occupied sample_registered p s
          = occupied sample_registry p s
            || (str_eqb p (path fmt_path)
                && existsb (fun f => names_eqb s (section fmt_path ++ [f]))
                     (sample_fields cls)))
    /\ dict_get (N.eqb cls) (model_path sample_registered) = Some fmt_path
    /\ getitem names_eqb (section fmt_path) []
         (getitem str_eqb (path fmt_path) [] (file_map sample_registered))
       = getitem names_eqb (section fmt_path) []
           (getitem str_eqb (path fmt_path) [] (file_map sample_registry)) ++ [cls].
Proof.
  apply (@inserted_domain_occupies_its_fields unit sample_lookup sample_fields
           sample_registry sample_registered sample_domain).
  reflexivity.
Defined.

(** X19 at a second call for the domain [app], which raises. *)
Lemma failed_insertion_is_not_undone_witness :
  file_map
    (fst (_insert_domain sample_lookup sample_fields sample_registered sample_domain))
  = file_map sample_registered
  /\ model_path
       (fst (_insert_domain sample_lookup sample_fields sample_registered sample_domain))
     = model_path sample_registered.
Proof.
  destruct (@failed_insertion_is_not_undone unit sample_lookup sample_fields
              sample_registered
              (fst (_insert_domain sample_lookup sample_fields sample_registered
                      sample_domain))
              sample_domain (lit "config.jsonc::app.name is occupied!") eq_refl)
    as (_ & H2 & H3 & _).
  exact (conj H2 H3).
Defined.

(** X20 at the same second call. *)
Lemma second_insertion_is_refused_witness :
  exists st'',
    _insert_domain sample_lookup sample_fields sample_registered sample_domain
    = (st'', inl (NameError (lit "config.jsonc::app.name is occupied!")))
    /\ (forall p s, occupied st'' p s = occupied sample_registered p s)
    /\ file_map st'' = file_map sample_registered
    /\ model_path st'' = model_path sample_registered.
Proof.
  apply (@second_insertion_is_refused unit sample_lookup sample_fields
           sample_registry sample_registered sample_domain 1%N
           {| path := lit "config.jsonc"; section := sample_domain |}
           (lit "name") [lit "port"]);
    reflexivity.
Defined.
